(** * DocSync backend: the collaborative session core

    A shallow embedding of the socket service of the DocSync backend
    (src/services/socketService.ts and its second copy kept in the
    repository, src/utils/helper.ts, src/services/documentService.ts, the
    DocumentService object, the routes of
    src/controllers/documentController.ts that change a document, and the
    Mongoose schemas), together with the properties its design document
    states about it and further properties read off the code.

    Every awaited call of the TypeScript code, and every emit or read of
    the socket and of the clock, is one atomic operation on the stores
    (MongoDB collections, Redis, the socket.io rooms): handlers are written
    once as programs over these operations and are then either run to
    completion (one event at a time) or interleaved operation by operation
    (several events in flight). What the libraries do around the code is
    part of the model where the code depends on it: the validators, the
    unique index and [minimize] of Mongoose, and the order in which
    socket.io leaves the rooms of a closing socket and emits [disconnect]. *)

From stdpp Require Import gmap strings list fin_maps sets.
From Stdlib Require Import ZArith Lia Ascii.

Open Scope Z_scope.
Open Scope string_scope.
Open Scope list_scope.

(** ** Values *)

(** The payloads typed [any] in the source: what the handlers do with them
    is test their truthiness ([a || b]) and store them. *)
Inductive JsVal : Type :=
| JNull
| JBool (b : bool)
| JNum (n : Z)
| JStr (s : string)
| JObj (json : string).   (* any object or array, by its JSON text *)

Definition truthy (v : JsVal) : bool :=
  match v with
  | JNull => false
  | JBool b => b
  | JNum n => negb (Z.eqb n 0)
  | JStr s => negb (String.eqb s "")
  | JObj _ => true
  end.

(** [a || b] *)
Definition js_or (a b : JsVal) : JsVal := if truthy a then a else b.

(** [n || 0] on a number *)
Definition or0 (n : Z) : Z := if Z.eqb n 0 then 0 else n.

(** [const defaultValue = {}] *)
Definition defaultValue : JsVal := JObj "{}".

(** ** The data model (src/models) *)

Inductive Permission : Type := view | edit.

Record Collaborator : Type := mkCollaborator {
  c_user : string;
  c_permission : Permission
}.

Record Document : Type := mkDocument {
  d_id : string;
  title : string;
  content : JsVal;
  data : JsVal;
  owner : string;
  collaborators : list Collaborator;
  onlineUsers : list string;
  currentVersion : Z;
  updatedAt : Z
}.

Record DocumentVersion : Type := mkVersion {
  v_document : string;
  versionNumber : Z;
  v_content : JsVal;
  createdBy : string;
  createdAt : Z
}.

Record User : Type := mkUser {
  u_id : string;
  username : string;
  email : string;
  password : option string
}.

Global Instance JsVal_eq_dec : EqDecision JsVal.
Proof. solve_decision. Defined.
Global Instance Permission_eq_dec : EqDecision Permission.
Proof. solve_decision. Defined.
Global Instance Collaborator_eq_dec : EqDecision Collaborator.
Proof. solve_decision. Defined.
Global Instance DocumentVersion_eq_dec : EqDecision DocumentVersion.
Proof. solve_decision. Defined.
Global Instance User_eq_dec : EqDecision User.
Proof. solve_decision. Defined.

(** ** What the server sends *)

Inductive Payload : Type :=
| PMessage (message : string)
| PValue (v : JsVal)
| PUserJoined (id uname mail : string) (online : list string)
| PUserLeft (userId : string) (online : list string)
| PCursor (userId uname : string) (position : JsVal) (timestamp : Z).

Inductive OutEvent : Type :=
| ToSocket (sock : string) (event : string) (p : Payload)
    (* socket.emit *)
| ToRoomExcept (room : string) (sock : string) (event : string) (p : Payload)
    (* socket.to(room).emit, socket.broadcast.to(room).emit *)
| ToRoom (room : string) (event : string) (p : Payload)
    (* io.to(room).emit *)
| Refused (sock : string) (message : string).
    (* next(new Error(message)) in the connection middleware *)

Global Instance Payload_eq_dec : EqDecision Payload.
Proof. solve_decision. Defined.
Global Instance OutEvent_eq_dec : EqDecision OutEvent.
Proof. solve_decision. Defined.

(** ** The stores *)

Record State : Type := mkState {
  docs : gmap string Document;        (* the Document collection, by _id *)
  versions : list DocumentVersion;    (* the DocumentVersion collection:
                                         the records as they were created *)
  users : gmap string User;           (* the User collection, by _id *)
  cache : gset string;                (* keys present in Redis *)
  rooms : gmap string (list string);  (* socket.id -> socket.rooms *)
  session : gmap string User;         (* socket.id -> socket.user *)
  clock : Z;                          (* Date.now() *)
  out : list OutEvent                 (* everything emitted, oldest first *)
}.

Definition empty_state : State :=
  mkState ∅ [] ∅ ∅ ∅ ∅ 0 [].

(** The two error classes of [jwt.verify]: [TokenExpiredError], and
    [JsonWebTokenError] for a token that is malformed or does not verify. *)
Inductive JwtError : Type := JsonWebTokenError | TokenExpiredError.

Inductive Err : Type :=
| DuplicateKey       (* E11000 from a unique index *)
| ValidationError    (* a required path is null *)
| JwtFailure (e : JwtError)
| OtherError (message : string).

(** Versions of one document, oldest first. *)
Definition versions_of (D : string) (vs : list DocumentVersion)
  : list DocumentVersion :=
  filter (fun v => v_document v = D) vs.

Definition version_numbers (D : string) (vs : list DocumentVersion) : list Z :=
  versionNumber <$> versions_of D vs.

(** The compound unique index [{document: 1, versionNumber: 1}]. *)
Definition index_taken (v : DocumentVersion) (vs : list DocumentVersion) : bool :=
  bool_decide (versionNumber v ∈ version_numbers (v_document v) vs).

(** [content: { type: Mixed, required: true }]: the required validator of a
    Mixed path rejects null and undefined only. *)
Definition content_valid (v : DocumentVersion) : bool :=
  match v_content v with JNull => false | _ => true end.

(** $addToSet and $pull on [onlineUsers] *)
Definition addToSet (u : string) (l : list string) : list string :=
  if bool_decide (u ∈ l) then l else l ++ [u].

Definition pull (u : string) (l : list string) : list string :=
  filter (fun x => x ≠ u) l.

(** ** Store operations: one per awaited call *)

Inductive Op : Type -> Type :=
| DocFindById (id : string) : Op (option Document)
| DocInsert (d : Document) : Op (Err + Document)
| DocUpdate (id : string) (f : Document -> Document) : Op unit
| VerInsert (v : DocumentVersion) : Op (Err + DocumentVersion)
| UserFindById (id : string) : Op (option User)
| RedisDel (key : string) : Op unit
| Emit (e : OutEvent) : Op unit
| SockJoin (sock room : string) : Op unit
| SockRooms (sock : string) : Op (list string)
| SockLeaveAll (sock : string) : Op unit
| SockSetUser (sock : string) (u : User) : Op unit
| SockUser (sock : string) : Op (option User)
| RedisKeys (prefix : string) : Op (list string)
| NewObjectId : Op string
| DateNow : Op Z.

Definition set_docs (st : State) (m : gmap string Document) : State :=
  mkState m (versions st) (users st) (cache st) (rooms st) (session st)
          (clock st) (out st).
Definition set_versions (st : State) (vs : list DocumentVersion) : State :=
  mkState (docs st) vs (users st) (cache st) (rooms st) (session st)
          (clock st) (out st).
Definition set_cache (st : State) (c : gset string) : State :=
  mkState (docs st) (versions st) (users st) c (rooms st) (session st)
          (clock st) (out st).
Definition set_rooms (st : State) (r : gmap string (list string)) : State :=
  mkState (docs st) (versions st) (users st) (cache st) r (session st)
          (clock st) (out st).
Definition set_session (st : State) (s : gmap string User) : State :=
  mkState (docs st) (versions st) (users st) (cache st) (rooms st) s
          (clock st) (out st).
Definition set_out (st : State) (o : list OutEvent) : State :=
  mkState (docs st) (versions st) (users st) (cache st) (rooms st) (session st)
          (clock st) o.

(** An identifier attached to no document and to no version record. *)
Definition fresh_id (st : State) : string :=
  fresh (dom (docs st) ∪ list_to_set (v_document <$> versions st) : gset string).

Definition exec {X : Type} (op : Op X) (st : State) : X * State :=
  match op in Op X return X * State with
  | DocFindById id => (docs st !! id, st)
  | DocInsert d =>
      match docs st !! d_id d with
      | Some _ => (inl DuplicateKey, st)
      | None => (inr d, set_docs st (<[d_id d := d]> (docs st)))
      end
  | DocUpdate id f =>
      match docs st !! id with
      | Some d => (tt, set_docs st (<[id := f d]> (docs st)))
      | None => (tt, st)
      end
  | VerInsert v =>
      (* validated, then checked against the index; kept as it was given *)
      if negb (content_valid v) then (inl ValidationError, st)
      else if index_taken v (versions st) then (inl DuplicateKey, st)
      else (inr v, set_versions st (versions st ++ [v]))
  | UserFindById id => (users st !! id, st)
  | RedisDel key => (tt, set_cache st (cache st ∖ {[key]}))
  | Emit e => (tt, set_out st (out st ++ [e]))
  | SockJoin sock room =>
      (tt, set_rooms st (<[sock := addToSet room (default [] (rooms st !! sock))]>
                           (rooms st)))
  | SockRooms sock => (default [] (rooms st !! sock), st)
  | SockLeaveAll sock =>
      (* socket.leaveAll(): socket.rooms is empty afterwards *)
      (tt, set_rooms st (delete sock (rooms st)))
  | SockSetUser sock u => (tt, set_session st (<[sock := u]> (session st)))
  | SockUser sock => (session st !! sock, st)
  | RedisKeys prefix =>
      (filter (fun key => String.prefix prefix key = true) (elements (cache st)), st)
  | NewObjectId => (fresh_id st, st)
  | DateNow => (clock st, st)
  end.

(** ** Handler programs *)

Inductive Prog (A : Type) : Type :=
| Ret (a : A)
| Throw (e : Err)
| Vis {X : Type} (op : Op X) (k : X -> Prog A).

Arguments Ret {A} a.
Arguments Throw {A} e.
Arguments Vis {A X} op k.

Fixpoint bind {A B : Type} (p : Prog A) (f : A -> Prog B) : Prog B :=
  match p with
  | Ret a => f a
  | Throw e => Throw e
  | Vis op k => Vis op (fun x => bind (k x) f)
  end.

(** [try { p } catch (error) { h error }] *)
Fixpoint try_catch {A : Type} (p : Prog A) (h : Err -> Prog A) : Prog A :=
  match p with
  | Ret a => Ret a
  | Throw e => h e
  | Vis op k => Vis op (fun x => try_catch (k x) h)
  end.

Definition call {X : Type} (op : Op X) : Prog X := Vis op Ret.

(** An awaited call that rejects: the rejection is thrown at the [await]. *)
Definition call_or_throw {X : Type} (op : Op (Err + X)) : Prog X :=
  Vis op (fun r => match r with inl e => Throw e | inr x => Ret x end).

Global Instance prog_ret : MRet Prog := fun A a => Ret a.
Global Instance prog_bind : MBind Prog := fun A B f p => bind p f.

(** [for (const x of l) { body x }] *)
Fixpoint for_of {A : Type} (l : list A) (body : A -> Prog unit) : Prog unit :=
  match l with
  | [] => Ret tt
  | x :: l' => body x ;; for_of l' body
  end.

(** How a handler ends. *)
Inductive Outcome (A : Type) : Type :=
| Done (a : A)
| Threw (e : Err).
Arguments Done {A} a.
Arguments Threw {A} e.

(** One event at a time: the program runs to its end. *)
Fixpoint run {A : Type} (p : Prog A) (st : State) : Outcome A * State :=
  match p with
  | Ret a => (Done a, st)
  | Throw e => (Threw e, st)
  | Vis op k => let '(x, st') := exec op st in run (k x) st'
  end.

(** ** The model calls *)

(** [DocumentModel.create({...})]: schema defaults fill [onlineUsers] (empty),
    [currentVersion] (1) and the two dates; without an [_id] a new ObjectId
    is generated. A caller that gives no [data] or no [collaborators] passes
    their schema defaults, [{}] and the empty list. *)
Definition Document_create (id : option string) (ttl : string) (c x : JsVal)
    (own : string) (cs : list Collaborator) : Prog Document :=
  id' ← match id with Some i => mret i | None => call NewObjectId end;
  now ← call DateNow;
  call_or_throw (DocInsert (mkDocument id' ttl c x own cs [] 1 now)).

(** [DocumentVersion.create({document, versionNumber, content, createdBy})].
    The record is validated and kept as it is given; what Mongoose writes
    of its content, and hence what a later read finds, is [stored_content]
    below. *)
Definition DocumentVersion_create (doc : string) (n : Z) (c : JsVal)
    (by_user : string) : Prog DocumentVersion :=
  now ← call DateNow;
  call_or_throw (VerInsert (mkVersion doc n c by_user now)).

(** ** src/utils/helper.ts *)

Definition with_onlineUsers (l : list string) (d : Document) : Document :=
  mkDocument (d_id d) (title d) (content d) (data d) (owner d)
             (collaborators d) l (currentVersion d) (updatedAt d).

Definition with_version (n now : Z) (d : Document) : Document :=
  mkDocument (d_id d) (title d) (content d) (data d) (owner d)
             (collaborators d) (onlineUsers d) n now.

Definition with_saved (x : JsVal) (n now : Z) (d : Document) : Document :=
  mkDocument (d_id d) (title d) x x (owner d)
             (collaborators d) (onlineUsers d) n now.

(** [collaborators.find(c => c.user.toString() === userId.toString())] *)
Definition find_collaborator (userId : string) (l : list Collaborator)
  : option Collaborator :=
  List.find (fun c => bool_decide (c_user c = userId)) l.

Definition addUserToDocument (documentId : string) (user : User) : Prog bool :=
  try_catch
    (call (DocUpdate documentId
             (fun d => with_onlineUsers (addToSet (u_id user) (onlineUsers d)) d)) ;;
     mret true)
    (fun _ => mret false).

Definition removeUserFromDocument (documentId userId : string) : Prog bool :=
  try_catch
    (call (DocUpdate documentId
             (fun d => with_onlineUsers (pull userId (onlineUsers d)) d)) ;;
     mret true)
    (fun _ => mret false).

(** The populate calls replace each stored id by the summary of that user;
    the list keeps one element per stored id (users are never deleted). *)
Definition getOnlineUsers (documentId : string) : Prog (list string) :=
  try_catch
    (document ← call (DocFindById documentId);
     match document with
     | None => mret []
     | Some document => mret (onlineUsers document)
     end)
    (fun _ => mret []).

Definition hasDocumentAccess (documentId userId : string) : Prog bool :=
  try_catch
    (document ← call (DocFindById documentId);
     match document with
     | None => mret false
     | Some document =>
         if bool_decide (owner document = userId) then mret true
         else mret (existsb (fun c => bool_decide (c_user c = userId))
                            (collaborators document))
     end)
    (fun _ => mret false).

Definition is_edit (p : Permission) : bool :=
  match p with edit => true | view => false end.

Definition hasEditPermission (documentId userId : string) : Prog bool :=
  try_catch
    (document ← call (DocFindById documentId);
     match document with
     | None => mret false
     | Some document =>
         if bool_decide (owner document = userId) then mret true
         else
           match find_collaborator userId (collaborators document) with
           | Some c => mret (is_edit (c_permission c))
           | None => mret false
           end
     end)
    (fun _ => mret false).

(** ** src/services/documentService.ts *)

Inductive Access : Type := acc_owner | acc_edit | acc_view | acc_none.

Global Instance Access_eq_dec : EqDecision Access.
Proof. solve_decision. Defined.

Definition of_permission (p : Permission) : Access :=
  match p with view => acc_view | edit => acc_edit end.

(** What [checkDocumentAccess] returns: [permission] stands for
    [{hasAccess: true, permission, document}], the other three for
    [{hasAccess: false, message}]. *)
Inductive AccessResult : Type :=
| Granted (permission : Access) (document : Document)
| NotGranted (message : string).

Definition checkDocumentAccess (documentId userId : string) : Prog AccessResult :=
  try_catch
    (document ← call (DocFindById documentId);
     match document with
     | None => mret (NotGranted "Document not found")
     | Some document =>
         if bool_decide (owner document = userId)
         then mret (Granted acc_owner document)
         else
           match find_collaborator userId (collaborators document) with
           | None => mret (NotGranted "Access denied")
           | Some collaborator =>
               mret (Granted (of_permission (c_permission collaborator)) document)
           end
     end)
    (fun _ => mret (NotGranted "Error checking access")).

(** [createDocumentVersion(documentId, content, userId)]: [document.save()]
    writes the paths modified in memory (currentVersion, content,
    updatedAt); errors are logged and thrown again. *)
Definition createDocumentVersion (documentId : string) (c : string)
    (userId : string) : Prog DocumentVersion :=
  try_catch
    (document ← call (DocFindById documentId);
     match document with
     | None => Throw (OtherError "Document not found")
     | Some document =>
         let currentVersion' := currentVersion document + 1 in
         now ← call DateNow;
         call (DocUpdate documentId
                 (fun d => mkDocument (d_id d) (title d) (JStr c) (data d) (owner d)
                             (collaborators d) (onlineUsers d) currentVersion' now)) ;;
         DocumentVersion_create documentId currentVersion' (JStr c) userId
     end)
    (fun error => Throw error).

(** The decision of [checkDocumentAccess] on a document already read. *)
Definition decide_access (document : Document) (userId : string) : Access :=
  if bool_decide (owner document = userId) then acc_owner
  else match find_collaborator userId (collaborators document) with
       | Some c => of_permission (c_permission c)
       | None => acc_none
       end.

Definition grants_write (a : Access) : bool :=
  match a with acc_owner | acc_edit => true | _ => false end.

(** ** src/services/socketService.ts *)

(** [saveDocumentVersion(documentId, userId)] *)
Definition saveDocumentVersion (documentId userId : string) : Prog unit :=
  try_catch
    (document ← call (DocFindById documentId);
     match document with
     | None => mret tt
     | Some document =>
         let currentVersion' := or0 (currentVersion document) in
         let newVersionNumber := currentVersion' + 1 in
         now ← call DateNow;
         call (DocUpdate documentId (with_version newVersionNumber now)) ;;
         DocumentVersion_create documentId newVersionNumber
           (js_or (data document) (content document)) userId ;;
         call (RedisDel ("document:" +:+ documentId)) ;;
         call (RedisDel ("user:" +:+ userId +:+ ":documents"))
     end)
    (fun _ => mret tt).

(** [Array.from(socket.rooms).filter((room) => room !== socket.id)] *)
Definition document_rooms (sock : string) : Prog (list string) :=
  rs ← call (SockRooms sock);
  mret (filter (fun room => room ≠ sock) rs).

Definition socket_error (sock message : string) : Prog unit :=
  call (Emit (ToSocket sock "error" (PMessage message))).

(** The test guarding both write handlers:
    [!isOwner && (!collaborator || collaborator.permission !== "edit")] *)
Definition write_denied (document : Document) (user : User) : bool :=
  let isOwner := bool_decide (owner document = u_id user) in
  let collaborator := find_collaborator (u_id user) (collaborators document) in
  negb isOwner &&
  match collaborator with
  | None => true
  | Some c => negb (is_edit (c_permission c))
  end.

(** What [get-document] does once access is settled. *)
Definition join_document (sock : string) (user : User) (documentId : string)
    (document : Document) : Prog unit :=
  call (SockJoin sock documentId) ;;
  addUserToDocument documentId user ;;
  onlineUsers' ← getOnlineUsers documentId;
  (if bool_decide (1 < length onlineUsers')%nat
   then saveDocumentVersion documentId (u_id user)
   else mret tt) ;;
  let documentData := js_or (data document) defaultValue in
  call (Emit (ToSocket sock "load-document" (PValue documentData))) ;;
  call (Emit (ToRoom documentId "user-joined"
                (PUserJoined (u_id user) (username user) (email user)
                             onlineUsers'))).

(** [socket.on("get-document", async (documentId) => ...)] *)
Definition on_get_document (sock : string) (user : User) (documentId : string)
  : Prog unit :=
  try_catch
    (document ← call (DocFindById documentId);
     match document with
     | Some document =>
         hasAccess ← hasDocumentAccess documentId (u_id user);
         if negb hasAccess then socket_error sock "Access denied"
         else join_document sock user documentId document
     | None =>
         document ← Document_create (Some documentId) "Untitled Document"
                      (JStr "") defaultValue (u_id user) [];
         DocumentVersion_create (d_id document) 1 (JStr "") (u_id user) ;;
         call (RedisDel ("user:" +:+ u_id user +:+ ":documents")) ;;
         join_document sock user documentId document
     end)
    (fun _ => socket_error sock "Failed to load document").

(** One turn of the loop of [send-changes]. *)
Definition send_changes_room (sock : string) (user : User) (delta : JsVal)
    (documentId : string) : Prog unit :=
  document ← call (DocFindById documentId);
  match document with
  | None => mret tt
  | Some document =>
      if write_denied document user
      then socket_error sock "You do not have permission to edit this document"
      else call (Emit (ToRoomExcept documentId sock "receive-changes"
                         (PValue delta)))
  end.

(** [socket.on("send-changes", async (delta) => ...)] *)
Definition on_send_changes (sock : string) (user : User) (delta : JsVal)
  : Prog unit :=
  try_catch
    (rs ← document_rooms sock;
     for_of rs (send_changes_room sock user delta))
    (fun _ => socket_error sock "Failed to send changes").

(** [socket.on("cursor-position", ({ documentId, position }) => ...)]:
    the listener destructures its argument, outside any try/catch. An
    event sent without payload (or with null) has nothing to destructure
    and the listener throws a TypeError. *)
Definition on_cursor_position (sock : string) (user : User)
    (payload : option (string * JsVal)) : Prog unit :=
  match payload with
  | None => Throw (OtherError "TypeError: Cannot destructure property 'documentId'")
  | Some (documentId, position) =>
      now ← call DateNow;
      call (Emit (ToRoomExcept documentId sock "cursor-moved"
                    (PCursor (u_id user) (username user) position now)))
  end.

(** One turn of the loop of [save-document]. *)
Definition save_document_room (sock : string) (user : User) (x : JsVal)
    (documentId : string) : Prog unit :=
  document ← call (DocFindById documentId);
  match document with
  | None => mret tt
  | Some document =>
      if write_denied document user
      then socket_error sock "You do not have permission to save this document"
      else
        let currentVersion' := or0 (currentVersion document) in
        let newVersionNumber := currentVersion' + 1 in
        now ← call DateNow;
        call (DocUpdate documentId (with_saved x newVersionNumber now)) ;;
        DocumentVersion_create documentId newVersionNumber
          (js_or x (content document)) (u_id user) ;;
        call (RedisDel ("document:" +:+ documentId)) ;;
        call (RedisDel ("user:" +:+ u_id user +:+ ":documents"))
  end.

(** [socket.on("save-document", async (data) => ...)] *)
Definition on_save_document (sock : string) (user : User) (x : JsVal)
  : Prog unit :=
  try_catch
    (rs ← document_rooms sock;
     for_of rs (save_document_room sock user x))
    (fun _ => socket_error sock "Failed to save document").

(** One turn of the loop of [disconnect]. *)
Definition disconnect_room (user : User) (documentId : string) : Prog unit :=
  onlineUsersBefore ← getOnlineUsers documentId;
  removeUserFromDocument documentId (u_id user) ;;
  onlineUsersAfter ← getOnlineUsers documentId;
  (if bool_decide (1 < length onlineUsersBefore)%nat
      && bool_decide (0 < length onlineUsersAfter)%nat
   then saveDocumentVersion documentId (u_id user)
   else mret tt) ;;
  call (Emit (ToRoom documentId "user-left"
                (PUserLeft (u_id user) onlineUsersAfter))).

(** [socket.on("disconnect", async () => ...)]. socket.io 4 emits
    [disconnect] from [Socket._onclose], after it has called
    [this.leaveAll()]: when the listener runs the socket is in no room any
    more, its own included, and that is the [socket.rooms] the listener
    reads. (The rooms are still held when [disconnecting] is emitted, for
    which the service registers nothing.) *)
Definition on_disconnect (sock : string) (user : User) : Prog unit :=
  call (SockLeaveAll sock) ;;
  try_catch
    (rs ← document_rooms sock;
     for_of rs (disconnect_room user))
    (fun _ => mret tt).

(** ** The second copy of the socket service kept in the repository

    It differs from src/services/socketService.ts in what it does after a
    save (and in taking no snapshot on joins and departures). *)
Module Variant.

Definition invalidateDocumentCache (documentId userId : string) : Prog unit :=
  try_catch
    (call (RedisDel ("document:" +:+ documentId +:+ ":user:" +:+ userId)) ;;
     call (RedisDel ("user:" +:+ userId +:+ ":documents")))
    (fun _ => mret tt).

Definition save_document_room (sock : string) (user : User) (x : JsVal)
    (documentId : string) : Prog unit :=
  document ← call (DocFindById documentId);
  match document with
  | None => mret tt
  | Some document =>
      if write_denied document user
      then socket_error sock "You do not have permission to save this document"
      else
        let currentVersion' := or0 (currentVersion document) in
        let newVersionNumber := currentVersion' + 1 in
        now ← call DateNow;
        call (DocUpdate documentId (with_saved x newVersionNumber now)) ;;
        DocumentVersion_create documentId newVersionNumber
          (js_or x (content document)) (u_id user) ;;
        let userId := u_id user in
        invalidateDocumentCache documentId userId ;;
        (if bool_decide (0 < length (collaborators document))%nat
         then for_of (collaborators document)
                (fun collaborator =>
                   invalidateDocumentCache documentId (c_user collaborator))
         else mret tt) ;;
        let ownerId := owner document in
        if bool_decide (ownerId ≠ userId)
        then invalidateDocumentCache documentId ownerId
        else mret tt
  end.

Definition on_save_document (sock : string) (user : User) (x : JsVal)
  : Prog unit :=
  try_catch
    (rs ← document_rooms sock;
     for_of rs (save_document_room sock user x))
    (fun _ => socket_error sock "Failed to save document").

(** What its [get-document] does once access is settled: no snapshot is
    taken, and the online users are read after [load-document] is sent. *)
Definition join_document (sock : string) (user : User) (documentId : string)
    (document : Document) : Prog unit :=
  call (SockJoin sock documentId) ;;
  addUserToDocument documentId user ;;
  let documentData := js_or (data document) defaultValue in
  call (Emit (ToSocket sock "load-document" (PValue documentData))) ;;
  onlineUsers' ← getOnlineUsers documentId;
  call (Emit (ToRoom documentId "user-joined"
                (PUserJoined (u_id user) (username user) (email user)
                             onlineUsers'))).

Definition on_get_document (sock : string) (user : User) (documentId : string)
  : Prog unit :=
  try_catch
    (document ← call (DocFindById documentId);
     match document with
     | Some document =>
         hasAccess ← hasDocumentAccess documentId (u_id user);
         if negb hasAccess then socket_error sock "Access denied"
         else join_document sock user documentId document
     | None =>
         document ← Document_create (Some documentId) "Untitled Document"
                      (JStr "") defaultValue (u_id user) [];
         DocumentVersion_create (d_id document) 1 (JStr "") (u_id user) ;;
         call (RedisDel ("user:" +:+ u_id user +:+ ":documents")) ;;
         join_document sock user documentId document
     end)
    (fun _ => socket_error sock "Failed to load document").

(** One turn of the loop of its [disconnect]. *)
Definition disconnect_room (user : User) (documentId : string) : Prog unit :=
  removeUserFromDocument documentId (u_id user) ;;
  onlineUsers' ← getOnlineUsers documentId;
  call (Emit (ToRoom documentId "user-left"
                (PUserLeft (u_id user) onlineUsers'))).

(** Its [disconnect] listener; as in the live copy, socket.io has left
    every room of the socket before the listener runs. *)
Definition on_disconnect (sock : string) (user : User) : Prog unit :=
  call (SockLeaveAll sock) ;;
  try_catch
    (rs ← document_rooms sock;
     for_of rs (disconnect_room user))
    (fun _ => mret tt).

End Variant.

(** ** The DocumentService object *)

(** White space as [String.prototype.trim] knows it (WhiteSpace and
    LineTerminator of ECMAScript). A string of the model is the UTF-8
    encoding of the JavaScript string, so a white-space character is one,
    two or three bytes long: tab, line feed, vertical tab, form feed,
    carriage return and space; U+00A0; U+1680, U+2000 to U+200A, U+2028,
    U+2029, U+202F, U+205F, U+3000 and U+FEFF. *)
Definition is_space (a : ascii) : bool :=
  bool_decide (a ∈ [" "%char; "009"%char; "010"%char; "011"%char;
                    "012"%char; "013"%char]).

Definition is_space2 (a b : ascii) : bool :=
  bool_decide ((a, b) = ("194"%char, "160"%char)).

Definition is_space3 (a b c : ascii) : bool :=
  bool_decide
    ((a, b, c) ∈
     [("225"%char, "154"%char, "128"%char);
      ("226"%char, "128"%char, "128"%char); ("226"%char, "128"%char, "129"%char);
      ("226"%char, "128"%char, "130"%char); ("226"%char, "128"%char, "131"%char);
      ("226"%char, "128"%char, "132"%char); ("226"%char, "128"%char, "133"%char);
      ("226"%char, "128"%char, "134"%char); ("226"%char, "128"%char, "135"%char);
      ("226"%char, "128"%char, "136"%char); ("226"%char, "128"%char, "137"%char);
      ("226"%char, "128"%char, "138"%char);
      ("226"%char, "128"%char, "168"%char); ("226"%char, "128"%char, "169"%char);
      ("226"%char, "128"%char, "175"%char);
      ("226"%char, "129"%char, "159"%char);
      ("227"%char, "128"%char, "128"%char);
      ("239"%char, "187"%char, "191"%char)]).

(** The string without the white space it starts with. *)
Fixpoint ltrim (s : string) : string :=
  match s with
  | EmptyString => EmptyString
  | String a s1 =>
      if is_space a then ltrim s1
      else
        match s1 with
        | EmptyString => s
        | String b s2 =>
            if is_space2 a b then ltrim s2
            else
              match s2 with
              | EmptyString => s
              | String c s3 => if is_space3 a b c then ltrim s3 else s
              end
        end
  end.

(** The string without the white space it ends with: it is cut where
    nothing but white space follows. *)
Fixpoint rtrim (s : string) : string :=
  match s with
  | EmptyString => EmptyString
  | String a s' =>
      if String.eqb (ltrim s) "" then EmptyString else String a (rtrim s')
  end.

Definition trim (s : string) : string := rtrim (ltrim s).

Module DocumentService.

(** [content && content.trim() !== "" ? content : " "] *)
Definition documentContent (c : option string) : string :=
  match c with
  | Some c => if negb (String.eqb c "") && negb (String.eqb (trim c) "")
              then c else " "
  | None => " "
  end.

Definition createDocument (ttl : string) (c : option string) (own : string)
    (generateVersion : option bool) : Prog Document :=
  if String.eqb ttl "" || String.eqb (trim ttl) ""
  then Throw (OtherError "Title cannot be empty")
  else
    let documentContent := documentContent c in
    document ← Document_create None (trim ttl) (JStr documentContent)
                 defaultValue own [];
    (if negb (bool_decide (generateVersion = Some false))
     then DocumentVersion_create (d_id document) 1 (JStr documentContent) own ;;
          mret tt
     else mret tt) ;;
    call (RedisDel ("user:" +:+ own +:+ ":documents")) ;;
    mret document.

Definition findOrCreateDocument (id userId : string) : Prog (option Document) :=
  if String.eqb id "" then mret None
  else
    try_catch
      (document ← call (DocFindById id);
       match document with
       | Some document => mret (Some document)
       | None =>
           d ← createDocument "Untitled Document" (Some "") userId (Some false);
           mret (Some d)
       end)
      (fun _ => mret None).

End DocumentService.

(** ** src/controllers/documentController.ts: the create route *)

(** [createDocument(req, res)]: the result is the HTTP status sent. *)
Definition createDocument (req_user : option string) (ttl c : JsVal) : Prog Z :=
  try_catch
    (match req_user with
     | None => mret 401
     | Some uid =>
         match ttl with
         | JStr t =>
             if String.eqb t "" || String.eqb (trim t) "" then mret 400
             else
               documentContent ←
                 match c with
                 | JStr s => mret (DocumentService.documentContent (Some s))
                 | _ => if truthy c
                        then Throw (OtherError "content.trim is not a function")
                        else mret " "
                 end;
               document ← Document_create None (trim t) (JStr documentContent)
                            defaultValue uid [];
               DocumentVersion_create (d_id document) 1 (JStr documentContent) uid ;;
               let cacheKey := "user:" +:+ uid +:+ ":documents" in
               call (RedisDel cacheKey) ;;
               paginatedCacheKeys ←
                 call (RedisKeys ("user:" +:+ uid +:+ ":documents:page"));
               (* redis.del(paginatedCacheKeys): every listed key goes *)
               (if bool_decide (0 < length paginatedCacheKeys)%nat
                then for_of paginatedCacheKeys (fun key => call (RedisDel key))
                else mret tt) ;;
               mret 201
         | _ => mret 400
         end
     end)
    (fun _ => mret 500).

(** ** Connection: the [io.use] middleware *)

Record JwtPayload : Type := mkJwtPayload { jwt_id : string }.

Record Handshake : Type := mkHandshake {
  auth_token : option string;      (* socket.handshake.auth.token *)
  query_token : option string;     (* socket.handshake.query.token *)
  authorization : option string    (* socket.handshake.headers.authorization *)
}.

(** Truthiness of a string that may be undefined, and [a || b] on them. *)
Definition str_truthy (s : option string) : bool :=
  match s with
  | Some s => negb (String.eqb s "")
  | None => false
  end.

Definition str_or (a b : option string) : option string :=
  if str_truthy a then a else b.

(** [s.split(" ")] *)
Fixpoint split_space (s : string) : list string :=
  match s with
  | EmptyString => [EmptyString]
  | String a s' =>
      let r := split_space s' in
      if Ascii.eqb a " "%char then EmptyString :: r
      else match r with
           | h :: t => String a h :: t
           | [] => [String a EmptyString]
           end
  end.

(** [.select("-password")] *)
Definition select_without_password (u : User) : User :=
  mkUser (u_id u) (username u) (email u) None.

Section Authentication.

Variable JWT_SECRET : option string.   (* process.env.JWT_SECRET *)
Variable jwt_verify : string -> string -> JwtError + JwtPayload.

Definition jwt_secret : string :=
  default "default_jwt_secret" (str_or JWT_SECRET (Some "default_jwt_secret")).

Definition authenticateSocket (token : option string) : Prog (option User) :=
  try_catch
    (if negb (str_truthy token) then mret None
     else
       decoded ← match jwt_verify (default "" token) jwt_secret with
                 | inl e => Throw (JwtFailure e)
                 | inr decoded => mret decoded
                 end;
       user ← call (UserFindById (jwt_id decoded));
       match select_without_password <$> user with
       | None => mret None
       | Some user => mret (Some user)
       end)
    (fun _ => mret None).

Definition extract_token (hs : Handshake) : option string :=
  str_or (auth_token hs)
    (str_or (query_token hs)
       (if str_truthy (authorization hs)
        then split_space (default "" (authorization hs)) !! 1%nat
        else None)).

(** [io.use(async (socket, next) => ...)]. [next()] without an error lets
    the connection through: the socket enters the room of its own id. *)
Definition io_use (sock : string) (hs : Handshake) : Prog unit :=
  try_catch
    (let token := extract_token hs in
     if negb (str_truthy token)
     then call (Emit (Refused sock "Authentication error: Missing token"))
     else
       user ← authenticateSocket token;
       match user with
       | None => call (Emit (Refused sock "Authentication error: Invalid token"))
       | Some user =>
           call (SockSetUser sock user) ;;
           call (SockJoin sock sock)
       end)
    (fun _ => call (Emit (Refused sock "Authentication error"))).

End Authentication.

(** ** src/controllers/documentController.ts: the routes that change a document

    The result of a route is the HTTP status it sends. [req_user] is
    [req.user._id] when the request carries a user; the document a route
    reads by [findById(req.params.id)] has that id as its [_id]. *)

Definition invalidateDocumentCache (documentId userId : string) : Prog unit :=
  try_catch
    (call (RedisDel ("document:" +:+ documentId +:+ ":user:" +:+ userId)) ;;
     call (RedisDel ("user:" +:+ userId +:+ ":documents")))
    (fun _ => mret tt).

(** [if (collaborators && collaborators.length > 0) for (...) invalidate] *)
Definition invalidate_collaborators (documentId : string)
    (collaborators : list Collaborator) : Prog unit :=
  if bool_decide (0 < length collaborators)%nat
  then for_of collaborators
         (fun collaborator =>
            invalidateDocumentCache documentId (c_user collaborator))
  else mret tt.

Definition with_title (t : string) (d : Document) : Document :=
  mkDocument (d_id d) t (content d) (data d) (owner d)
             (collaborators d) (onlineUsers d) (currentVersion d) (updatedAt d).

Definition with_content (x : JsVal) (n : Z) (d : Document) : Document :=
  mkDocument (d_id d) (title d) x (data d) (owner d)
             (collaborators d) (onlineUsers d) n (updatedAt d).

Definition with_collaborators (cs : list Collaborator) (d : Document) : Document :=
  mkDocument (d_id d) (title d) (content d) (data d) (owner d)
             cs (onlineUsers d) (currentVersion d) (updatedAt d).

Definition with_updatedAt (now : Z) (d : Document) : Document :=
  mkDocument (d_id d) (title d) (content d) (data d) (owner d)
             (collaborators d) (onlineUsers d) (currentVersion d) now.

(** [document.save()] on a document read by [findById]: [paths] are the
    assignments made to it in memory. The schema is validated on the
    document in memory ([title] is [required]: the empty string is
    refused), the pre-save hook stamps [updatedAt], and the assigned
    paths are written to the stored document. *)
Definition Document_save (documentId : string) (document : Document)
    (paths : Document -> Document) : Prog unit :=
  if String.eqb (title (paths document)) "" then Throw ValidationError
  else
    now ← call DateNow;
    call (DocUpdate documentId (fun d => with_updatedAt now (paths d))).

(** [!isOwner && (!collaborator || collaborator.permission !== "edit")]
    on the id of the requester. *)
Definition edit_denied (document : Document) (userId : string) : bool :=
  let isOwner := bool_decide (owner document = userId) in
  let collaborator := find_collaborator userId (collaborators document) in
  negb isOwner &&
  match collaborator with
  | None => true
  | Some c => negb (is_edit (c_permission c))
  end.

(** [updateDocument(req, res)]: [ttl] and [c] are [req.body.title] (a
    string, when given) and [req.body.content] ([None] for undefined).
    The [title] path has the setter [trim]. *)
Definition updateDocument (req_user : option string) (id : string)
    (ttl : option string) (c : option JsVal) : Prog Z :=
  try_catch
    (match req_user with
     | None => mret 401
     | Some userId =>
         invalidateDocumentCache id userId ;;
         document ← call (DocFindById id);
         match document with
         | None => mret 404
         | Some document =>
             if edit_denied document userId then mret 403
             else
               invalidate_collaborators id (collaborators document) ;;
               let set_title := fun d =>
                 if str_truthy ttl then with_title (trim (default "" ttl)) d
                 else d in
               let newVersion := currentVersion document + 1 in
               let set_content := fun d =>
                 match c with
                 | Some x => with_content x newVersion d
                 | None => d
                 end in
               match c with
               | Some x => DocumentVersion_create id newVersion x userId ;; mret tt
               | None => mret tt
               end ;;
               Document_save id document (fun d => set_content (set_title d)) ;;
               mret 200
         end
     end)
    (fun _ => mret 500).

(** [["view", "edit"].includes(permission)] *)
Definition parse_permission (permission : string) : option Permission :=
  if String.eqb permission "view" then Some view
  else if String.eqb permission "edit" then Some edit
  else None.

(** [existingCollaborator.permission = permission] on the entry [find]
    returned: the first one of the user. *)
Fixpoint set_permission (userId : string) (p : Permission)
    (l : list Collaborator) : list Collaborator :=
  match l with
  | [] => []
  | c :: l' =>
      if bool_decide (c_user c = userId) then mkCollaborator (c_user c) p :: l'
      else c :: set_permission userId p l'
  end.

(** [findIndex] then [splice(index, 1)]: the first entry of the user goes. *)
Fixpoint remove_first (userId : string) (l : list Collaborator)
  : list Collaborator :=
  match l with
  | [] => []
  | c :: l' =>
      if bool_decide (c_user c = userId) then l'
      else c :: remove_first userId l'
  end.

(** [addCollaborator(req, res)] with [req.body = {userId, permission}] *)
Definition addCollaborator (req_user : option string) (id : string)
    (userId permission : string) : Prog Z :=
  try_catch
    (match parse_permission permission with
     | None => mret 400
     | Some p =>
         if String.eqb userId "" then mret 400
         else
           document ← call (DocFindById id);
           match document with
           | None => mret 404
           | Some document =>
               match req_user with
               | None => mret 403
               | Some requester =>
                   if negb (bool_decide (owner document = requester)) then mret 403
                   else
                     user ← call (UserFindById userId);
                     match user with
                     | None => mret 404
                     | Some _ =>
                         let existingCollaborator :=
                           find_collaborator userId (collaborators document) in
                         let collaborators' :=
                           match existingCollaborator with
                           | Some _ =>
                               set_permission userId p (collaborators document)
                           | None =>
                               collaborators document ++ [mkCollaborator userId p]
                           end in
                         Document_save id document
                           (fun d => with_collaborators collaborators' d) ;;
                         invalidateDocumentCache id requester ;;
                         invalidateDocumentCache id userId ;;
                         mret 200
                     end
               end
           end
     end)
    (fun _ => mret 500).

(** [removeCollaborator(req, res)] with [req.params.userId] *)
Definition removeCollaborator (req_user : option string) (id : string)
    (userId : string) : Prog Z :=
  try_catch
    (if String.eqb userId "" then mret 400
     else
       document ← call (DocFindById id);
       match document with
       | None => mret 404
       | Some document =>
           match req_user with
           | None => mret 403
           | Some requester =>
               if negb (bool_decide (owner document = requester)) then mret 403
               else
                 match find_collaborator userId (collaborators document) with
                 | None => mret 404
                 | Some _ =>
                     Document_save id document
                       (fun d => with_collaborators
                                   (remove_first userId (collaborators document)) d) ;;
                     invalidateDocumentCache id requester ;;
                     invalidateDocumentCache id userId ;;
                     mret 200
                 end
           end
       end)
    (fun _ => mret 500).

(** The key under which [getDocumentById] caches the detail view of a
    document for a user, [document:${documentId}:user:${userId}]. *)
Definition detail_key (documentId userId : string) : string :=
  "document:" +:+ documentId +:+ ":user:" +:+ userId.

(** The key under which [getDocuments] caches one page of the document
    list of a user, [user:${userId}:documents:page${page}:limit${limit}]
    with the two numbers in decimal. It is the only key a document list is
    ever stored under: nothing sets [user:${userId}:documents], the key
    [invalidateDocumentCache] deletes. *)
Definition list_page_key (userId page limit : string) : string :=
  "user:" +:+ userId +:+ ":documents:page" +:+ page +:+ ":limit" +:+ limit.

(** The content of a version record as it is read back. The schemas keep
    the Mongoose default [minimize]: a content that is the empty object
    passes the [required] validator and is then left out of what is
    written, so the record read back has no content. Primitive contents
    are stored as they are. (Of an object with members, [minimize] also
    drops the members that are empty objects; the JSON text of the model
    does not follow that, and nothing below is stated about such
    contents.) *)
Definition stored_content (c : JsVal) : JsVal :=
  match c with
  | JObj json => if String.eqb json "{}" then JNull else c
  | _ => c
  end.

Definition read_back (v : DocumentVersion) : DocumentVersion :=
  mkVersion (v_document v) (versionNumber v) (stored_content (v_content v))
            (createdBy v) (createdAt v).

(** ** Routes that look up or delete version records

    [deleteDocument] and [rollbackToVersion] make three store calls that
    no socket handler makes; their programs are written over the socket
    operations and these three. *)
Inductive RestOp : Type -> Type :=
| Core {X : Type} (op : Op X) : RestOp X
| VerFindOne (documentId : string) (n : Z) : RestOp (option DocumentVersion)
    (* DocumentVersion.findOne({document, versionNumber}) *)
| VerDeleteMany (documentId : string) : RestOp unit
    (* DocumentVersion.deleteMany({document}) *)
| DocDeleteOne (documentId : string) : RestOp unit.
    (* Document.deleteOne({_id}) *)

Definition rest_exec {X : Type} (op : RestOp X) (st : State) : X * State :=
  match op in RestOp X return X * State with
  | Core op => exec op st
  | VerFindOne documentId n =>
      (read_back <$>
         List.find (fun v => bool_decide (v_document v = documentId)
                             && Z.eqb (versionNumber v) n) (versions st), st)
  | VerDeleteMany documentId =>
      (tt, set_versions st (filter (fun v => v_document v ≠ documentId) (versions st)))
  | DocDeleteOne documentId => (tt, set_docs st (delete documentId (docs st)))
  end.

Inductive Route (A : Type) : Type :=
| Answer (a : A)
| Failed (e : Err)
| Ask {X : Type} (op : RestOp X) (k : X -> Route A).

Arguments Answer {A} a.
Arguments Failed {A} e.
Arguments Ask {A X} op k.

Fixpoint route_bind {A B : Type} (p : Route A) (f : A -> Route B) : Route B :=
  match p with
  | Answer a => f a
  | Failed e => Failed e
  | Ask op k => Ask op (fun x => route_bind (k x) f)
  end.

Fixpoint route_try {A : Type} (p : Route A) (h : Err -> Route A) : Route A :=
  match p with
  | Answer a => Answer a
  | Failed e => h e
  | Ask op k => Ask op (fun x => route_try (k x) h)
  end.

Global Instance route_ret : MRet Route := fun A a => Answer a.
Global Instance route_mbind : MBind Route := fun A B f p => route_bind p f.

Definition ask {X : Type} (op : RestOp X) : Route X := Ask op Answer.

(** A program over the socket operations, as part of a route. *)
Fixpoint lift {A : Type} (p : Prog A) : Route A :=
  match p with
  | Ret a => Answer a
  | Throw e => Failed e
  | Vis op k => Ask (Core op) (fun x => lift (k x))
  end.

Fixpoint route_run {A : Type} (p : Route A) (st : State) : Outcome A * State :=
  match p with
  | Answer a => (Done a, st)
  | Failed e => (Threw e, st)
  | Ask op k => let '(x, st') := rest_exec op st in route_run (k x) st'
  end.

(** [deleteDocument(req, res)] *)
Definition deleteDocument (req_user : option string) (documentId : string)
  : Route Z :=
  route_try
    (match req_user with
     | None => mret 401
     | Some userId =>
         document ← ask (Core (DocFindById documentId));
         match document with
         | None => mret 404
         | Some document =>
             if bool_decide (owner document ≠ userId) then mret 403
             else
               ask (VerDeleteMany documentId) ;;
               ask (DocDeleteOne documentId) ;;
               lift (invalidateDocumentCache documentId userId) ;;
               lift (invalidate_collaborators documentId (collaborators document)) ;;
               mret 200
         end
     end)
    (fun _ => mret 500).

(** [rollbackToVersion(req, res)]: [parsedVersion] is the result of
    [parseInt(req.params.versionNumber, 10)], [None] for NaN. *)
Definition rollbackToVersion (req_user : option string) (id : string)
    (parsedVersion : option Z) : Route Z :=
  route_try
    (match parsedVersion with
     | None => mret 400
     | Some parsedVersion =>
         if Z.ltb parsedVersion 1 then mret 400
         else
           document ← ask (Core (DocFindById id));
           match document with
           | None => mret 404
           | Some document =>
               match req_user with
               | None => mret 401
               | Some userId =>
                   if edit_denied document userId then mret 403
                   else
                     version ← ask (VerFindOne id parsedVersion);
                     match version with
                     | None => mret 404
                     | Some version =>
                         let newVersion := currentVersion document + 1 in
                         lift (DocumentVersion_create id newVersion
                                 (v_content version) userId) ;;
                         lift (Document_save id document
                                 (with_content (v_content version) newVersion)) ;;
                         lift (invalidateDocumentCache id userId) ;;
                         mret 200
                     end
               end
           end
     end)
    (fun _ => mret 500).

(** ** Events of a connection

    [io.on("connection", ...)] registers the handlers, closed over
    [socket.user], for a socket the middleware let through; a refused socket
    has none. [Disconnect] is the closing of the connection. *)
Inductive ClientEvent : Type :=
| GetDocument (documentId : string)
| SendChanges (delta : JsVal)
| CursorPosition (documentId : string) (position : JsVal)
| CursorPositionEmpty     (* cursor-position sent without a payload *)
| SaveDocument (x : JsVal)
| Disconnect.

Definition handler (sock : string) (user : User) (ev : ClientEvent) : Prog unit :=
  match ev with
  | GetDocument documentId => on_get_document sock user documentId
  | SendChanges delta => on_send_changes sock user delta
  | CursorPosition documentId position =>
      on_cursor_position sock user (Some (documentId, position))
  | CursorPositionEmpty => on_cursor_position sock user None
  | SaveDocument x => on_save_document sock user x
  | Disconnect => on_disconnect sock user
  end.

Definition dispatch (sock : string) (ev : ClientEvent) : Prog unit :=
  user ← call (SockUser sock);
  match user with
  | None => mret tt
  | Some user => handler sock user ev
  end.

(** ** Several events in flight

    Each handler in the pool advances by one store operation at a time, in
    any order. *)
Definition Pool : Type := list (Prog unit).

Definition advance (p : Prog unit) (st : State) : Prog unit * State :=
  match p with
  | Vis op k => let '(x, st') := exec op st in (k x, st')
  | _ => (p, st)
  end.

Definition step_thread (i : nat) (c : State * Pool) : State * Pool :=
  match c.2 !! i with
  | Some p => let '(p', st') := advance p c.1 in (st', <[i := p']> c.2)
  | None => c
  end.

Definition run_schedule (sched : list nat) (c : State * Pool) : State * Pool :=
  foldl (fun c i => step_thread i c) c sched.

Inductive interleaves : State * Pool -> State * Pool -> Prop :=
| interleaves_refl c : interleaves c c
| interleaves_step c i c' :
    interleaves (step_thread i c) c' -> interleaves c c'.

Definition finished (p : Prog unit) : bool :=
  match p with Vis _ _ => false | _ => true end.

(** * Statements

    The effect of each handler on the stores written as a function, the
    predicates the properties are stated with, and the concrete stores of
    the examples. *)

(** ** The middleware *)

(** The stores after the middleware let [user] through on [sock]. *)
Definition connected (sock : string) (user : User) (st : State) : State :=
  set_rooms (set_session st (<[sock := user]> (session st)))
    (<[sock := addToSet sock (default [] (rooms st !! sock))]> (rooms st)).

Section AuthenticationStatements.

Variable JWT_SECRET : option string.
Variable jwt_verify : string -> string -> JwtError + JwtPayload.

(** What [jwt.verify] says of the token of a handshake. *)
Definition verify_token (hs : Handshake) : JwtError + JwtPayload :=
  jwt_verify (default "" (extract_token hs)) (jwt_secret JWT_SECRET).

(** The four ways the design lists for a token to be turned down. *)
Definition token_missing (hs : Handshake) : Prop :=
  str_truthy (extract_token hs) = false.
Definition token_malformed (hs : Handshake) : Prop :=
  str_truthy (extract_token hs) = true /\ verify_token hs = inl JsonWebTokenError.
Definition token_expired (hs : Handshake) : Prop :=
  str_truthy (extract_token hs) = true /\ verify_token hs = inl TokenExpiredError.
Definition subject_unknown (hs : Handshake) (st : State) : Prop :=
  str_truthy (extract_token hs) = true /\
  exists p, verify_token hs = inr p /\ users st !! jwt_id p = None.

Definition token_rejected (hs : Handshake) (st : State) : Prop :=
  token_missing hs \/ token_malformed hs \/ token_expired hs \/
  subject_unknown hs st.

(** The user record the token leads to, if any. *)
Definition token_user (hs : Handshake) (st : State) : option User :=
  if str_truthy (extract_token hs)
  then match verify_token hs with
       | inl _ => None
       | inr p => users st !! jwt_id p
       end
  else None.

End AuthenticationStatements.

(** ** Loops over rooms *)

(** An event that refuses a connection. *)
Definition is_refusal (e : OutEvent) : Prop :=
  match e with Refused _ _ => True | _ => False end.

Definition not_refusal (e : OutEvent) : Prop := ~ is_refusal e.

(** A turn of a loop over rooms that keeps [I], emits only events in [ok],
    and on room [D], when it ends normally, emits [E]. *)
Definition turn_spec (I : State -> Prop) (ok : OutEvent -> Prop) (D : string)
    (E : OutEvent) (body : string -> Prog unit) : Prop :=
  forall r st, I st ->
    I (run (body r) st).2 /\
    exists new, out (run (body r) st).2 = out st ++ new /\
                Forall ok new /\
                (r = D -> (run (body r) st).1 = Done tt -> E ∈ new).

(** [D] still has the document [d] and the version records [V0]. *)
Definition keeps_document (D : string) (d : Document)
    (V0 : list DocumentVersion) (st : State) : Prop :=
  docs st !! D = Some d /\ versions_of D (versions st) = V0.

(** ** Handlers as functions on the stores *)

Definition emits (e : OutEvent) (st : State) : State :=
  set_out st (out st ++ [e]).

(** The online-user list [getOnlineUsers] reports. *)
Definition presence (D : string) (st : State) : list string :=
  match docs st !! D with
  | Some d => onlineUsers d
  | None => []
  end.

Definition update_doc (D : string) (f : Document -> Document) (st : State)
  : State :=
  match docs st !! D with
  | Some d => set_docs st (<[D := f d]> (docs st))
  | None => st
  end.

(** Whether the DocumentVersion collection takes a record. *)
Definition version_accepted (v : DocumentVersion) (st : State) : bool :=
  content_valid v && negb (index_taken v (versions st)).

(** The version record a snapshot of [d] by [userId] asks for. *)
Definition snapshot_record (D userId : string) (d : Document) (now : Z)
  : DocumentVersion :=
  mkVersion D (or0 (currentVersion d) + 1) (js_or (data d) (content d)) userId now.

Definition snapshot_effect (D userId : string) (st : State) : State :=
  match docs st !! D with
  | None => st
  | Some d =>
      let st1 := update_doc D (with_version (or0 (currentVersion d) + 1) (clock st)) st in
      let v := snapshot_record D userId d (clock st) in
      if version_accepted v st
      then set_cache (set_versions st1 (versions st ++ [v]))
             (cache st ∖ {["document:" +:+ D]}
                       ∖ {["user:" +:+ userId +:+ ":documents"]})
      else st1
  end.

(** The record and the stores after the write of [save-document] on one
    room by a permitted user. *)
Definition save_record (D : string) (user : User) (x : JsVal) (d : Document)
    (now : Z) : DocumentVersion :=
  mkVersion D (or0 (currentVersion d) + 1) (js_or x (content d)) (u_id user) now.

Definition save_error (v : DocumentVersion) : Err :=
  if content_valid v then DuplicateKey else ValidationError.

Definition joined_room (sock D : string) (st : State) : State :=
  set_rooms st (<[sock := addToSet D (default [] (rooms st !! sock))]> (rooms st)).

Definition add_presence (D : string) (user : User) (st : State) : State :=
  update_doc D (fun d => with_onlineUsers (addToSet (u_id user) (onlineUsers d)) d) st.

(** The stores once [sock] is in the room and [user] in the online list. *)
Definition present (sock : string) (user : User) (D : string) (st : State)
  : State :=
  add_presence D user (joined_room sock D st).

Definition join_snapshot (sock : string) (user : User) (D : string) (st : State)
  : State :=
  if bool_decide (1 < length (presence D (present sock user D st)))%nat
  then snapshot_effect D (u_id user) (present sock user D st)
  else present sock user D st.

Definition created_document (D : string) (user : User) (now : Z) : Document :=
  mkDocument D "Untitled Document" (JStr "") defaultValue (u_id user) [] [] 1 now.

Definition first_version (D : string) (user : User) (now : Z) : DocumentVersion :=
  mkVersion D 1 (JStr "") (u_id user) now.

(** The stores after [get-document] created the document and its first
    version, before the join proper. *)
Definition created_state (D : string) (user : User) (st : State) : State :=
  set_cache
    (set_versions
       (set_docs st (<[D := created_document D user (clock st)]> (docs st)))
       (versions st ++ [first_version D user (clock st)]))
    (cache st ∖ {["user:" +:+ u_id user +:+ ":documents"]}).

Definition without_presence (D userId : string) (st : State) : State :=
  update_doc D (fun d => with_onlineUsers (pull userId (onlineUsers d)) d) st.

Definition leave_snapshot (D : string) (user : User) (st : State) : State :=
  if bool_decide (1 < length (presence D st))%nat
     && bool_decide (0 < length (presence D (without_presence D (u_id user) st)))%nat
  then snapshot_effect D (u_id user) (without_presence D (u_id user) st)
  else without_presence D (u_id user) st.

(** The two keys [invalidateDocumentCache] deletes for one user and one
    document: the key of the detail entry [getDocumentById] caches, and
    [user:${userId}:documents], under which nothing is ever cached (the
    pages of the document list are cached under [list_page_key]). *)
Definition cache_entries (D userId : string) : list string :=
  ["document:" +:+ D +:+ ":user:" +:+ userId; "user:" +:+ userId +:+ ":documents"].

Definition invalidated (D userId : string) (c : gset string) : gset string :=
  c ∖ {["document:" +:+ D +:+ ":user:" +:+ userId]}
    ∖ {["user:" +:+ userId +:+ ":documents"]}.

(** ** Predicates *)

(** The decision as the design states it: the owner by identity; otherwise
    the permission stored in the entry a scan of the collaborators meets
    first; otherwise nothing. *)
Inductive spec_decide (d : Document) (userId : string) : Access -> Prop :=
| spec_owner :
    userId = owner d -> spec_decide d userId acc_owner
| spec_collaborator (l1 : list Collaborator) c l2 :
    userId ≠ owner d ->
    collaborators d = l1 ++ c :: l2 ->
    c_user c = userId ->
    (forall c', c' ∈ l1 -> c_user c' ≠ userId) ->
    spec_decide d userId (of_permission (c_permission c))
| spec_none :
    userId ≠ owner d ->
    (forall c, c ∈ collaborators d -> c_user c ≠ userId) ->
    spec_decide d userId acc_none.

(** The claim of the design about the implicit creation: handling
    [get-document] for an unknown id adds no version record. *)
Definition implicit_creation_skips_first_version
    (st : State) (sock : string) (user : User) (D : string) : Prop :=
  docs st !! D = None ->
  versions (run (on_get_document sock user D) st).2 = versions st.

(** [userId] is not the owner of [d] and is listed among its collaborators
    with the permission view. *)
Definition view_only (d : Document) (userId : string) : Prop :=
  userId ≠ owner d /\
  (exists c, c ∈ collaborators d /\ c_user c = userId) /\
  (forall c, c ∈ collaborators d -> c_user c = userId -> c_permission c = view).

Definition is_write (ev : ClientEvent) : bool :=
  match ev with SendChanges _ | SaveDocument _ => true | _ => false end.

Definition denial_message (ev : ClientEvent) : string :=
  match ev with
  | SaveDocument _ => "You do not have permission to save this document"
  | _ => "You do not have permission to edit this document"
  end.

(** Someone other than [userId] is in the list. *)
Definition others_online (userId : string) (l : list string) : bool :=
  existsb (fun u => negb (bool_decide (u = userId))) l.

(** The claim of the design about joins: whenever somebody is online in the
    document, a join adds one version record made by the joining user. *)
Definition join_with_presence_snapshots
    (st : State) (sock : string) (user : User) (D : string) : Prop :=
  presence D st ≠ [] ->
  exists v, versions (run (on_get_document sock user D) st).2 = versions st ++ [v]
            /\ createdBy v = u_id user.

(** Two states that agree on everything a handler reads about [D]. *)
Definition same_doc (D : string) (st st' : State) : Prop :=
  docs st' !! D = docs st !! D /\
  versions_of D (versions st') = versions_of D (versions st) /\
  clock st' = clock st.

(** The record a snapshot of [D] by [user] asks for in [st], if [D] exists. *)
Definition snapshot_of (D : string) (user : User) (st : State)
  : list DocumentVersion :=
  match docs st !! D with
  | Some d => [mkVersion D (currentVersion d + 1) (js_or (data d) (content d))
                         (u_id user) (clock st)]
  | None => []
  end.

(** The test of the disconnect handler on the two presence counts. *)
Definition partial_departure (D : string) (user : User) (st : State) : bool :=
  bool_decide (1 < length (presence D st))%nat
  && bool_decide (0 < length (pull (u_id user) (presence D st)))%nat.

(** What the design asks of one document: as many version records as
    currentVersion says, numbered 1 to currentVersion without gap or
    repetition. *)
Definition numbered_from_one (st : State) (D : string) : Prop :=
  forall d, docs st !! D = Some d ->
    Z.of_nat (length (versions_of D (versions st))) = currentVersion d /\
    NoDup (version_numbers D (versions st)) /\
    (forall n, n ∈ version_numbers D (versions st) <-> 1 <= n <= currentVersion d).

(** The store invariant of the socket handlers: the above for every
    document, no document content is null, and no version record is left
    for a document that does not exist. *)
Definition doc_consistent (vs : list DocumentVersion) (D : string)
    (o : option Document) : Prop :=
  match o with
  | Some d =>
      content d ≠ JNull /\
      0 <= currentVersion d /\
      NoDup (version_numbers D vs) /\
      (forall n, n ∈ version_numbers D vs <-> 1 <= n <= currentVersion d)
  | None => version_numbers D vs = []
  end.

Definition store_consistent (st : State) : Prop :=
  forall D, doc_consistent (versions st) D (docs st !! D).

(** An event whose payload the store can keep: a save of null is left out. *)
Definition storable (ev : ClientEvent) : Prop :=
  match ev with
  | SaveDocument x => x ≠ JNull
  | _ => True
  end.

(** The key of the unique index of the DocumentVersion collection. *)
Definition version_keys (vs : list DocumentVersion) : list (string * Z) :=
  (fun v => (v_document v, versionNumber v)) <$> vs.

(** What the design says of two saves handled together: each leaves a
    version record of its own user, with different numbers above the
    currentVersion they started from. *)
Definition both_saves_recorded (st0 st : State) (D uA uB : string) : Prop :=
  exists vA vB,
    vA ∈ versions_of D (versions st) /\ vB ∈ versions_of D (versions st) /\
    (vA ∉ versions st0) /\ (vB ∉ versions st0) /\
    createdBy vA = uA /\ createdBy vB = uB /\
    versionNumber vA ≠ versionNumber vB.

(** ** Stores and runs of the examples *)

Definition ann : User := mkUser "u1" "ann" "ann@example.org" None.

Definition bob : User := mkUser "u2" "bob" "bob@example.org" None.

(** A connection that joined nothing names a document that does not exist. *)
Definition lone_state : State :=
  mkState ∅ [] ∅ ∅ {["s1" := ["s1"]]}
          {["s1" := mkUser "u1" "ann" "ann@example.org" None]} 42 [].

(** The same document with bob turned from an editor into a reader. *)
Definition demoted (d : Document) : Document :=
  mkDocument (d_id d) (title d) (content d) (data d) (owner d)
             [mkCollaborator "u2" view] (onlineUsers d) (currentVersion d)
             (updatedAt d).

(** A verifier that knows one good and one expired token, and a store
    with one user and her password hash. *)
Definition toy_verify (token secret : string) : JwtError + JwtPayload :=
  if String.eqb token "good" then inr (mkJwtPayload "u1")
  else if String.eqb token "old" then inl TokenExpiredError
  else inl JsonWebTokenError.

Definition user_store : State :=
  mkState ∅ [] {["u1" := mkUser "u1" "ann" "ann@example.org" (Some "$2a$10$hash")]}
          ∅ ∅ ∅ 0 [].

(** A document of ann's that bob may edit, both connected and in its room;
    Redis holds the detail and list entries of both. *)
Definition shared_doc : Document :=
  mkDocument "d1" "Untitled Document" (JStr "") defaultValue "u1"
             [mkCollaborator "u2" edit] ["u1"; "u2"] 1 0.

Definition shared_state : State :=
  mkState {["d1" := shared_doc]}
          [mkVersion "d1" 1 (JStr "") "u1" 0]
          {["u1" := ann; "u2" := bob]}
          {["document:d1:user:u1"; "user:u1:documents";
            "document:d1:user:u2"; "user:u2:documents"]}
          {["s1" := ["s1"; "d1"]; "s2" := ["s2"; "d1"]]}
          {["s1" := ann; "s2" := bob]}
          5 [].

(** bob may only read ann's document and is connected to its room. *)
Definition review_doc : Document :=
  mkDocument "d1" "Untitled Document" (JStr "hello") (JStr "hello") "u1"
             [mkCollaborator "u2" view] ["u1"; "u2"] 2 0.

Definition review_state : State :=
  mkState {["d1" := review_doc]}
          [mkVersion "d1" 1 (JStr "") "u1" 0; mkVersion "d1" 2 (JStr "hello") "u1" 0]
          {["u1" := ann; "u2" := bob]} ∅
          {["s1" := ["s1"; "d1"]; "s2" := ["s2"; "d1"]]}
          {["s1" := ann; "s2" := bob]}
          9 [].

(** ann opened "d1"; she opens it again on a second connection. *)
Definition ann_alone : State := (run (on_get_document "s1" ann "d1") empty_state).2.

(** ann is online in her document and bob, who may edit it, joins. *)
Definition open_doc : Document :=
  mkDocument "d1" "Untitled Document" (JStr "") defaultValue "u1"
             [mkCollaborator "u2" edit] ["u1"] 1 0.

Definition open_state : State :=
  mkState {["d1" := open_doc]} [mkVersion "d1" 1 (JStr "") "u1" 0]
          {["u1" := ann; "u2" := bob]} ∅
          {["s1" := ["s1"; "d1"]; "s2" := ["s2"]]}
          {["s1" := ann; "s2" := bob]} 3 [].

(** A document made by [DocumentService.findOrCreateDocument]. *)
Definition orphan_state : State :=
  (run (DocumentService.findOrCreateDocument "d1" "u1") empty_state).2.

(** Three saves of "d1" in flight together: ann reads the document
    (currentVersion 1) and is overtaken by two saves of bob, each run from
    its read to its end; then ann writes. *)
Definition overtake_pool : Pool :=
  [on_save_document "s1" ann (JStr "A");
   on_save_document "s2" bob (JStr "B");
   on_save_document "s2" bob (JStr "C")].

Definition overtake_schedule : list nat :=
  [0; 0;  1; 1; 1; 1; 1; 1; 1; 1;  2; 2; 2; 2; 2; 2; 2; 2;  0; 0; 0; 0; 0]%nat.

Definition overtake_end : State * Pool :=
  run_schedule overtake_schedule (shared_state, overtake_pool).

(** ann and bob save "d1" together: both read the document (currentVersion
    1) before either writes. *)
Definition race_pool : Pool :=
  [on_save_document "s1" ann (JStr "A"); on_save_document "s2" bob (JStr "B")].

Definition race_schedule : list nat :=
  [0; 0; 1; 1; 0; 0; 0; 0; 0; 0; 1; 1; 1; 1; 1]%nat.

Definition race_end : State * Pool :=
  run_schedule race_schedule (shared_state, race_pool).

(** ** Statements about the helpers and the handlers as wholes *)

(** What [send-changes] emits over the rooms [rs] of a connection. *)
Definition send_changes_events (sock : string) (user : User) (delta : JsVal)
    (st : State) (rs : list string) : list OutEvent :=
  flat_map
    (fun D =>
       match docs st !! D with
       | None => []
       | Some d =>
           if write_denied d user
           then [ToSocket sock "error"
                   (PMessage "You do not have permission to edit this document")]
           else [ToRoomExcept D sock "receive-changes" (PValue delta)]
       end) rs.

(** The rooms a handler loops over. *)
Definition rooms_of (sock : string) (st : State) : list string :=
  filter (fun room => room ≠ sock) (default [] (rooms st !! sock)).

(** The fields of a document that presence and snapshots leave alone. *)
Definition same_text (d d' : Document) : Prop :=
  title d' = title d /\ content d' = content d /\ data d' = data d /\
  owner d' = owner d /\ collaborators d' = collaborators d.

Definition carol : User := mkUser "u3" "carol" "carol@example.org" None.

(** A string without the character the authorization header is split at. *)
Fixpoint no_space (s : string) : bool :=
  match s with
  | EmptyString => true
  | String a s' => negb (Ascii.eqb a " "%char) && no_space s'
  end.

(** ** The routes as functions on the stores *)

(** The cache after the entries of every collaborator in [cs] went. *)
Definition invalidated_all (D : string) (cs : list Collaborator) (c : gset string)
  : gset string :=
  foldl (fun c col => invalidated D (c_user col) c) c cs.

(** The title [updateDocument] leaves in the document in memory. *)
Definition updated_title (ttl : option string) (d : Document) : string :=
  if str_truthy ttl then trim (default "" ttl) else title d.

(** The document and the stores after an update that went through. *)
Definition updated_document (ttl : option string) (c : option JsVal) (now : Z)
    (d : Document) : Document :=
  mkDocument (d_id d) (updated_title ttl d) (default (content d) c) (data d)
             (owner d) (collaborators d) (onlineUsers d)
             (match c with
              | Some _ => currentVersion d + 1
              | None => currentVersion d
              end) now.

Definition update_record (id userId : string) (c : option JsVal) (d : Document)
    (now : Z) : list DocumentVersion :=
  match c with
  | Some x => [mkVersion id (currentVersion d + 1) x userId now]
  | None => []
  end.

Definition updated_state (id userId : string) (ttl : option string)
    (c : option JsVal) (d : Document) (st : State) : State :=
  mkState (<[id := updated_document ttl c (clock st) d]> (docs st))
          (versions st ++ update_record id userId c d (clock st))
          (users st)
          (invalidated_all id (collaborators d) (invalidated id userId (cache st)))
          (rooms st) (session st) (clock st) (out st).

(** The stores when the version record was made and [save] then failed. *)
Definition update_unsaved (id userId : string) (c : option JsVal) (d : Document)
    (st : State) : State :=
  mkState (docs st)
          (versions st ++ update_record id userId c d (clock st))
          (users st)
          (invalidated_all id (collaborators d) (invalidated id userId (cache st)))
          (rooms st) (session st) (clock st) (out st).

(** The collaborator list after [addCollaborator] for [userId]. *)
Definition upsert_collaborator (userId : string) (p : Permission)
    (l : list Collaborator) : list Collaborator :=
  match find_collaborator userId l with
  | Some _ => set_permission userId p l
  | None => l ++ [mkCollaborator userId p]
  end.

(** The stores after a route saved the collaborator list [cs] of [id] and
    invalidated the entries of the owner and of [userId]. *)
Definition collaborators_saved (id requester userId : string)
    (cs : list Collaborator) (st : State) : State :=
  set_cache
    (update_doc id (fun d => with_updatedAt (clock st) (with_collaborators cs d)) st)
    (invalidated id userId (invalidated id requester (cache st))).

(** No user is listed twice among the collaborators. *)
Definition listed_once (l : list Collaborator) : Prop := NoDup (c_user <$> l).

(** A store whose documents all have a title ([title] is required). *)
Definition titled (st : State) : Prop :=
  forall D d, docs st !! D = Some d -> title d ≠ "".

(** ann's document, bob reading it, and carol known to the system. *)
Definition team_state : State :=
  mkState (docs review_state) (versions review_state)
          {["u1" := ann; "u2" := bob; "u3" := carol]} ∅
          (rooms review_state) (session review_state) 9 [].

(** ** Deleting and rolling back *)

(** The stores after the owner deleted document [id]. *)
Definition deleted_state (id userId : string) (d : Document) (st : State) : State :=
  mkState (delete id (docs st))
          (filter (fun v => v_document v ≠ id) (versions st))
          (users st)
          (invalidated_all id (collaborators d) (invalidated id userId (cache st)))
          (rooms st) (session st) (clock st) (out st).

(** The record [DocumentVersion.findOne({document, versionNumber})] finds,
    as it was created. *)
Definition find_version (id : string) (n : Z) (vs : list DocumentVersion)
  : option DocumentVersion :=
  List.find (fun v => bool_decide (v_document v = id) && Z.eqb (versionNumber v) n) vs.

(** The record a rollback to [v] asks for, and the stores after it. *)
Definition rollback_record (id userId : string) (v : DocumentVersion)
    (d : Document) (now : Z) : DocumentVersion :=
  mkVersion id (currentVersion d + 1) (v_content v) userId now.

Definition rolled_back (id userId : string) (v : DocumentVersion) (d : Document)
    (st : State) : State :=
  mkState (<[id := with_updatedAt (clock st)
                     (with_content (v_content v) (currentVersion d + 1) d)]>
             (docs st))
          (versions st ++ [rollback_record id userId v d (clock st)])
          (users st) (invalidated id userId (cache st))
          (rooms st) (session st) (clock st) (out st).

(** A content that is a string, a number or a boolean. *)
Definition primitive (c : JsVal) : Prop :=
  match c with
  | JBool _ | JNum _ | JStr _ => True
  | _ => False
  end.

(** A string without colon, as the ids of users and documents are. *)
Fixpoint no_colon (s : string) : Prop :=
  match s with
  | EmptyString => True
  | String a s' => a ≠ ":"%char /\ no_colon s'
  end.

(** The cache after the second copy of [save-document] invalidated the
    entries of the sender, of every collaborator and of the owner. *)
Definition variant_invalidated (D : string) (user : User) (d : Document)
    (c : gset string) : gset string :=
  let c1 := invalidated_all D (collaborators d) (invalidated D (u_id user) c) in
  if bool_decide (owner d ≠ u_id user) then invalidated D (owner d) c1 else c1.

(** ** A reader who writes elsewhere *)

(** The claim of the design about a write event of a reader of [D]: the
    stored document and its version records stay, and the sender is sent
    the permission error of that event on account of [D]. *)
Definition reader_is_denied_for_room (st : State) (sock D : string)
    (ev : ClientEvent) : Prop :=
  let st' := (run (dispatch sock ev) st).2 in
  docs st' !! D = docs st !! D /\
  versions_of D (versions st') = versions_of D (versions st) /\
  ToSocket sock "error" (PMessage (denial_message ev))
    ∈ drop (length (out st)) (out st').

(** bob is connected and may read ann's "d1", where nobody is online. *)
Definition draft_doc : Document :=
  mkDocument "d1" "Untitled Document" (JStr "hello") (JStr "hello") "u1"
             [mkCollaborator "u2" view] [] 2 0.

Definition reader_state : State :=
  mkState {["d1" := draft_doc]}
          [mkVersion "d1" 1 (JStr "") "u1" 0; mkVersion "d1" 2 (JStr "hello") "u1" 0]
          {["u1" := ann; "u2" := bob]} ∅
          {["s2" := ["s2"]]} {["s2" := bob]} 9 [].

(** He opens "d0", which does not exist and becomes his, then "d1", and
    saves null: "d0" takes it, its content is null from then on. *)
Definition two_rooms_state : State :=
  let st1 := (run (dispatch "s2" (GetDocument "d0")) reader_state).2 in
  let st2 := (run (dispatch "s2" (GetDocument "d1")) st1).2 in
  (run (dispatch "s2" (SaveDocument JNull)) st2).2.

(** Every cached page of a document list in [c] is still in [c']. *)
Definition keeps_list_pages (c c' : gset string) : Prop :=
  forall userId page limit,
    no_colon userId ->
    list_page_key userId page limit ∈ c -> list_page_key userId page limit ∈ c'.

(** * Properties *)

(** ** Running programs *)

Lemma run_bind {A B : Type} (p : Prog A) (f : A -> Prog B) (st : State) :
  run (p ≫= f) st =
  match run p st with
  | (Done a, st') => run (f a) st'
  | (Threw e, st') => (Threw e, st')
  end.
Proof.
  unfold mbind, prog_bind. revert st.
  induction p as [a | e | X op k IH]; intros st; simpl; try reflexivity.
  destruct (exec op st) as [x st']. apply IH.
Qed.

Lemma run_try_catch {A : Type} (p : Prog A) (h : Err -> Prog A) (st : State) :
  run (try_catch p h) st =
  match run p st with
  | (Done a, st') => (Done a, st')
  | (Threw e, st') => run (h e) st'
  end.
Proof.
  revert st. induction p as [a | e | X op k IH]; intros st; simpl; try reflexivity.
  destruct (exec op st) as [x st']. apply IH.
Qed.

Lemma run_call {X : Type} (op : Op X) (st : State) :
  run (call op) st = (Done (exec op st).1, (exec op st).2).
Proof. unfold call. simpl. destruct (exec op st); reflexivity. Qed.

Lemma run_ret {A : Type} (a : A) (st : State) : run (mret a) st = (Done a, st).
Proof. reflexivity. Qed.

Lemma run_for_of_nil {A : Type} (body : A -> Prog unit) (st : State) :
  run (for_of [] body) st = (Done tt, st).
Proof. reflexivity. Qed.

Lemma run_for_of_cons {A : Type} (x : A) (l : list A) (body : A -> Prog unit)
    (st : State) :
  run (for_of (x :: l) body) st =
  match run (body x) st with
  | (Done _, st') => run (for_of l body) st'
  | (Threw e, st') => (Threw e, st')
  end.
Proof. simpl for_of. apply run_bind. Qed.

Ltac run_simpl :=
  repeat (rewrite ?run_bind, ?run_try_catch, ?run_call, ?run_ret; cbn [exec fst snd]).

(** ** The permission gate *)

Lemma find_collaborator_Some userId l c :
  find_collaborator userId l = Some c <->
  exists l1 l2 : list Collaborator, l = l1 ++ c :: l2 /\ c_user c = userId /\
                forall c', c' ∈ l1 -> c_user c' ≠ userId.
Proof.
  unfold find_collaborator. split.
  - induction l as [| a l IH]; simpl; [discriminate |].
    case_bool_decide as Ha.
    + intros [= ->]. exists [], l. split; [reflexivity |]. split; [exact Ha |].
      intros c' Hc'. inversion Hc'.
    + intros Hf. destruct (IH Hf) as (l1 & l2 & -> & Hu & Hl1).
      exists (a :: l1), l2. split; [reflexivity |]. split; [exact Hu |].
      intros c' Hc'. apply elem_of_cons in Hc' as [-> | Hc']; auto.
  - intros (l1 & l2 & -> & Hu & Hl1).
    induction l1 as [| a l1 IH]; simpl.
    + rewrite bool_decide_eq_true_2 by exact Hu. reflexivity.
    + rewrite bool_decide_eq_false_2 by (apply Hl1; left).
      apply IH. intros c' Hc'. apply Hl1. right. exact Hc'.
Qed.

Lemma find_collaborator_None userId l :
  find_collaborator userId l = None <->
  forall c, c ∈ l -> c_user c ≠ userId.
Proof.
  unfold find_collaborator. induction l as [| a l IH]; simpl.
  - split; [intros _ c Hc; inversion Hc | reflexivity].
  - case_bool_decide as Ha.
    + split; [discriminate |]. intros H. exfalso. apply (H a); [left | exact Ha].
    + rewrite IH. split.
      * intros H c Hc. apply elem_of_cons in Hc as [-> | Hc]; auto.
      * intros H c Hc. apply H. right. exact Hc.
Qed.

Lemma of_permission_not_owner p : of_permission p ≠ acc_owner.
Proof. destruct p; discriminate. Qed.

Lemma of_permission_not_none p : of_permission p ≠ acc_none.
Proof. destruct p; discriminate. Qed.

Lemma decide_access_spec d userId a :
  spec_decide d userId a <-> decide_access d userId = a.
Proof.
  unfold decide_access. split.
  - intros H. destruct H as [Ho | l1 c l2 Hne Hl Hu Hl1 | Hne Hno].
    + rewrite bool_decide_eq_true_2 by congruence. reflexivity.
    + rewrite bool_decide_eq_false_2 by congruence.
      assert (find_collaborator userId (collaborators d) = Some c) as ->.
      { apply find_collaborator_Some. eauto. }
      reflexivity.
    + rewrite bool_decide_eq_false_2 by congruence.
      apply find_collaborator_None in Hno. rewrite Hno. reflexivity.
  - case_bool_decide as Ho.
    + intros <-. apply spec_owner. congruence.
    + destruct (find_collaborator userId (collaborators d)) as [c |] eqn:Hf.
      * intros <-. apply find_collaborator_Some in Hf as (l1 & l2 & Hl & Hu & Hl1).
        eapply spec_collaborator; eauto.
      * intros <-. apply spec_none; [congruence |].
        apply find_collaborator_None. exact Hf.
Qed.

Lemma write_denied_decide d user :
  write_denied d user = negb (grants_write (decide_access d (u_id user))).
Proof.
  unfold write_denied, decide_access.
  case_bool_decide; simpl; [reflexivity |].
  destruct (find_collaborator (u_id user) (collaborators d)) as [c |];
    [destruct (c_permission c) |]; reflexivity.
Qed.

Lemma existsb_find_collaborator userId l :
  existsb (fun c => bool_decide (c_user c = userId)) l =
  bool_decide (is_Some (find_collaborator userId l)).
Proof.
  unfold find_collaborator. induction l as [| a l IH]; simpl.
  - reflexivity.
  - destruct (bool_decide (c_user a = userId)); simpl; [reflexivity | exact IH].
Qed.

Lemma run_socket_error sock message st :
  run (socket_error sock message) st =
  (Done tt, emits (ToSocket sock "error" (PMessage message)) st).
Proof. reflexivity. Qed.

(** ** What the helpers do to the stores *)

Lemma exec_DocUpdate D f st : exec (DocUpdate D f) st = (tt, update_doc D f st).
Proof. unfold update_doc. simpl. destruct (docs st !! D); reflexivity. Qed.

Lemma run_getOnlineUsers D st :
  run (getOnlineUsers D) st = (Done (presence D st), st).
Proof.
  unfold getOnlineUsers, presence. run_simpl.
  destruct (docs st !! D); reflexivity.
Qed.

Lemma run_addUserToDocument D user st :
  run (addUserToDocument D user) st =
  (Done true,
   update_doc D (fun d => with_onlineUsers (addToSet (u_id user) (onlineUsers d)) d) st).
Proof.
  unfold addUserToDocument. rewrite run_try_catch, run_bind, run_call.
  rewrite exec_DocUpdate. reflexivity.
Qed.

Lemma run_removeUserFromDocument D userId st :
  run (removeUserFromDocument D userId) st =
  (Done true,
   update_doc D (fun d => with_onlineUsers (pull userId (onlineUsers d)) d) st).
Proof.
  unfold removeUserFromDocument. rewrite run_try_catch, run_bind, run_call.
  rewrite exec_DocUpdate. reflexivity.
Qed.

Lemma run_hasDocumentAccess D userId st :
  run (hasDocumentAccess D userId) st =
  (Done (match docs st !! D with
         | Some d => negb (bool_decide (decide_access d userId = acc_none))
         | None => false
         end), st).
Proof.
  unfold hasDocumentAccess. run_simpl.
  destruct (docs st !! D) as [d |]; [| reflexivity].
  unfold decide_access. case_bool_decide; [reflexivity |].
  rewrite run_ret, existsb_find_collaborator.
  destruct (find_collaborator userId (collaborators d)) as [c |]; [| reflexivity].
  destruct (c_permission c); reflexivity.
Qed.

Lemma run_hasEditPermission D userId st :
  run (hasEditPermission D userId) st =
  (Done (match docs st !! D with
         | Some d => grants_write (decide_access d userId)
         | None => false
         end), st).
Proof.
  unfold hasEditPermission. run_simpl.
  destruct (docs st !! D) as [d |]; [| reflexivity].
  unfold decide_access. case_bool_decide; [reflexivity |].
  destruct (find_collaborator userId (collaborators d)) as [c |]; [| reflexivity].
  destruct (c_permission c); reflexivity.
Qed.

Lemma run_checkDocumentAccess D userId st :
  run (checkDocumentAccess D userId) st =
  (Done (match docs st !! D with
         | None => NotGranted "Document not found"
         | Some d =>
             match decide_access d userId with
             | acc_none => NotGranted "Access denied"
             | a => Granted a d
             end
         end), st).
Proof.
  unfold checkDocumentAccess. run_simpl.
  destruct (docs st !! D) as [d |]; [| reflexivity].
  unfold decide_access. case_bool_decide; [reflexivity |].
  destruct (find_collaborator userId (collaborators d)) as [c |]; [| reflexivity].
  destruct (c_permission c); reflexivity.
Qed.

Lemma exec_VerInsert v st :
  exec (VerInsert v) st =
  if version_accepted v st
  then (inr v, set_versions st (versions st ++ [v]))
  else (inl (if content_valid v then DuplicateKey else ValidationError), st).
Proof.
  unfold version_accepted. simpl.
  destruct (content_valid v); simpl; [| reflexivity].
  destruct (index_taken v (versions st)); reflexivity.
Qed.

Lemma run_DocumentVersion_create D n c u st :
  run (DocumentVersion_create D n c u) st =
  let v := mkVersion D n c u (clock st) in
  if version_accepted v st
  then (Done v, set_versions st (versions st ++ [v]))
  else (Threw (if content_valid v then DuplicateKey else ValidationError), st).
Proof.
  unfold DocumentVersion_create. rewrite run_bind, run_call. cbn [exec fst snd].
  unfold call_or_throw. cbn [run]. rewrite exec_VerInsert.
  cbn zeta. destruct (version_accepted _ st); reflexivity.
Qed.

Lemma update_doc_fields D f st :
  versions (update_doc D f st) = versions st /\
  cache (update_doc D f st) = cache st /\
  clock (update_doc D f st) = clock st /\
  out (update_doc D f st) = out st /\
  rooms (update_doc D f st) = rooms st /\
  session (update_doc D f st) = session st /\
  users (update_doc D f st) = users st.
Proof. unfold update_doc. destruct (docs st !! D); simpl; auto 10. Qed.

Lemma versions_update_doc D f st : versions (update_doc D f st) = versions st.
Proof. apply update_doc_fields. Qed.

Lemma clock_update_doc D f st : clock (update_doc D f st) = clock st.
Proof. apply update_doc_fields. Qed.

Lemma version_accepted_update_doc v D f st :
  version_accepted v (update_doc D f st) = version_accepted v st.
Proof. unfold version_accepted. rewrite versions_update_doc. reflexivity. Qed.

Lemma run_saveDocumentVersion D userId st :
  run (saveDocumentVersion D userId) st = (Done tt, snapshot_effect D userId st).
Proof.
  unfold saveDocumentVersion, snapshot_effect.
  rewrite run_try_catch, run_bind, run_call. cbn [exec fst snd].
  destruct (docs st !! D) as [d |] eqn:Hd; [| reflexivity].
  rewrite run_bind, run_call. cbn [exec fst snd].
  rewrite run_bind, run_call, exec_DocUpdate. cbn [fst snd].
  rewrite run_bind, run_DocumentVersion_create. cbn zeta.
  rewrite version_accepted_update_doc, clock_update_doc, versions_update_doc.
  unfold snapshot_record.
  destruct (version_accepted _ st); [| reflexivity].
  rewrite run_bind, !run_call. cbn [exec fst snd].
  unfold update_doc. rewrite Hd. reflexivity.
Qed.

Lemma run_save_document_room sock user x D st :
  run (save_document_room sock user x D) st =
  match docs st !! D with
  | None => (Done tt, st)
  | Some d =>
      if write_denied d user
      then (Done tt,
            emits (ToSocket sock "error"
                     (PMessage "You do not have permission to save this document")) st)
      else
        let st1 := update_doc D (with_saved x (or0 (currentVersion d) + 1) (clock st))
                     st in
        let v := save_record D user x d (clock st) in
        if version_accepted v st
        then (Done tt,
              set_cache (set_versions st1 (versions st ++ [v]))
                (cache st ∖ {["document:" +:+ D]}
                          ∖ {["user:" +:+ u_id user +:+ ":documents"]}))
        else (Threw (save_error v), st1)
  end.
Proof.
  unfold save_document_room.
  rewrite run_bind, run_call. cbn [exec fst snd].
  destruct (docs st !! D) as [d |] eqn:Hd; [| reflexivity].
  destruct (write_denied d user); [reflexivity |].
  rewrite run_bind, run_call. cbn [exec fst snd].
  rewrite run_bind, run_call, exec_DocUpdate. cbn [fst snd].
  rewrite run_bind, run_DocumentVersion_create. cbn zeta.
  rewrite version_accepted_update_doc, clock_update_doc, versions_update_doc.
  unfold save_record, save_error.
  destruct (version_accepted _ st); [| reflexivity].
  rewrite run_bind, !run_call. cbn [exec fst snd].
  unfold update_doc. rewrite Hd. reflexivity.
Qed.

Lemma run_send_changes_room sock user delta D st :
  run (send_changes_room sock user delta D) st =
  match docs st !! D with
  | None => (Done tt, st)
  | Some d =>
      if write_denied d user
      then (Done tt,
            emits (ToSocket sock "error"
                     (PMessage "You do not have permission to edit this document")) st)
      else (Done tt, emits (ToRoomExcept D sock "receive-changes" (PValue delta)) st)
  end.
Proof.
  unfold send_changes_room.
  rewrite run_bind, run_call. cbn [exec fst snd].
  destruct (docs st !! D) as [d |]; [| reflexivity].
  destruct (write_denied d user); reflexivity.
Qed.

Lemma run_document_rooms sock st :
  run (document_rooms sock) st =
  (Done (filter (fun room => room ≠ sock) (default [] (rooms st !! sock))), st).
Proof. reflexivity. Qed.

Lemma run_dispatch sock ev st :
  run (dispatch sock ev) st =
  match session st !! sock with
  | None => (Done tt, st)
  | Some user => run (handler sock user ev) st
  end.
Proof.
  unfold dispatch. rewrite run_bind, run_call. cbn [exec fst snd].
  destruct (session st !! sock); reflexivity.
Qed.

Lemma docs_update_doc D f st :
  docs (update_doc D f st) =
  match docs st !! D with
  | Some d => <[D := f d]> (docs st)
  | None => docs st
  end.
Proof. unfold update_doc. destruct (docs st !! D); reflexivity. Qed.

Lemma lookup_update_doc_eq D f st d :
  docs st !! D = Some d -> docs (update_doc D f st) !! D = Some (f d).
Proof. intros Hd. rewrite docs_update_doc, Hd. apply lookup_insert_eq. Qed.

Lemma lookup_update_doc_ne D D' f st :
  D ≠ D' -> docs (update_doc D f st) !! D' = docs st !! D'.
Proof.
  intros Hne. rewrite docs_update_doc.
  destruct (docs st !! D); [apply lookup_insert_ne; exact Hne | reflexivity].
Qed.

Lemma decide_access_owner d userId :
  decide_access d userId = acc_owner <-> userId = owner d.
Proof.
  unfold decide_access. case_bool_decide as Ho.
  - split; congruence.
  - split; [| congruence].
    destruct (find_collaborator userId (collaborators d)) as [c |];
      [destruct (c_permission c) |]; discriminate.
Qed.

(** ** The permission gate at work *)

(** C8. The permission decision reads the stored document and changes
    nothing. It answers owner exactly for the document's owner, otherwise the
    permission stored in the collaborator entry of that user, otherwise none.
    The write handlers (send-changes, save-document) and [hasEditPermission]
    let a user write exactly when that decision, taken on the document as it
    is stored when the event is handled, is owner or edit: nothing about
    permissions is kept on the connection. *)
Theorem permission_gate_decides_from_stored_document :
  forall (st : State) (documentId sock : string) (user : User) (x : JsVal),
    let userId := u_id user in
    (run (checkDocumentAccess documentId userId) st).2 = st /\
    (run (hasDocumentAccess documentId userId) st).2 = st /\
    (run (hasEditPermission documentId userId) st).2 = st /\
    match docs st !! documentId with
    | None =>
        (run (checkDocumentAccess documentId userId) st).1 =
        Done (NotGranted "Document not found")
    | Some d =>
        (forall a, spec_decide d userId a <-> decide_access d userId = a) /\
        (decide_access d userId = acc_owner <-> userId = owner d) /\
        (run (checkDocumentAccess documentId userId) st).1 =
          Done (match decide_access d userId with
                | acc_none => NotGranted "Access denied"
                | a => Granted a d
                end) /\
        (run (hasDocumentAccess documentId userId) st).1 =
          Done (negb (bool_decide (decide_access d userId = acc_none))) /\
        (run (hasEditPermission documentId userId) st).1 =
          Done (grants_write (decide_access d userId)) /\
        if grants_write (decide_access d userId)
        then
          run (send_changes_room sock user x documentId) st =
            (Done tt,
             emits (ToRoomExcept documentId sock "receive-changes" (PValue x)) st) /\
          docs (run (save_document_room sock user x documentId) st).2 !! documentId =
            Some (with_saved x (or0 (currentVersion d) + 1) (clock st) d)
        else
          run (send_changes_room sock user x documentId) st =
            (Done tt,
             emits (ToSocket sock "error"
                      (PMessage "You do not have permission to edit this document"))
                   st) /\
          run (save_document_room sock user x documentId) st =
            (Done tt,
             emits (ToSocket sock "error"
                      (PMessage "You do not have permission to save this document"))
                   st)
    end.
Proof.
  intros st documentId sock user x userId.
  rewrite run_checkDocumentAccess, run_hasDocumentAccess, run_hasEditPermission.
  rewrite run_send_changes_room, run_save_document_room.
  cbn [fst snd].
  do 3 (split; [reflexivity |]).
  destruct (docs st !! documentId) as [d |] eqn:Hd; [| reflexivity].
  split; [intros a; apply decide_access_spec |].
  split; [apply decide_access_owner |].
  do 3 (split; [reflexivity |]).
  rewrite write_denied_decide. fold userId.
  destruct (grants_write (decide_access d userId)); cbn [negb].
  - split; [reflexivity |]. cbn zeta.
    destruct (version_accepted _ st); cbn [snd].
    + change (docs (update_doc documentId
                      (with_saved x (or0 (currentVersion d) + 1) (clock st)) st)
                !! documentId = Some (with_saved x (or0 (currentVersion d) + 1) (clock st) d)).
      apply lookup_update_doc_eq. exact Hd.
    + apply lookup_update_doc_eq. exact Hd.
  - split; reflexivity.
Qed.

(** The owner turns bob from an editor into a reader while he stays
    connected: his next save on the same connection is turned down. *)
Example permission_change_is_seen_by_the_next_event :
  let user := mkUser "u2" "bob" "bob@example.org" None in
  let st0 :=
    mkState {["d1" := mkDocument "d1" "Untitled Document" (JStr "") defaultValue
                        "u1" [mkCollaborator "u2" edit] ["u1"; "u2"] 1 0]}
            [mkVersion "d1" 1 (JStr "") "u1" 0] ∅ ∅
            {["s2" := ["s2"; "d1"]]} {["s2" := user]} 5 [] in
  let st1 := (run (on_save_document "s2" user (JStr "one")) st0).2 in
  let st2 := update_doc "d1" demoted st1 in
  let st3 := (run (on_save_document "s2" user (JStr "two")) st2).2 in
  (content <$> docs st1 !! "d1") = Some (JStr "one") /\
  (content <$> docs st3 !! "d1") = Some (JStr "one") /\
  out st3 = [ToSocket "s2" "error"
               (PMessage "You do not have permission to save this document")].
Proof. vm_compute. auto. Qed.

(** ** Cursor relay *)

(** C10. Whatever [documentId] an authenticated connection names in a
    cursor-position event, the server sends one cursor-moved event to that
    room, the sender excluded, with the sender's id and username, the position
    received and the server's clock; it reads no document, checks no
    permission and no membership, and changes nothing else. *)
Theorem cursor_position_is_relayed_unchecked :
  forall (st : State) (sock : string) (user : User) (documentId : string)
         (position : JsVal),
    session st !! sock = Some user ->
    run (dispatch sock (CursorPosition documentId position)) st =
    (Done tt,
     emits (ToRoomExcept documentId sock "cursor-moved"
              (PCursor (u_id user) (username user) position (clock st))) st).
Proof.
  intros st sock user documentId position Hs.
  rewrite run_dispatch, Hs. reflexivity.
Qed.

(** A connection that joined no room names a document that does not
    exist. *)
Lemma cursor_position_is_relayed_unchecked_witness :
  docs lone_state !! "ghost" = None /\
  rooms lone_state !! "s1" = Some ["s1"] /\
  run (dispatch "s1" (CursorPosition "ghost" (JNum 7))) lone_state =
  (Done tt,
   emits (ToRoomExcept "ghost" "s1" "cursor-moved"
            (PCursor "u1" "ann" (JNum 7) 42)) lone_state).
Proof.
  split; [reflexivity |]. split; [reflexivity |].
  apply (cursor_position_is_relayed_unchecked lone_state "s1"
           (mkUser "u1" "ann" "ann@example.org" None) "ghost" (JNum 7)).
  reflexivity.
Defined.

(** ** Socket authentication *)

Section AuthenticationFacts.

Variable JWT_SECRET : option string.
Variable jwt_verify : string -> string -> JwtError + JwtPayload.

Lemma run_authenticateSocket token st :
  run (authenticateSocket JWT_SECRET jwt_verify token) st =
  (Done (if str_truthy token
         then match jwt_verify (default "" token) (jwt_secret JWT_SECRET) with
              | inl _ => None
              | inr p => select_without_password <$> users st !! jwt_id p
              end
         else None), st).
Proof.
  unfold authenticateSocket. rewrite run_try_catch.
  destruct (str_truthy token); [| reflexivity]. cbn [negb].
  rewrite run_bind.
  destruct (jwt_verify (default "" token) (jwt_secret JWT_SECRET)) as [e | p];
    [reflexivity |].
  rewrite run_ret, run_bind, run_call. cbn [exec fst snd].
  destruct (users st !! jwt_id p); reflexivity.
Qed.

Lemma run_io_use sock hs st :
  run (io_use JWT_SECRET jwt_verify sock hs) st =
  (Done tt,
   if str_truthy (extract_token hs)
   then match verify_token JWT_SECRET jwt_verify hs with
        | inl _ => emits (Refused sock "Authentication error: Invalid token") st
        | inr p =>
            match users st !! jwt_id p with
            | None => emits (Refused sock "Authentication error: Invalid token") st
            | Some u => connected sock (select_without_password u) st
            end
        end
   else emits (Refused sock "Authentication error: Missing token") st).
Proof.
  unfold io_use. rewrite run_try_catch. cbn zeta.
  destruct (str_truthy (extract_token hs)) eqn:Ht; [| reflexivity]. cbn [negb].
  rewrite run_bind, run_authenticateSocket, Ht.
  unfold verify_token in *; destruct (jwt_verify (default "" (extract_token hs)) (jwt_secret JWT_SECRET)) as [e | p]; [reflexivity |].
  destruct (users st !! jwt_id p); reflexivity.
Qed.

Lemma emits_not_connected e sock u st : emits e st ≠ connected sock u st.
Proof.
  intros H. apply (f_equal out) in H. simpl in H.
  apply (f_equal length) in H. rewrite length_app in H. simpl in H. lia.
Qed.

Lemma token_rejected_None hs st :
  token_rejected JWT_SECRET jwt_verify hs st <-> token_user JWT_SECRET jwt_verify hs st = None.
Proof.
  unfold token_rejected, token_missing, token_malformed, token_expired,
    subject_unknown, token_user.
  destruct (str_truthy (extract_token hs)).
  - unfold verify_token in *; destruct (jwt_verify (default "" (extract_token hs)) (jwt_secret JWT_SECRET)) as [e | p].
    + split; [reflexivity |]. intros _. destruct e; auto.
    + split.
      * intros [H | [[_ H] | [[_ H] | [_ (p0 & H & H0)]]]]; try discriminate.
        injection H as <-. exact H0.
      * intros H. do 3 right. split; [reflexivity |]. exists p. auto.
  - split; [reflexivity | auto].
Qed.

Lemma run_io_use_token_user sock hs st :
  (run (io_use JWT_SECRET jwt_verify sock hs) st).2 =
  match token_user JWT_SECRET jwt_verify hs st with
  | Some u => connected sock (select_without_password u) st
  | None =>
      emits (Refused sock
               (if str_truthy (extract_token hs)
                then "Authentication error: Invalid token"
                else "Authentication error: Missing token")) st
  end.
Proof.
  rewrite run_io_use. cbn [snd]. unfold token_user.
  destruct (str_truthy (extract_token hs)); [| reflexivity].
  unfold verify_token in *; destruct (jwt_verify (default "" (extract_token hs)) (jwt_secret JWT_SECRET)) as [e | p]; [reflexivity |].
  destruct (users st !! jwt_id p); reflexivity.
Qed.

(** C9. The middleware refuses a connection exactly when the token is
    missing, is malformed, has expired, or names a subject that is not in the
    user collection. A refusal leaves every store as it was (no session, no
    room), and a socket without a session has no handler to run, so no room
    can be joined. Otherwise the user read from the store, with the password
    removed, is attached to the socket. *)
Theorem socket_authentication_gate :
  forall (st : State) (sock : string) (hs : Handshake),
    let st' := (run (io_use JWT_SECRET jwt_verify sock hs) st).2 in
    (token_rejected JWT_SECRET jwt_verify hs st <-> exists msg, st' = emits (Refused sock msg) st) /\
    (token_rejected JWT_SECRET jwt_verify hs st ->
       session st' = session st /\ rooms st' = rooms st /\
       docs st' = docs st /\ versions st' = versions st /\
       (session st !! sock = None ->
        forall ev, run (dispatch sock ev) st' = (Done tt, st'))) /\
    (~ token_rejected JWT_SECRET jwt_verify hs st <->
       exists p u,
         verify_token JWT_SECRET jwt_verify hs = inr p /\ users st !! jwt_id p = Some u /\
         st' = connected sock (select_without_password u) st /\
         session st' !! sock =
           Some (mkUser (u_id u) (username u) (email u) None)).
Proof.
  intros st sock hs st'. subst st'.
  rewrite run_io_use_token_user, token_rejected_None.
  destruct (token_user JWT_SECRET jwt_verify hs st) as [u |] eqn:Hu.
  - split.
    { split; [discriminate |]. intros [msg Hm]. symmetry in Hm.
      destruct (emits_not_connected _ _ _ _ Hm). }
    split; [discriminate |].
    split; [| discriminate].
    intros _. unfold token_user in Hu.
    destruct (str_truthy (extract_token hs)); [| discriminate].
    unfold verify_token in *; destruct (jwt_verify (default "" (extract_token hs)) (jwt_secret JWT_SECRET)) as [e | p]; [discriminate |].
    exists p, u. do 3 (split; [reflexivity || assumption |]).
    simpl. apply lookup_insert_eq.
  - split; [split; [eauto | reflexivity] |].
    split.
    + intros _. do 4 (split; [reflexivity |]).
      intros Hs ev. rewrite run_dispatch. simpl. rewrite Hs. reflexivity.
    + split; [intros Hn; destruct Hn; reflexivity |].
      intros (p & u & _ & _ & Hc & _).
      destruct (emits_not_connected _ _ _ _ Hc).
Qed.

End AuthenticationFacts.

Example tokens_turned_down :
  (run (io_use None toy_verify "s1" (mkHandshake None None None)) user_store).2 =
    emits (Refused "s1" "Authentication error: Missing token") user_store /\
  (run (io_use None toy_verify "s1" (mkHandshake None None (Some "Bearer")))
       user_store).2 =
    emits (Refused "s1" "Authentication error: Missing token") user_store /\
  (run (io_use None toy_verify "s1" (mkHandshake (Some "old") None None))
       user_store).2 =
    emits (Refused "s1" "Authentication error: Invalid token") user_store /\
  (run (io_use None toy_verify "s1" (mkHandshake None (Some "x.y.z") None))
       user_store).2 =
    emits (Refused "s1" "Authentication error: Invalid token") user_store /\
  (run (io_use None toy_verify "s1" (mkHandshake (Some "good") None None))
       empty_state).2 =
    emits (Refused "s1" "Authentication error: Invalid token") empty_state.
Proof. repeat split. Qed.

(** A good token in the authorization header: ann's record is attached
    without her password hash. *)
Lemma socket_authentication_gate_witness :
  session (run (io_use None toy_verify "s1"
                  (mkHandshake None None (Some "Bearer good"))) user_store).2
    !! "s1" = Some (mkUser "u1" "ann" "ann@example.org" None).
Proof.
  destruct (socket_authentication_gate None toy_verify user_store "s1"
              (mkHandshake None None (Some "Bearer good"))) as (_ & _ & H).
  destruct (proj1 H) as (p & u & Hp & Hu & _ & Hs).
  - intros [Hm | [[_ Hm] | [[_ Hm] | (_ & p & Hp & Hu)]]];
      try (vm_compute in Hm; discriminate).
    vm_compute in Hp. injection Hp as <-. vm_compute in Hu. discriminate.
  - vm_compute in Hp. injection Hp as <-.
    vm_compute in Hu. injection Hu as <-. exact Hs.
Defined.

(** ** Joining a document *)

Lemma run_join_document sock user D document st :
  run (join_document sock user D document) st =
  (Done tt,
   emits (ToRoom D "user-joined"
            (PUserJoined (u_id user) (username user) (email user)
                         (presence D (present sock user D st))))
     (emits (ToSocket sock "load-document"
               (PValue (js_or (data document) defaultValue)))
        (join_snapshot sock user D st))).
Proof.
  unfold join_document, join_snapshot, present, add_presence.
  rewrite run_bind, run_call. cbn [exec fst snd]. fold (joined_room sock D st).
  rewrite run_bind, run_addUserToDocument.
  rewrite run_bind, run_getOnlineUsers.
  rewrite run_bind.
  case_bool_decide.
  - rewrite run_saveDocumentVersion. reflexivity.
  - reflexivity.
Qed.

Lemma fresh_id_unused st :
  docs st !! fresh_id st = None /\
  version_numbers (fresh_id st) (versions st) = [].
Proof.
  unfold fresh_id.
  set (X := (dom (docs st) ∪ list_to_set (v_document <$> versions st) : gset string)).
  pose proof (is_fresh X) as Hf.
  split.
  - apply not_elem_of_dom. intros Hd. apply Hf. unfold X. set_solver.
  - unfold version_numbers, versions_of.
    destruct (filter (λ v, v_document v = fresh X) (versions st)) as [| v l] eqn:E;
      [reflexivity |].
    exfalso. apply Hf.
    assert (Hv : v ∈ filter (λ v, v_document v = fresh X) (versions st))
      by (rewrite E; left).
    apply list_elem_of_filter in Hv as [Hv1 Hv2].
    unfold X at 2. apply elem_of_union_r, elem_of_list_to_set.
    rewrite <- Hv1. apply list_elem_of_fmap. exists v. auto.
Qed.

Lemma version_accepted_fresh D n c u now st :
  c ≠ JNull ->
  n ∉ version_numbers D (versions st) ->
  version_accepted (mkVersion D n c u now) st = true.
Proof.
  intros Hc Hn. unfold version_accepted, content_valid, index_taken. simpl.
  rewrite bool_decide_eq_false_2 by exact Hn.
  destruct c; try reflexivity; congruence.
Qed.

Lemma run_Document_create id ttl c x own cs st :
  docs st !! default (fresh_id st) id = None ->
  run (Document_create id ttl c x own cs) st =
  let d := mkDocument (default (fresh_id st) id) ttl c x own cs [] 1 (clock st) in
  (Done d, set_docs st (<[d_id d := d]> (docs st))).
Proof.
  intros Hid. unfold Document_create.
  rewrite run_bind.
  assert (run (match id with Some i => mret i | None => call NewObjectId end) st
          = (Done (default (fresh_id st) id), st)) as ->.
  { destruct id; reflexivity. }
  rewrite run_bind, run_call. cbn [exec fst snd].
  unfold call_or_throw. cbn [run exec d_id]. rewrite Hid. reflexivity.
Qed.

Lemma run_on_get_document_new sock user D st :
  docs st !! D = None ->
  1 ∉ version_numbers D (versions st) ->
  run (on_get_document sock user D) st =
  run (join_document sock user D (created_document D user (clock st)))
      (created_state D user st).
Proof.
  intros Hd Hv. unfold on_get_document.
  rewrite run_try_catch, run_bind, run_call. cbn [exec fst snd]. rewrite Hd.
  rewrite run_bind, run_Document_create by exact Hd. cbn zeta. cbn [default d_id].
  rewrite run_bind, run_DocumentVersion_create. cbn zeta.
  rewrite version_accepted_fresh by (discriminate || exact Hv).
  rewrite run_bind, run_call. cbn [exec fst snd].
  rewrite !run_join_document. reflexivity.
Qed.

Lemma run_on_get_document_existing sock user D d st :
  docs st !! D = Some d ->
  run (on_get_document sock user D) st =
  if bool_decide (decide_access d (u_id user) = acc_none)
  then (Done tt, emits (ToSocket sock "error" (PMessage "Access denied")) st)
  else run (join_document sock user D d) st.
Proof.
  intros Hd. unfold on_get_document.
  rewrite run_try_catch, run_bind, run_call. cbn [exec fst snd]. rewrite Hd.
  rewrite run_bind, run_hasDocumentAccess, Hd.
  case_bool_decide; cbn [negb].
  - reflexivity.
  - rewrite run_join_document. reflexivity.
Qed.

Lemma presence_created sock user D st :
  docs (present sock user D (created_state D user st)) !! D =
  Some (with_onlineUsers [u_id user] (created_document D user (clock st))).
Proof.
  unfold present, add_presence.
  rewrite (lookup_update_doc_eq _ _ _ (created_document D user (clock st)));
    [reflexivity |].
  simpl. apply lookup_insert_eq.
Qed.

Lemma versions_present sock user D st :
  versions (present sock user D st) = versions st.
Proof. unfold present, add_presence. rewrite versions_update_doc. reflexivity. Qed.

(** On the empty store, [get-document] for "d1" leaves version 1 of "d1". *)
Lemma get_document_creates_first_version :
  versions (run (on_get_document "s1" ann "d1") empty_state).2 =
    [mkVersion "d1" 1 (JStr "") "u1" 0] /\
  ~ implicit_creation_skips_first_version empty_state "s1" ann "d1".
Proof.
  split; [reflexivity |].
  intros H. specialize (H eq_refl). vm_compute in H. discriminate.
Qed.

Lemma run_redis_del_all keys st :
  exists c, run (for_of keys (fun key => call (RedisDel key))) st =
            (Done tt, set_cache st c).
Proof.
  revert st. induction keys as [| key keys IH]; intros st.
  - exists (cache st). destruct st; reflexivity.
  - rewrite run_for_of_cons, run_call. cbn [exec fst snd].
    destruct (IH (set_cache st (cache st ∖ {[key]}))) as [c Hc].
    exists c. rewrite Hc. reflexivity.
Qed.

Lemma run_redis_del_some keys st :
  exists c,
    run (if bool_decide (0 < length keys)%nat
         then for_of keys (fun key => call (RedisDel key))
         else mret tt) st = (Done tt, set_cache st c).
Proof.
  case_bool_decide.
  - apply run_redis_del_all.
  - exists (cache st). destruct st; reflexivity.
Qed.

Lemma trim_nonempty t : trim t ≠ "" -> t ≠ "".
Proof. intros H ->. apply H. reflexivity. Qed.

Lemma eqb_false_of_ne (s t : string) : s ≠ t -> String.eqb s t = false.
Proof. intros H. apply String.eqb_neq. exact H. Qed.

Lemma run_service_createDocument ttl c own gv st :
  trim ttl ≠ "" ->
  run (DocumentService.createDocument ttl c own gv) st =
  let content' := JStr (DocumentService.documentContent c) in
  let d := mkDocument (fresh_id st) (trim ttl) content' defaultValue own [] [] 1
             (clock st) in
  (Done d,
   set_cache
     (set_versions (set_docs st (<[fresh_id st := d]> (docs st)))
        (if bool_decide (gv = Some false) then versions st
         else versions st ++ [mkVersion (fresh_id st) 1 content' own (clock st)]))
     (cache st ∖ {["user:" +:+ own +:+ ":documents"]})).
Proof.
  intros Ht. unfold DocumentService.createDocument.
  rewrite (eqb_false_of_ne _ _ Ht), (eqb_false_of_ne _ _ (trim_nonempty _ Ht)).
  cbn [orb]. destruct (fresh_id_unused st) as [Hf Hv].
  rewrite run_bind, run_Document_create by exact Hf. cbn zeta. cbn [default d_id].
  rewrite run_bind. case_bool_decide as Hg; cbn [negb].
  - rewrite run_ret, run_bind, run_call. cbn [exec fst snd]. rewrite run_ret.
    reflexivity.
  - rewrite run_bind, run_DocumentVersion_create. cbn zeta.
    rewrite version_accepted_fresh;
      [| discriminate | cbn [versions set_docs]; rewrite Hv; apply not_elem_of_nil].
    rewrite run_ret, run_bind, run_call. cbn [exec fst snd]. rewrite run_ret.
    reflexivity.
Qed.

(** C6, as the code has it. Handling [get-document] for an id that names no
    document (and for which no version record is left over) creates the
    document with content "", the default data, the requesting user as owner,
    no collaborator and currentVersion 1, and it does create the version-1
    record; the requester is then the only user online. The path that skips
    the first version is [DocumentService.findOrCreateDocument], which the
    handler does not call: it stores a document under a new id with content
    " " and no version record. The create route stores version 1. *)
Theorem creation_paths_and_first_version :
  forall (st : State) (sock : string) (user : User) (D id userId uid t c : string),
    docs st !! D = None ->
    1 ∉ version_numbers D (versions st) ->
    id ≠ "" ->
    docs st !! id = None ->
    trim t ≠ "" ->
    (let st' := (run (on_get_document sock user D) st).2 in
     docs st' !! D =
       Some (mkDocument D "Untitled Document" (JStr "") defaultValue (u_id user)
                        [] [u_id user] 1 (clock st)) /\
     versions st' = versions st ++ [mkVersion D 1 (JStr "") (u_id user) (clock st)]) /\
    (let r := run (DocumentService.findOrCreateDocument id userId) st in
     let d := mkDocument (fresh_id st) "Untitled Document" (JStr " ") defaultValue
                         userId [] [] 1 (clock st) in
     r.1 = Done (Some d) /\
     docs r.2 = <[fresh_id st := d]> (docs st) /\
     versions r.2 = versions st) /\
    (let r := run (createDocument (Some uid) (JStr t) (JStr c)) st in
     r.1 = Done 201 /\
     versions r.2 =
       versions st ++
       [mkVersion (fresh_id st) 1 (JStr (DocumentService.documentContent (Some c)))
                  uid (clock st)]).
Proof.
  intros st sock user D id userId uid t c Hd Hv Hid Hidd Ht.
  split; [| split].
  - cbn zeta. rewrite run_on_get_document_new by assumption.
    rewrite run_join_document. cbn [snd].
    unfold join_snapshot, presence. rewrite presence_created.
    cbn [onlineUsers with_onlineUsers length].
    rewrite bool_decide_eq_false_2 by lia.
    split.
    + cbn [emits set_out docs]. rewrite presence_created. reflexivity.
    + cbn [emits set_out versions]. rewrite versions_present. reflexivity.
  - cbn zeta. unfold DocumentService.findOrCreateDocument.
    rewrite (eqb_false_of_ne _ _ Hid).
    rewrite run_try_catch, run_bind, run_call. cbn [exec fst snd]. rewrite Hidd.
    rewrite run_bind, run_service_createDocument by (vm_compute; discriminate).
    split; [reflexivity |]. split; reflexivity.
  - cbn zeta. unfold createDocument.
    rewrite run_try_catch.
    rewrite (eqb_false_of_ne _ _ Ht), (eqb_false_of_ne _ _ (trim_nonempty _ Ht)).
    cbn [orb]. rewrite run_bind, run_ret.
    destruct (fresh_id_unused st) as [Hf Hfv].
    rewrite run_bind, run_Document_create by exact Hf. cbn zeta. cbn [default d_id].
    rewrite run_bind, run_DocumentVersion_create. cbn zeta.
    rewrite version_accepted_fresh;
      [| discriminate | cbn [versions set_docs]; rewrite Hfv; apply not_elem_of_nil].
    rewrite run_bind, run_call. cbn [exec fst snd].
    rewrite run_bind, run_call. cbn [exec fst snd].
    rewrite run_bind.
    match goal with
    | |- context [run (if _ then for_of ?ks _ else mret tt) ?s] =>
        destruct (run_redis_del_some ks s) as [c' ->]
    end.
    rewrite run_ret. split; reflexivity.
Qed.

(** The three creation paths on the empty store. *)
Lemma creation_paths_and_first_version_witness :
  versions (run (on_get_document "s1" ann "d1") empty_state).2 =
    [mkVersion "d1" 1 (JStr "") "u1" 0] /\
  versions (run (DocumentService.findOrCreateDocument "d1" "u1") empty_state).2 = [] /\
  (run (createDocument (Some "u1") (JStr "Notes") (JStr "")) empty_state).1 = Done 201.
Proof.
  pose proof (creation_paths_and_first_version empty_state "s1" ann
                "d1" "d1" "u1" "u1" "Notes" "") as H.
  destruct H as ((_ & H1) & (_ & _ & H2) & (H3 & _)).
  - reflexivity.
  - vm_compute. intros H; inversion H.
  - discriminate.
  - reflexivity.
  - vm_compute. discriminate.
  - split; [exact H1 |]. split; [exact H2 | exact H3].
Defined.

(** ** Saving *)

(** C7 at [shared_state], bob saving "hello". The document gets the payload
    as content and as data, currentVersion goes from 1 to 2 and version 2 is
    recorded for bob; but of the four cache entries only bob's document list
    is removed: the owner's two entries and bob's own detail entry stay. The
    other copy of the handler removes all four. *)
Theorem save_document_leaves_cache_entries :
  let st' := (run (dispatch "s2" (SaveDocument (JStr "hello"))) shared_state).2 in
  docs st' !! "d1" =
    Some (mkDocument "d1" "Untitled Document" (JStr "hello") (JStr "hello") "u1"
                     [mkCollaborator "u2" edit] ["u1"; "u2"] 2 5) /\
  versions st' = [mkVersion "d1" 1 (JStr "") "u1" 0;
                  mkVersion "d1" 2 (JStr "hello") "u2" 5] /\
  cache st' =
    {["document:d1:user:u1"; "user:u1:documents"; "document:d1:user:u2"]} /\
  cache (run (Variant.on_save_document "s2" bob (JStr "hello")) shared_state).2 = ∅.
Proof. vm_compute. auto. Qed.

Lemma run_invalidateDocumentCache D userId st :
  run (Variant.invalidateDocumentCache D userId) st =
  (Done tt, set_cache st (invalidated D userId (cache st))).
Proof. reflexivity. Qed.

Lemma run_invalidate_collaborators D (cs : list Collaborator) st :
  run (for_of cs (fun c => Variant.invalidateDocumentCache D (c_user c))) st =
  (Done tt,
   set_cache st (foldl (fun c col => invalidated D (c_user col) c) (cache st) cs)).
Proof.
  revert st. induction cs as [| col cs IH]; intros st.
  - destruct st; reflexivity.
  - rewrite run_for_of_cons, run_invalidateDocumentCache, IH. reflexivity.
Qed.

Lemma run_invalidate_collaborators_guarded D (cs : list Collaborator) st :
  run (if bool_decide (0 < length cs)%nat
       then for_of cs (fun c => Variant.invalidateDocumentCache D (c_user c))
       else mret tt) st =
  (Done tt,
   set_cache st (foldl (fun c col => invalidated D (c_user col) c) (cache st) cs)).
Proof.
  case_bool_decide as Hl; [apply run_invalidate_collaborators |].
  destruct cs; [destruct st; reflexivity | simpl in Hl; lia].
Qed.

Lemma invalidated_subseteq D userId c : invalidated D userId c ⊆ c.
Proof.
  unfold invalidated. intros k Hk.
  apply elem_of_difference in Hk as [Hk _].
  apply elem_of_difference in Hk as [Hk _]. exact Hk.
Qed.

Lemma invalidated_all_subseteq D (cs : list Collaborator) c :
  foldl (fun c col => invalidated D (c_user col) c) c cs ⊆ c.
Proof.
  revert c. induction cs as [| col cs IH]; intros c; simpl; [set_solver |].
  etrans; [apply IH | apply invalidated_subseteq].
Qed.

Lemma invalidated_entries D userId c key :
  key ∈ cache_entries D userId -> key ∉ invalidated D userId c.
Proof.
  unfold cache_entries, invalidated. intros Hk H.
  apply elem_of_difference in H as [H H2].
  apply elem_of_difference in H as [_ H1].
  apply elem_of_cons in Hk as [-> | Hk].
  - apply H1. apply elem_of_singleton. reflexivity.
  - apply list_elem_of_singleton in Hk as ->.
    apply H2. apply elem_of_singleton. reflexivity.
Qed.

Lemma invalidated_all_entries D (cs : list Collaborator) c col key :
  col ∈ cs -> key ∈ cache_entries D (c_user col) ->
  key ∉ foldl (fun c col => invalidated D (c_user col) c) c cs.
Proof.
  revert c. induction cs as [| a cs IH]; intros c Hin Hk; [inversion Hin |].
  simpl. apply elem_of_cons in Hin as [-> | Hin].
  - intros H. apply invalidated_all_subseteq in H.
    revert H. apply invalidated_entries. exact Hk.
  - apply IH; assumption.
Qed.

(** The other copy of the handler does what the design states: after a save
    it has deleted the keys of the invalidation ([cache_entries]) for the
    owner and for every collaborator. *)
Lemma variant_save_invalidates_everyone sock user x D d st userId key :
  docs st !! D = Some d ->
  write_denied d user = false ->
  version_accepted (save_record D user x d (clock st)) st = true ->
  userId = owner d \/ (exists col, col ∈ collaborators d /\ c_user col = userId) ->
  key ∈ cache_entries D userId ->
  key ∉ cache (run (Variant.save_document_room sock user x D) st).2.
Proof.
  intros Hd Hw Hacc Hu Hk. unfold Variant.save_document_room.
  rewrite run_bind, run_call. cbn [exec fst snd]. rewrite Hd, Hw.
  rewrite run_bind, run_call. cbn [exec fst snd].
  rewrite run_bind, run_call, exec_DocUpdate. cbn [fst snd].
  rewrite run_bind, run_DocumentVersion_create. cbn zeta.
  rewrite version_accepted_update_doc, clock_update_doc, versions_update_doc.
  fold (save_record D user x d (clock st)). rewrite Hacc.
  rewrite run_bind, run_invalidateDocumentCache.
  rewrite run_bind, run_invalidate_collaborators_guarded.
  cbn [cache set_cache set_versions].
  set (c0 := invalidated D (u_id user) _).
  set (c1 := foldl _ c0 (collaborators d)).
  assert (Hc1 : forall col, col ∈ collaborators d ->
                  key ∈ cache_entries D (c_user col) -> key ∉ c1).
  { intros col Hin Hkc. unfold c1. eapply invalidated_all_entries; eauto. }
  case_bool_decide as Ho.
  - rewrite run_invalidateDocumentCache. cbn [snd cache set_cache].
    destruct Hu as [-> | (col & Hin & <-)].
    + apply invalidated_entries. exact Hk.
    + intros H. apply invalidated_subseteq in H. exact (Hc1 col Hin Hk H).
  - rewrite run_ret. cbn [snd cache set_cache].
    destruct Hu as [-> | (col & Hin & <-)].
    + rewrite Ho in Hk.
      intros H. apply invalidated_all_subseteq in H.
      revert H. apply invalidated_entries. exact Hk.
    + exact (Hc1 col Hin Hk).
Qed.

(** ** What the invalidation removes and what it leaves *)

Lemma append_inj_l (s a b : string) : s +:+ a = s +:+ b -> a = b.
Proof.
  induction s as [| ch s IH]; intros H; [exact H |].
  change (String ch (s +:+ a) = String ch (s +:+ b)) in H.
  injection H as H. apply IH, H.
Qed.

Lemma length_append (a b : string) :
  String.length (a +:+ b) = (String.length a + String.length b)%nat.
Proof.
  induction a as [| ch a IH]; [reflexivity |].
  change (S (String.length (a +:+ b)) = S (String.length a + String.length b)).
  rewrite IH. reflexivity.
Qed.

Lemma append_inj_r (a b s : string) : a +:+ s = b +:+ s -> a = b.
Proof.
  revert b. induction a as [| ch a IH]; intros [| ch' b] H.
  - reflexivity.
  - change (s = String ch' (b +:+ s)) in H.
    apply (f_equal String.length) in H.
    cbn [String.length] in H. rewrite length_append in H. lia.
  - change (String ch (a +:+ s) = s) in H.
    apply (f_equal String.length) in H.
    cbn [String.length] in H. rewrite length_append in H. lia.
  - change (String ch (a +:+ s) = String ch' (b +:+ s)) in H.
    injection H as -> H. rewrite (IH b H). reflexivity.
Qed.

(** Two strings cut at their first colon. *)
Lemma first_colon (a b x y : string) :
  no_colon a -> no_colon b ->
  a +:+ String ":" x = b +:+ String ":" y -> a = b /\ x = y.
Proof.
  revert b. induction a as [| ch a IH]; intros [| ch' b] Ha Hb H.
  - injection H as H. auto.
  - change (String ":" x = String ch' (b +:+ String ":" y)) in H.
    injection H as Hc _. destruct Hb as [Hb _]. congruence.
  - change (String ch (a +:+ String ":" x) = String ":" y) in H.
    injection H as Hc _. destruct Ha as [Ha _]. congruence.
  - change (String ch (a +:+ String ":" x) = String ch' (b +:+ String ":" y)) in H.
    injection H as -> H. destruct Ha as [_ Ha]. destruct Hb as [_ Hb].
    destruct (IH b Ha Hb H) as [-> ->]. auto.
Qed.

Lemma detail_key_entry D userId : detail_key D userId ∈ cache_entries D userId.
Proof. left. Qed.

(** A page of a document list is under neither key of the invalidation. *)
Lemma list_page_key_kept D u userId page limit :
  no_colon u -> no_colon userId ->
  list_page_key userId page limit ∉ cache_entries D u.
Proof.
  intros Hu Huser Hin. unfold cache_entries, list_page_key in Hin.
  rewrite !elem_of_cons, elem_of_nil in Hin.
  destruct Hin as [H | [H | []]].
  - discriminate H.
  - apply append_inj_l in H.
    change (userId +:+ String ":" ("documents:page" +:+ page +:+ ":limit" +:+ limit)
            = u +:+ String ":" "documents") in H.
    apply first_colon in H as [_ H]; [| exact Huser | exact Hu].
    discriminate H.
Qed.

Lemma invalidated_other_key D u (c : gset string) key :
  key ∉ cache_entries D u -> key ∈ c -> key ∈ invalidated D u c.
Proof.
  intros Hkey Hin. unfold invalidated.
  apply elem_of_difference. split; [apply elem_of_difference; split |].
  - exact Hin.
  - rewrite elem_of_singleton. intros ->. apply Hkey. left.
  - rewrite elem_of_singleton. intros ->. apply Hkey. right. left.
Qed.

Lemma keeps_list_pages_refl c : keeps_list_pages c c.
Proof. intros u p l _ H. exact H. Qed.

Lemma keeps_list_pages_trans c1 c2 c3 :
  keeps_list_pages c1 c2 -> keeps_list_pages c2 c3 -> keeps_list_pages c1 c3.
Proof. intros H1 H2 u p l Hu H. apply H2, H1; assumption. Qed.

Lemma invalidated_keeps_list_pages D u c :
  no_colon u -> keeps_list_pages c (invalidated D u c).
Proof.
  intros Hu userId page limit Huser Hin.
  apply invalidated_other_key; [| exact Hin].
  apply list_page_key_kept; assumption.
Qed.

Lemma invalidated_all_keeps_list_pages D (cs : list Collaborator) c :
  (forall col, col ∈ cs -> no_colon (c_user col)) ->
  keeps_list_pages c (foldl (fun c col => invalidated D (c_user col) c) c cs).
Proof.
  revert c. induction cs as [| col cs IH]; intros c Hcs;
    [apply keeps_list_pages_refl |].
  cbn [foldl].
  apply (keeps_list_pages_trans _ (invalidated D (c_user col) c)).
  - apply invalidated_keeps_list_pages, Hcs. left.
  - apply IH. intros col' Hcol'. apply Hcs. right. exact Hcol'.
Qed.

(** The cache the second copy of [save-document] leaves. *)
Lemma variant_invalidated_spec D user d (c : gset string) :
  variant_invalidated D user d c ⊆ c /\
  (forall userId,
     userId = u_id user \/ userId = owner d \/
     (exists col, col ∈ collaborators d /\ c_user col = userId) ->
     forall key, key ∈ cache_entries D userId ->
                 key ∉ variant_invalidated D user d c) /\
  (no_colon (u_id user) -> no_colon (owner d) ->
   (forall col, col ∈ collaborators d -> no_colon (c_user col)) ->
   keeps_list_pages c (variant_invalidated D user d c)).
Proof.
  unfold variant_invalidated, invalidated_all. cbv zeta.
  set (c0 := invalidated D (u_id user) c).
  set (c1 := foldl _ c0 (collaborators d)).
  assert (c1 ⊆ c) as Hsub.
  { etrans; [apply invalidated_all_subseteq | apply invalidated_subseteq]. }
  assert (forall userId,
            userId = u_id user \/
            (exists col, col ∈ collaborators d /\ c_user col = userId) ->
            forall key, key ∈ cache_entries D userId -> key ∉ c1) as Hc1.
  { intros userId [-> | (col & Hcol & <-)] key Hkey.
    - intros H. apply invalidated_all_subseteq in H.
      exact (invalidated_entries D (u_id user) c key Hkey H).
    - apply (invalidated_all_entries D (collaborators d) c0 col key Hcol Hkey). }
  split; [| split].
  - case_bool_decide; [| exact Hsub].
    etrans; [apply invalidated_subseteq | exact Hsub].
  - intros userId Hu key Hkey.
    case_bool_decide as Ho.
    + destruct Hu as [-> | [-> | Hu]].
      * intros H. apply invalidated_subseteq in H.
        exact (Hc1 (u_id user) (or_introl eq_refl) key Hkey H).
      * apply invalidated_entries, Hkey.
      * intros H. apply invalidated_subseteq in H.
        exact (Hc1 userId (or_intror Hu) key Hkey H).
    + destruct Hu as [-> | [-> | Hu]].
      * apply (Hc1 (u_id user)); [left; reflexivity | exact Hkey].
      * apply (Hc1 (owner d)); [left | exact Hkey].
        destruct (decide (owner d = u_id user)) as [He | Hne];
          [exact He | contradiction].
      * apply (Hc1 userId); [right; exact Hu | exact Hkey].
  - intros Hu Ho Hcs.
    assert (keeps_list_pages c c1) as Hk1.
    { apply (keeps_list_pages_trans _ c0).
      - apply invalidated_keeps_list_pages, Hu.
      - apply invalidated_all_keeps_list_pages, Hcs. }
    case_bool_decide; [| exact Hk1].
    apply (keeps_list_pages_trans _ c1); [exact Hk1 |].
    apply invalidated_keeps_list_pages, Ho.
Qed.

(** ** View-only collaborators *)

Lemma view_only_write_denied d user :
  view_only d (u_id user) -> write_denied d user = true.
Proof.
  intros (Hne & (c & Hin & Hc) & Hv). unfold write_denied.
  rewrite bool_decide_eq_false_2 by congruence. cbn [negb andb].
  destruct (find_collaborator (u_id user) (collaborators d)) as [c' |] eqn:Hf;
    [| reflexivity].
  apply find_collaborator_Some in Hf as (l1 & l2 & Hl & Hu & _).
  rewrite (Hv c'); [reflexivity | | exact Hu].
  rewrite Hl. apply elem_of_app. right. left.
Qed.

Lemma versions_of_app D vs ws :
  versions_of D (vs ++ ws) = versions_of D vs ++ versions_of D ws.
Proof. unfold versions_of. apply filter_app. Qed.

Lemma versions_of_other D v :
  v_document v ≠ D -> versions_of D [v] = [].
Proof.
  intros Hne. unfold versions_of. cbn [filter list_filter].
  destruct (decide (v_document v = D)); [contradiction | reflexivity].
Qed.

Lemma versions_of_same D v :
  v_document v = D -> versions_of D [v] = [v].
Proof.
  intros He. unfold versions_of. cbn [filter list_filter].
  destruct (decide (v_document v = D)); [reflexivity | contradiction].
Qed.

Section RoomLoops.

Variable I : State -> Prop.
Variable ok : OutEvent -> Prop.
Variable D : string.
Variable E : OutEvent.
Variable body : string -> Prog unit.

Lemma for_of_rooms (rs : list string) :
  turn_spec I ok D E body ->
  forall st, I st ->
    I (run (for_of rs body) st).2 /\
    exists new, out (run (for_of rs body) st).2 = out st ++ new /\
                Forall ok new /\
                (D ∈ rs -> (run (for_of rs body) st).1 = Done tt -> E ∈ new).
Proof.
  intros Hturn. induction rs as [| r rs IH]; intros st HI.
  - rewrite run_for_of_nil. cbn [fst snd]. split; [exact HI |].
    exists []. rewrite app_nil_r. split; [reflexivity |].
    split; [constructor |]. intros H. inversion H.
  - rewrite run_for_of_cons.
    destruct (Hturn r st HI) as (HI1 & new1 & Ho1 & Hok1 & HE1).
    destruct (run (body r) st) as [[[] | e] st1] eqn:Hr; cbn [fst snd] in *.
    + destruct (IH st1 HI1) as (HI2 & new2 & Ho2 & Hok2 & HE2).
      split; [exact HI2 |].
      exists (new1 ++ new2). rewrite Ho2, Ho1, app_assoc.
      split; [reflexivity |]. split; [apply Forall_app; auto |].
      intros Hin Hdone. apply elem_of_app.
      apply elem_of_cons in Hin as [-> | Hin]; [left | right]; auto.
    + split; [exact HI1 |].
      exists new1. split; [exact Ho1 |]. split; [exact Hok1 |].
      intros _ Hdone. discriminate.
Qed.

End RoomLoops.

Section ViewOnly.

Variables (sock : string) (user : User) (D : string) (d : Document).
Variable V0 : list DocumentVersion.
Hypothesis Hview : view_only d (u_id user).

Lemma send_changes_turn delta :
  turn_spec (keeps_document D d V0) not_refusal D
    (ToSocket sock "error"
       (PMessage "You do not have permission to edit this document"))
    (send_changes_room sock user delta).
Proof.
  intros r st [Hd Hv]. rewrite run_send_changes_room.
  destruct (docs st !! r) as [d' |] eqn:Hr.
  - destruct (write_denied d' user) eqn:Hw; cbn [fst snd].
    + split; [split; assumption |].
      eexists [_]. split; [reflexivity |].
      split; [repeat constructor; intros [] |]. intros _ _. left.
    + split; [split; assumption |].
      eexists [_]. split; [reflexivity |].
      split; [repeat constructor; intros [] |].
      intros -> _. exfalso. rewrite Hd in Hr. injection Hr as <-.
      rewrite (view_only_write_denied _ _ Hview) in Hw. discriminate.
  - cbn [fst snd]. split; [split; assumption |].
    exists []. rewrite app_nil_r. split; [reflexivity |].
    split; [constructor |]. intros -> _. congruence.
Qed.

Lemma save_document_turn x :
  turn_spec (keeps_document D d V0) not_refusal D
    (ToSocket sock "error"
       (PMessage "You do not have permission to save this document"))
    (save_document_room sock user x).
Proof.
  intros r st [Hd Hv]. rewrite run_save_document_room.
  destruct (docs st !! r) as [d' |] eqn:Hr.
  - destruct (write_denied d' user) eqn:Hw; cbn [fst snd].
    + split; [split; assumption |].
      eexists [_]. split; [reflexivity |].
      split; [repeat constructor; intros [] |]. intros _ _. left.
    + assert (Hne : r ≠ D).
      { intros ->. rewrite Hd in Hr. injection Hr as <-.
        rewrite (view_only_write_denied _ _ Hview) in Hw. discriminate. }
      cbn zeta.
      destruct (version_accepted _ st); cbn [fst snd].
      * split.
        { split.
          - cbn [docs set_cache set_versions].
            rewrite lookup_update_doc_ne by exact Hne. exact Hd.
          - cbn [versions set_cache set_versions].
            rewrite versions_of_app, versions_of_other by exact Hne.
            rewrite app_nil_r. exact Hv. }
        exists []. split.
        { cbn [out set_cache set_versions].
          rewrite app_nil_r. apply update_doc_fields. }
        split; [constructor |]. intros ->. contradiction.
      * split.
        { split.
          - rewrite lookup_update_doc_ne by exact Hne. exact Hd.
          - rewrite versions_update_doc. exact Hv. }
        exists []. split; [rewrite app_nil_r; apply update_doc_fields |].
        split; [constructor |]. intros ->. contradiction.
  - cbn [fst snd]. split; [split; assumption |].
    exists []. rewrite app_nil_r. split; [reflexivity |].
    split; [constructor |]. intros -> _. congruence.
Qed.

End ViewOnly.

Lemma for_of_done (body : string -> Prog unit) :
  (forall r st, (run (body r) st).1 = Done tt) ->
  forall rs st, (run (for_of rs body) st).1 = Done tt.
Proof.
  intros Hb rs. induction rs as [| r rs IH]; intros st; [reflexivity |].
  rewrite run_for_of_cons. specialize (Hb r st).
  destruct (run (body r) st) as [[[] | e] st1]; [apply IH | discriminate].
Qed.

Lemma send_changes_room_done sock user delta r st :
  (run (send_changes_room sock user delta r) st).1 = Done tt.
Proof.
  rewrite run_send_changes_room.
  destruct (docs st !! r) as [d |]; [destruct (write_denied d user) |]; reflexivity.
Qed.

(** ** Snapshot on join *)

Lemma others_online_spec userId l :
  others_online userId l = true <-> exists u, u ∈ l /\ u ≠ userId.
Proof.
  unfold others_online. rewrite existsb_exists. split.
  - intros (u & Hin & Hu). exists u. split; [apply list_elem_of_In; exact Hin |].
    apply negb_true_iff in Hu. apply bool_decide_eq_false in Hu. exact Hu.
  - intros (u & Hin & Hu). exists u. split; [apply list_elem_of_In; exact Hin |].
    apply negb_true_iff. apply bool_decide_eq_false. exact Hu.
Qed.

Lemma no_others_online userId l :
  NoDup l -> others_online userId l = false -> l = [] \/ l = [userId].
Proof.
  intros Hnd Ho. destruct l as [| a l]; [left; reflexivity |]. right.
  assert (Hall : forall u, u ∈ a :: l -> u = userId).
  { intros u Hin. destruct (decide (u = userId)) as [| Hne]; [assumption |].
    assert (others_online userId (a :: l) = true)
      by (apply others_online_spec; eauto).
    congruence. }
  rewrite (Hall a) by left.
  destruct l as [| b l]; [reflexivity |]. exfalso.
  apply NoDup_cons in Hnd as [Hnot _]. apply Hnot.
  rewrite (Hall a), (Hall b); [left | right; left | left].
Qed.

Lemma addToSet_length_others userId l :
  NoDup l ->
  bool_decide (1 < length (addToSet userId l))%nat = others_online userId l.
Proof.
  intros Hnd. destruct (others_online userId l) eqn:Ho.
  - apply others_online_spec in Ho as (u & Hin & Hne).
    apply bool_decide_eq_true. unfold addToSet. case_bool_decide as Hu.
    + destruct l as [| a [| b l]]; simpl; try lia.
      * inversion Hin.
      * apply list_elem_of_singleton in Hin, Hu. congruence.
    + rewrite length_app. simpl. destruct l; [inversion Hin | simpl; lia].
  - apply bool_decide_eq_false.
    destruct (no_others_online _ _ Hnd Ho) as [-> | ->]; unfold addToSet.
    + simpl. lia.
    + rewrite bool_decide_eq_true_2 by left. simpl. lia.
Qed.

Lemma versions_snapshot_effect D userId st :
  versions (snapshot_effect D userId st) =
  match docs st !! D with
  | Some d =>
      if version_accepted (snapshot_record D userId d (clock st)) st
      then versions st ++ [snapshot_record D userId d (clock st)]
      else versions st
  | None => versions st
  end.
Proof.
  unfold snapshot_effect. destruct (docs st !! D) as [d |]; [| reflexivity].
  cbn zeta. destruct (version_accepted _ st); [reflexivity |].
  apply versions_update_doc.
Qed.

Lemma docs_present sock user D d st :
  docs st !! D = Some d ->
  docs (present sock user D st) !! D =
  Some (with_onlineUsers (addToSet (u_id user) (onlineUsers d)) d).
Proof.
  intros Hd. unfold present, add_presence.
  rewrite (lookup_update_doc_eq _ _ _ d); [reflexivity | exact Hd].
Qed.

Lemma clock_present sock user D st : clock (present sock user D st) = clock st.
Proof. unfold present, add_presence. rewrite clock_update_doc. reflexivity. Qed.

Lemma version_accepted_versions v st st' :
  versions st' = versions st -> version_accepted v st' = version_accepted v st.
Proof. intros H. unfold version_accepted. rewrite H. reflexivity. Qed.

(** ann, the only user online in "d1", opens it on a second connection:
    somebody is online before the join, and the join adds no version. *)
Lemma rejoin_takes_no_snapshot :
  presence "d1" ann_alone = ["u1"] /\
  versions (run (on_get_document "s9" ann "d1") ann_alone).2 = versions ann_alone /\
  ~ join_with_presence_snapshots ann_alone "s9" ann "d1".
Proof.
  split; [reflexivity |]. split; [reflexivity |].
  intros H. destruct H as (v & Hv & _); [discriminate |].
  vm_compute in Hv. discriminate.
Qed.

(** C4, as the code has it. A user with access joins an existing document
    whose online list holds each user once. If nobody is online there is no
    snapshot. If somebody other than the joining user is online, and the
    store takes the record (its content is not null and its number is free),
    exactly one version record is added, numbered currentVersion + 1 and made
    by the joining user. If only the joining user is online (a second
    connection of the same user), nothing is added. *)
Theorem join_snapshot_needs_another_user :
  forall (st : State) (sock : string) (user : User) (D : string) (d : Document),
    docs st !! D = Some d ->
    decide_access d (u_id user) ≠ acc_none ->
    NoDup (onlineUsers d) ->
    let st' := (run (on_get_document sock user D) st).2 in
    let v := mkVersion D (currentVersion d + 1) (js_or (data d) (content d))
                       (u_id user) (clock st) in
    versions st' =
      versions st ++
      (if others_online (u_id user) (onlineUsers d) && version_accepted v st
       then [v] else []) /\
    (onlineUsers d = [] -> versions st' = versions st) /\
    (onlineUsers d = [u_id user] -> versions st' = versions st).
Proof.
  intros st sock user D d Hd Hacc Hnd st' v.
  assert (Hmain : versions st' =
                  versions st ++
                  (if others_online (u_id user) (onlineUsers d) && version_accepted v st
                   then [v] else [])).
  { subst st'. rewrite (run_on_get_document_existing _ _ _ d) by exact Hd.
    rewrite bool_decide_eq_false_2 by exact Hacc.
    rewrite run_join_document. cbn [snd emits set_out versions].
    unfold join_snapshot, presence.
    rewrite (docs_present _ _ _ d) by exact Hd. cbn [onlineUsers with_onlineUsers].
    rewrite addToSet_length_others by exact Hnd.
    destruct (others_online (u_id user) (onlineUsers d)); cbn [andb].
    - rewrite versions_snapshot_effect, (docs_present _ _ _ d) by exact Hd.
      rewrite clock_present, versions_present.
      rewrite (version_accepted_versions _ st) by apply versions_present.
      assert (snapshot_record D (u_id user)
                (with_onlineUsers (addToSet (u_id user) (onlineUsers d)) d) (clock st)
              = v) as ->.
      { unfold snapshot_record, v, or0. cbn [currentVersion data content with_onlineUsers].
        destruct (Z.eqb_spec (currentVersion d) 0) as [-> |]; reflexivity. }
      destruct (version_accepted v st); [reflexivity | symmetry; apply app_nil_r].
    - rewrite versions_present. symmetry. apply app_nil_r. }
  split; [exact Hmain |]. split.
  - intros He. rewrite Hmain, He. cbn [others_online existsb andb]. apply app_nil_r.
  - intros He. rewrite Hmain, He. cbn [others_online existsb].
    rewrite bool_decide_eq_true_2 by reflexivity. cbn [negb orb andb].
    apply app_nil_r.
Qed.

(** bob joins "d1" while ann is online: version 2 is his. *)
Lemma join_snapshot_needs_another_user_witness :
  versions (run (on_get_document "s2" bob "d1") open_state).2 =
    [mkVersion "d1" 1 (JStr "") "u1" 0;
     mkVersion "d1" 2 (JObj "{}") "u2" 3].
Proof.
  pose proof (join_snapshot_needs_another_user open_state "s2" bob "d1" open_doc)
    as H.
  destruct H as [H _].
  - reflexivity.
  - discriminate.
  - apply NoDup_singleton.
  - exact H.
Defined.

(** ** Snapshot on departure *)

Lemma run_disconnect_room user D st :
  run (disconnect_room user D) st =
  (Done tt,
   emits (ToRoom D "user-left"
            (PUserLeft (u_id user)
               (presence D (without_presence D (u_id user) st))))
         (leave_snapshot D user st)).
Proof.
  unfold disconnect_room, leave_snapshot, without_presence.
  rewrite run_bind, run_getOnlineUsers.
  rewrite run_bind, run_removeUserFromDocument.
  rewrite run_bind, run_getOnlineUsers.
  rewrite run_bind.
  destruct (bool_decide (1 < length (presence D st))%nat && _).
  - rewrite run_saveDocumentVersion. reflexivity.
  - reflexivity.
Qed.

Lemma same_doc_refl D st : same_doc D st st.
Proof. repeat split. Qed.

Lemma same_doc_trans D st1 st2 st3 :
  same_doc D st1 st2 -> same_doc D st2 st3 -> same_doc D st1 st3.
Proof.
  intros (H1 & H2 & H3) (H4 & H5 & H6). repeat split; congruence.
Qed.

Lemma same_doc_update_doc D r f st : r ≠ D -> same_doc D st (update_doc r f st).
Proof.
  intros Hne. split; [apply lookup_update_doc_ne; exact Hne |].
  split; [rewrite versions_update_doc; reflexivity | apply clock_update_doc].
Qed.

Lemma same_doc_snapshot_effect D r userId st :
  r ≠ D -> same_doc D st (snapshot_effect r userId st).
Proof.
  intros Hne. unfold snapshot_effect.
  destruct (docs st !! r) as [d |]; [| apply same_doc_refl].
  cbn zeta. destruct (version_accepted _ st).
  - split; [| split].
    + cbn [docs set_cache set_versions]. apply lookup_update_doc_ne. exact Hne.
    + cbn [versions set_cache set_versions].
      rewrite versions_of_app, versions_of_other by exact Hne. apply app_nil_r.
    + cbn [clock set_cache set_versions]. apply clock_update_doc.
  - apply same_doc_update_doc. exact Hne.
Qed.

Lemma out_update_doc D f st : out (update_doc D f st) = out st.
Proof. apply update_doc_fields. Qed.

Lemma out_snapshot_effect D userId st : out (snapshot_effect D userId st) = out st.
Proof.
  unfold snapshot_effect. destruct (docs st !! D) as [d |]; [| reflexivity].
  cbn zeta. destruct (version_accepted _ st); [| apply out_update_doc].
  cbn [out set_cache set_versions]. apply out_update_doc.
Qed.

Lemma out_leave_snapshot D user st : out (leave_snapshot D user st) = out st.
Proof.
  unfold leave_snapshot, without_presence.
  destruct (_ && _); [rewrite out_snapshot_effect |]; apply out_update_doc.
Qed.

Lemma same_doc_leave_snapshot D r user st :
  r ≠ D -> same_doc D st (leave_snapshot r user st).
Proof.
  intros Hne. unfold leave_snapshot, without_presence.
  destruct (_ && _).
  - eapply same_doc_trans; [apply same_doc_update_doc; exact Hne |].
    apply same_doc_snapshot_effect. exact Hne.
  - apply same_doc_update_doc. exact Hne.
Qed.

Lemma disconnect_other_rooms user D (rs : list string) st :
  D ∉ rs ->
  let r := run (for_of rs (disconnect_room user)) st in
  r.1 = Done tt /\ same_doc D st r.2 /\ exists new, out r.2 = out st ++ new.
Proof.
  revert st. induction rs as [| a rs IH]; intros st Hnot; cbn zeta.
  - rewrite run_for_of_nil. cbn [fst snd].
    split; [reflexivity |]. split; [apply same_doc_refl |].
    exists []. symmetry. apply app_nil_r.
  - rewrite run_for_of_cons, run_disconnect_room.
    apply not_elem_of_cons in Hnot as [Hne Hnot].
    destruct (IH (emits (ToRoom a "user-left"
                           (PUserLeft (u_id user)
                              (presence a (without_presence a (u_id user) st))))
                        (leave_snapshot a user st)) Hnot)
      as (Hdone & Hsame & new & Hout).
    split; [exact Hdone |]. split.
    + eapply same_doc_trans; [| exact Hsame].
      apply (same_doc_leave_snapshot D a user st). congruence.
    + eexists. rewrite Hout. cbn [out emits set_out].
      rewrite out_leave_snapshot, <- app_assoc. reflexivity.
Qed.

Lemma or0_succ n : or0 n + 1 = n + 1.
Proof. unfold or0. destruct (Z.eqb_spec n 0) as [-> |]; reflexivity. Qed.

Lemma presence_without D userId st :
  presence D (without_presence D userId st) = pull userId (presence D st).
Proof.
  unfold presence, without_presence.
  destruct (docs st !! D) as [d |] eqn:Hd.
  - rewrite (lookup_update_doc_eq _ _ _ d) by exact Hd. reflexivity.
  - rewrite docs_update_doc, Hd, Hd. reflexivity.
Qed.

Lemma presence_snapshot_effect D userId st :
  presence D (snapshot_effect D userId st) = presence D st.
Proof.
  unfold snapshot_effect, presence.
  destruct (docs st !! D) as [d |] eqn:Hd; [| rewrite Hd; reflexivity].
  cbn zeta. destruct (version_accepted _ st); cbn [docs set_cache set_versions];
    rewrite (lookup_update_doc_eq _ _ _ d) by exact Hd; reflexivity.
Qed.

Lemma same_doc_presence D st st' :
  same_doc D st st' -> presence D st' = presence D st.
Proof. intros (H & _ & _). unfold presence. rewrite H. reflexivity. Qed.

Lemma same_doc_snapshot_of D user st st' :
  same_doc D st st' -> snapshot_of D user st' = snapshot_of D user st.
Proof. intros (H & _ & Hc). unfold snapshot_of. rewrite H, Hc. reflexivity. Qed.

Lemma same_doc_partial_departure D user st st' :
  same_doc D st st' -> partial_departure D user st' = partial_departure D user st.
Proof.
  intros H. unfold partial_departure. rewrite (same_doc_presence _ _ _ H).
  reflexivity.
Qed.

Lemma same_doc_version_accepted D v st st' :
  same_doc D st st' -> v_document v = D ->
  version_accepted v st' = version_accepted v st.
Proof.
  intros (_ & H & _) Hv. unfold version_accepted, index_taken, version_numbers.
  rewrite Hv, H. reflexivity.
Qed.

Lemma snapshot_of_document D user st v :
  v ∈ snapshot_of D user st -> v_document v = D.
Proof.
  unfold snapshot_of. destruct (docs st !! D); intros H.
  - apply list_elem_of_singleton in H as ->. reflexivity.
  - inversion H.
Qed.

Lemma same_doc_accepted D user st st' :
  same_doc D st st' ->
  Forall (fun v => version_accepted v st = true) (snapshot_of D user st) ->
  Forall (fun v => version_accepted v st' = true) (snapshot_of D user st').
Proof.
  intros Hs Hf. rewrite (same_doc_snapshot_of _ _ _ _ Hs).
  rewrite Forall_forall in *. intros v Hv.
  rewrite (same_doc_version_accepted D v st st' Hs);
    [apply Hf; exact Hv | eapply snapshot_of_document; exact Hv].
Qed.

(** The turn of the disconnect loop on [D] itself. *)
Lemma leave_snapshot_own D user st :
  Forall (fun v => version_accepted v st = true) (snapshot_of D user st) ->
  presence D (leave_snapshot D user st) = pull (u_id user) (presence D st) /\
  versions_of D (versions (leave_snapshot D user st)) =
    versions_of D (versions st) ++
    (if partial_departure D user st then snapshot_of D user st else []).
Proof.
  intros Hacc. unfold leave_snapshot, partial_departure.
  rewrite presence_without.
  destruct (bool_decide (1 < length (presence D st))%nat
            && bool_decide (0 < length (pull (u_id user) (presence D st)))%nat).
  - rewrite presence_snapshot_effect, presence_without.
    split; [reflexivity |].
    rewrite versions_snapshot_effect. unfold snapshot_of in *.
    unfold without_presence at 1.
    destruct (docs st !! D) as [d |] eqn:Hd.
    + rewrite (lookup_update_doc_eq _ _ _ d) by exact Hd.
      unfold without_presence.
      rewrite clock_update_doc, versions_update_doc.
      rewrite (version_accepted_versions _ st) by apply versions_update_doc.
      unfold snapshot_record.
      cbn [currentVersion data content with_onlineUsers]. rewrite or0_succ.
      apply Forall_inv in Hacc. rewrite Hacc.
      rewrite versions_of_app, versions_of_same by reflexivity. reflexivity.
    + rewrite docs_update_doc, Hd, Hd.
      unfold without_presence. rewrite versions_update_doc.
      symmetry. apply app_nil_r.
  - split; [apply presence_without |].
    unfold without_presence. rewrite versions_update_doc.
    symmetry. apply app_nil_r.
Qed.

Lemma disconnect_rooms_at D user (rs : list string) st :
  NoDup rs ->
  D ∈ rs ->
  Forall (fun v => version_accepted v st = true) (snapshot_of D user st) ->
  let r := run (for_of rs (disconnect_room user)) st in
  r.1 = Done tt /\
  presence D r.2 = pull (u_id user) (presence D st) /\
  versions_of D (versions r.2) =
    versions_of D (versions st) ++
    (if partial_departure D user st then snapshot_of D user st else []) /\
  exists pre post,
    out r.2 =
    out st ++ pre ++
    ToRoom D "user-left"
      (PUserLeft (u_id user) (pull (u_id user) (presence D st))) :: post.
Proof.
  revert st. induction rs as [| a rs IH]; intros st Hnd Hin Hacc; cbn zeta.
  { inversion Hin. }
  apply NoDup_cons in Hnd as [Hnot Hnd].
  rewrite run_for_of_cons, run_disconnect_room.
  set (st1 := emits _ (leave_snapshot a user st)).
  destruct (decide (a = D)) as [-> | Hne].
  - destruct (disconnect_other_rooms user D rs st1 Hnot)
      as (Hdone & Hsame & new & Hout).
    destruct (leave_snapshot_own D user st Hacc) as [Hp Hv].
    split; [exact Hdone |]. split; [| split].
    + rewrite (same_doc_presence _ _ _ Hsame). exact Hp.
    + destruct Hsame as (_ & Hsv & _). rewrite Hsv. exact Hv.
    + exists [], new. rewrite Hout. unfold st1. cbn [out emits set_out].
      rewrite out_leave_snapshot, presence_without, <- app_assoc. reflexivity.
  - assert (Hin' : D ∈ rs).
    { apply elem_of_cons in Hin as [-> | Hin]; [contradiction | exact Hin]. }
    assert (Hs1 : same_doc D st st1)
      by (apply (same_doc_leave_snapshot D a user st); exact Hne).
    destruct (IH st1 Hnd Hin' (same_doc_accepted _ _ _ _ Hs1 Hacc))
      as (Hdone & Hp & Hv & pre & post & Hout).
    rewrite (same_doc_presence _ _ _ Hs1) in Hp, Hout.
    rewrite (same_doc_partial_departure _ _ _ _ Hs1) in Hv.
    rewrite (same_doc_snapshot_of _ _ _ _ Hs1) in Hv.
    destruct Hs1 as (_ & Hsv & _). rewrite Hsv in Hv.
    split; [exact Hdone |]. split; [exact Hp |]. split; [exact Hv |].
    eexists (_ :: pre), post. rewrite Hout. unfold st1. cbn [out emits set_out].
    rewrite out_leave_snapshot, <- !app_assoc. reflexivity.
Qed.

Lemma presence_nonempty_document D st :
  (0 < length (presence D st))%nat -> exists d, docs st !! D = Some d.
Proof.
  unfold presence. destruct (docs st !! D) as [d |]; [eauto | simpl; lia].
Qed.

Lemma run_on_disconnect sock user st :
  run (on_disconnect sock user) st =
  (Done tt, set_rooms st (delete sock (rooms st))).
Proof.
  unfold on_disconnect. rewrite run_bind, run_call. cbn [exec fst snd].
  rewrite run_try_catch, run_bind, run_document_rooms.
  cbn [rooms set_rooms]. rewrite lookup_delete_eq. reflexivity.
Qed.

(** C5. What the design asks of a disconnect is what the loop of the
    listener does on the rooms it is given ([disconnect_rooms_at]: presence
    recomputed, a snapshot on partial departure, user-left to the room).
    But socket.io has emptied [socket.rooms] before the listener runs, so
    the loop has no room to visit: whatever the stores and the socket, a
    disconnect ends normally and changes nothing but the rooms of the
    socket. No online list loses the user, no version record is made, no
    user-left is sent. At [shared_state] bob leaves the document he shares
    with ann, two users online before and one after: run on the room bob
    held, the loop leaves the online list ["u1"], a record numbered 2 made
    by "u2" and one user-left event; the disconnect leaves the list at
    ["u1"; "u2"], makes no record and sends nothing. *)
Theorem disconnect_finds_no_room :
  (forall (st : State) (sock : string),
     let r := run (dispatch sock Disconnect) st in
     r.1 = Done tt /\
     docs r.2 = docs st /\ versions r.2 = versions st /\
     cache r.2 = cache st /\ out r.2 = out st) /\
  (let asked := (run (for_of ["d1"] (disconnect_room bob)) shared_state).2 in
   rooms_of "s2" shared_state = ["d1"] /\
   partial_departure "d1" bob shared_state = true /\
   presence "d1" asked = ["u1"] /\
   versions asked =
     versions shared_state ++ [mkVersion "d1" 2 defaultValue "u2" 5] /\
   out asked = [ToRoom "d1" "user-left" (PUserLeft "u2" ["u1"])]) /\
  (let st' := (run (dispatch "s2" Disconnect) shared_state).2 in
   presence "d1" st' = ["u1"; "u2"] /\
   versions st' = versions shared_state /\
   out st' = [] /\
   rooms st' !! "s2" = None).
Proof.
  split; [| split].
  - intros st sock r. subst r. rewrite run_dispatch.
    destruct (session st !! sock) as [user |].
    + cbn [handler]. rewrite run_on_disconnect. repeat split.
    + repeat split.
  - vm_compute. repeat split.
  - vm_compute. repeat split.
Qed.

(** ** Version numbering *)

Lemma store_consistent_ext st st' :
  docs st' = docs st -> versions st' = versions st ->
  store_consistent st -> store_consistent st'.
Proof. intros Hd Hv H D. rewrite Hd, Hv. apply H. Qed.

Lemma version_numbers_app D vs ws :
  version_numbers D (vs ++ ws) = version_numbers D vs ++ version_numbers D ws.
Proof. unfold version_numbers. rewrite versions_of_app. apply fmap_app. Qed.

Lemma version_numbers_other D v :
  v_document v ≠ D -> version_numbers D [v] = [].
Proof. intros H. unfold version_numbers. rewrite versions_of_other by exact H. reflexivity. Qed.

Lemma version_numbers_same D v :
  v_document v = D -> version_numbers D [v] = [versionNumber v].
Proof. intros H. unfold version_numbers. rewrite versions_of_same by exact H. reflexivity. Qed.

Lemma consistent_count st D d :
  store_consistent st -> docs st !! D = Some d ->
  Z.of_nat (length (versions_of D (versions st))) = currentVersion d.
Proof.
  intros Hc Hd. specialize (Hc D). rewrite Hd in Hc.
  destruct Hc as (_ & Hpos & Hnd & Hrange).
  assert (Hperm : version_numbers D (versions st) ≡ₚ seqZ 1 (currentVersion d)).
  { apply NoDup_Permutation; [exact Hnd | apply NoDup_seqZ |].
    intros n. rewrite Hrange, elem_of_seqZ. lia. }
  apply Permutation_length in Hperm.
  unfold version_numbers in Hperm. rewrite length_fmap, length_seqZ in Hperm.
  lia.
Qed.

Lemma consistent_numbered st D :
  store_consistent st -> numbered_from_one st D.
Proof.
  intros Hc d Hd. split; [apply consistent_count; assumption |].
  specialize (Hc D). rewrite Hd in Hc. destruct Hc as (_ & _ & Hnd & Hr).
  split; assumption.
Qed.

(** A change of fields that leaves content and currentVersion alone. *)
Lemma consistent_update_doc D f st :
  (forall d, content (f d) = content d /\ currentVersion (f d) = currentVersion d) ->
  store_consistent st -> store_consistent (update_doc D f st).
Proof.
  intros Hf Hc D'. rewrite versions_update_doc.
  destruct (decide (D = D')) as [<- | Hne].
  - specialize (Hc D). rewrite docs_update_doc.
    destruct (docs st !! D) as [d |] eqn:Hd.
    + rewrite lookup_insert_eq. cbn [doc_consistent] in *.
      destruct (Hf d) as [-> ->]. exact Hc.
    + rewrite Hd. exact Hc.
  - rewrite lookup_update_doc_ne by exact Hne. apply Hc.
Qed.

(** Recording version currentVersion + 1 of [D] together with the matching
    update of the document. *)
Lemma consistent_add_version D d f v st st' :
  store_consistent st ->
  docs st !! D = Some d ->
  content (f d) ≠ JNull ->
  currentVersion (f d) = currentVersion d + 1 ->
  v_document v = D ->
  versionNumber v = currentVersion d + 1 ->
  docs st' = <[D := f d]> (docs st) ->
  versions st' = versions st ++ [v] ->
  store_consistent st'.
Proof.
  intros Hc Hd Hcontent Hcv Hvd Hvn Hdocs Hvers D'.
  rewrite Hdocs, Hvers.
  destruct (decide (D = D')) as [<- | Hne].
  - rewrite lookup_insert_eq. cbn [doc_consistent].
    rewrite version_numbers_app, version_numbers_same by exact Hvd.
    specialize (Hc D). rewrite Hd in Hc. cbn [doc_consistent] in Hc.
    destruct Hc as (_ & Hpos & Hnd & Hr).
    split; [exact Hcontent |]. split; [lia |]. split.
    + apply NoDup_app. split; [exact Hnd |]. split; [| apply NoDup_singleton].
      intros n Hn Hn'. apply list_elem_of_singleton in Hn'. apply Hr in Hn. lia.
    + intros n. rewrite elem_of_app, list_elem_of_singleton, Hr. lia.
  - rewrite lookup_insert_ne by exact Hne.
    specialize (Hc D'). unfold doc_consistent in *.
    rewrite version_numbers_app, version_numbers_other by congruence.
    rewrite app_nil_r. exact Hc.
Qed.

Lemma js_or_not_null a b : b ≠ JNull -> js_or a b ≠ JNull.
Proof. unfold js_or. destruct a as [| [] | | |]; simpl; congruence || (destruct (negb _); congruence). Qed.

Lemma consistent_accepts st D d c u now :
  store_consistent st -> docs st !! D = Some d -> c ≠ JNull ->
  version_accepted (mkVersion D (or0 (currentVersion d) + 1) c u now) st = true.
Proof.
  intros Hc Hd Hn. apply version_accepted_fresh; [exact Hn |].
  specialize (Hc D). rewrite Hd in Hc. destruct Hc as (_ & _ & _ & Hr).
  rewrite Hr, or0_succ. lia.
Qed.

Lemma consistent_snapshot_effect D userId st :
  store_consistent st -> store_consistent (snapshot_effect D userId st).
Proof.
  intros Hc. unfold snapshot_effect.
  destruct (docs st !! D) as [d |] eqn:Hd; [| exact Hc]. cbn zeta.
  assert (Hnn : js_or (data d) (content d) ≠ JNull).
  { apply js_or_not_null. specialize (Hc D). rewrite Hd in Hc. apply Hc. }
  unfold snapshot_record. rewrite (consistent_accepts st D d) by assumption.
  eapply (consistent_add_version D d
            (with_version (or0 (currentVersion d) + 1) (clock st))
            (mkVersion D (or0 (currentVersion d) + 1)
                       (js_or (data d) (content d)) userId (clock st)));
    try exact Hc; try exact Hd.
  - cbn [content with_version]. specialize (Hc D). rewrite Hd in Hc. apply Hc.
  - cbn [currentVersion with_version]. apply or0_succ.
  - reflexivity.
  - cbn [versionNumber]. apply or0_succ.
  - cbn [docs set_cache set_versions]. rewrite docs_update_doc, Hd. reflexivity.
  - reflexivity.
Qed.

Lemma consistent_save_document_room sock user x D st :
  x ≠ JNull ->
  store_consistent st ->
  store_consistent (run (save_document_room sock user x D) st).2.
Proof.
  intros Hx Hc. rewrite run_save_document_room.
  destruct (docs st !! D) as [d |] eqn:Hd; [| exact Hc].
  destruct (write_denied d user); [exact Hc |]. cbn zeta.
  assert (Hnn : js_or x (content d) ≠ JNull).
  { apply js_or_not_null. specialize (Hc D). rewrite Hd in Hc. apply Hc. }
  unfold save_record. rewrite (consistent_accepts st D d) by assumption.
  cbn [snd].
  eapply (consistent_add_version D d
            (with_saved x (or0 (currentVersion d) + 1) (clock st))
            (mkVersion D (or0 (currentVersion d) + 1)
                       (js_or x (content d)) (u_id user) (clock st)));
    try exact Hc; try exact Hd.
  - exact Hx.
  - cbn [currentVersion with_saved]. apply or0_succ.
  - reflexivity.
  - cbn [versionNumber]. apply or0_succ.
  - cbn [docs set_cache set_versions]. rewrite docs_update_doc, Hd. reflexivity.
  - reflexivity.
Qed.

Lemma consistent_send_changes_room sock user delta D st :
  store_consistent st ->
  store_consistent (run (send_changes_room sock user delta D) st).2.
Proof.
  intros Hc. rewrite run_send_changes_room.
  destruct (docs st !! D) as [d |]; [destruct (write_denied d user) |]; exact Hc.
Qed.

Lemma consistent_leave_snapshot D user st :
  store_consistent st -> store_consistent (leave_snapshot D user st).
Proof.
  intros Hc. unfold leave_snapshot, without_presence.
  destruct (_ && _); [apply consistent_snapshot_effect |];
    apply consistent_update_doc; auto.
Qed.

Lemma consistent_join_snapshot sock user D st :
  store_consistent st -> store_consistent (join_snapshot sock user D st).
Proof.
  intros Hc. unfold join_snapshot, present, add_presence.
  assert (store_consistent
            (update_doc D
               (fun d => with_onlineUsers (addToSet (u_id user) (onlineUsers d)) d)
               (joined_room sock D st))).
  { apply consistent_update_doc; [auto |]. exact Hc. }
  case_bool_decide; [apply consistent_snapshot_effect |]; assumption.
Qed.

Lemma consistent_created_state D user st :
  store_consistent st -> docs st !! D = None ->
  store_consistent (created_state D user st).
Proof.
  intros Hc Hd D'. unfold created_state. cbn [docs versions set_cache set_versions set_docs].
  pose proof (Hc D) as HD. rewrite Hd in HD. cbn [doc_consistent] in HD.
  destruct (decide (D = D')) as [<- | Hne].
  - rewrite lookup_insert_eq. cbn [doc_consistent].
    rewrite version_numbers_app, HD, version_numbers_same by reflexivity.
    cbn [app content currentVersion created_document versionNumber first_version].
    split; [discriminate |]. split; [lia |]. split; [apply NoDup_singleton |].
    intros n. rewrite list_elem_of_singleton. lia.
  - rewrite lookup_insert_ne by exact Hne.
    specialize (Hc D'). unfold doc_consistent in *.
    rewrite version_numbers_app, version_numbers_other by (cbn; congruence).
    rewrite app_nil_r. exact Hc.
Qed.

Lemma for_of_preserves (P : State -> Prop) (body : string -> Prog unit) :
  (forall r st, P st -> P (run (body r) st).2) ->
  forall rs st, P st -> P (run (for_of rs body) st).2.
Proof.
  intros Hb rs. induction rs as [| r rs IH]; intros st HP; [exact HP |].
  rewrite run_for_of_cons. specialize (Hb r st HP).
  destruct (run (body r) st) as [[[] | e] st1]; cbn [snd] in *;
    [apply IH |]; exact Hb.
Qed.

Lemma consistent_handler sock user ev st :
  storable ev ->
  store_consistent st ->
  store_consistent (run (handler sock user ev) st).2.
Proof.
  intros Hev Hc. destruct ev as [D | delta | D position | | x |]; cbn [handler].
  - destruct (docs st !! D) as [d |] eqn:Hd.
    + rewrite (run_on_get_document_existing _ _ _ d) by exact Hd.
      case_bool_decide; [exact Hc |].
      rewrite run_join_document. cbn [snd].
      apply (consistent_join_snapshot sock user D st Hc).
    + rewrite run_on_get_document_new; [| exact Hd |].
      * rewrite run_join_document. cbn [snd].
        apply (consistent_join_snapshot sock user D (created_state D user st)).
        apply consistent_created_state; assumption.
      * specialize (Hc D). rewrite Hd in Hc. cbn in Hc. rewrite Hc.
        apply not_elem_of_nil.
  - unfold on_send_changes.
    rewrite run_try_catch, run_bind, run_document_rooms.
    pose proof (for_of_preserves store_consistent
                  (send_changes_room sock user delta)
                  (consistent_send_changes_room sock user delta)
                  (filter (fun room => room ≠ sock) (default [] (rooms st !! sock)))
                  st Hc) as H.
    destruct (run (for_of _ _) st) as [[[] | e] st1]; exact H.
  - exact Hc.
  - exact Hc.
  - unfold on_save_document.
    rewrite run_try_catch, run_bind, run_document_rooms.
    pose proof (for_of_preserves store_consistent
                  (save_document_room sock user x)
                  (fun r st => consistent_save_document_room sock user x r st Hev)
                  (filter (fun room => room ≠ sock) (default [] (rooms st !! sock)))
                  st Hc) as H.
    destruct (run (for_of _ _) st) as [[[] | e] st1]; exact H.
  - rewrite run_on_disconnect. exact Hc.
Qed.

Lemma consistent_empty : store_consistent empty_state.
Proof. intros D. cbn. rewrite lookup_empty. reflexivity. Qed.

Lemma saveDocumentVersion_increments D userId d st :
  docs st !! D = Some d ->
  exists d', docs (run (saveDocumentVersion D userId) st).2 !! D = Some d' /\
             currentVersion d' = currentVersion d + 1.
Proof.
  intros Hd. rewrite run_saveDocumentVersion. cbn [snd].
  exists (with_version (or0 (currentVersion d) + 1) (clock st) d).
  split; [| apply or0_succ].
  unfold snapshot_effect. rewrite Hd. cbn zeta.
  destruct (version_accepted _ st); cbn [docs set_cache set_versions];
    apply lookup_update_doc_eq; exact Hd.
Qed.

Lemma run_createDocumentVersion D c userId st :
  run (createDocumentVersion D c userId) st =
  match docs st !! D with
  | None => (Threw (OtherError "Document not found"), st)
  | Some d =>
      let f := fun d' => mkDocument (d_id d') (title d') (JStr c) (data d')
                           (owner d') (collaborators d') (onlineUsers d')
                           (currentVersion d + 1) (clock st) in
      let v := mkVersion D (currentVersion d + 1) (JStr c) userId (clock st) in
      if version_accepted v st
      then (Done v, set_versions (update_doc D f st) (versions st ++ [v]))
      else (Threw DuplicateKey, update_doc D f st)
  end.
Proof.
  unfold createDocumentVersion.
  rewrite run_try_catch, run_bind, run_call. cbn [exec fst snd].
  destruct (docs st !! D) as [d |] eqn:Hd; [| reflexivity].
  rewrite run_bind, run_call. cbn [exec fst snd].
  rewrite run_bind, run_call, exec_DocUpdate. cbn [fst snd].
  rewrite run_DocumentVersion_create. cbn zeta.
  rewrite version_accepted_update_doc, clock_update_doc, versions_update_doc.
  destruct (version_accepted _ st); reflexivity.
Qed.

Lemma createDocumentVersion_increments D c userId d st :
  docs st !! D = Some d ->
  (currentVersion <$> docs (run (createDocumentVersion D c userId) st).2 !! D) =
  Some (currentVersion d + 1).
Proof.
  intros Hd. rewrite run_createDocumentVersion, Hd. cbn zeta.
  destruct (version_accepted _ st); cbn [snd docs set_versions];
    rewrite (lookup_update_doc_eq _ _ _ d) by exact Hd; reflexivity.
Qed.

Lemma consistent_createDocumentVersion D c userId st :
  store_consistent st ->
  store_consistent (run (createDocumentVersion D c userId) st).2.
Proof.
  intros Hc. rewrite run_createDocumentVersion.
  destruct (docs st !! D) as [d |] eqn:Hd; [| exact Hc]. cbn zeta.
  pose proof (consistent_accepts st D d (JStr c) userId (clock st) Hc Hd) as Ha.
  rewrite or0_succ in Ha. rewrite Ha by discriminate. cbn [snd].
  eapply (consistent_add_version D d
            (fun d' => mkDocument (d_id d') (title d') (JStr c) (data d')
                         (owner d') (collaborators d') (onlineUsers d')
                         (currentVersion d + 1) (clock st))
            (mkVersion D (currentVersion d + 1) (JStr c) userId (clock st)));
    try exact Hc; try exact Hd; try reflexivity.
  - discriminate.
  - cbn [docs set_versions]. rewrite docs_update_doc, Hd. reflexivity.
Qed.

Lemma save_document_room_increments sock user x D d st :
  docs st !! D = Some d ->
  write_denied d user = false ->
  (currentVersion <$> docs (run (save_document_room sock user x D) st).2 !! D) =
  Some (currentVersion d + 1).
Proof.
  intros Hd Hw. rewrite run_save_document_room, Hd, Hw. cbn zeta.
  destruct (version_accepted _ st); cbn [snd docs set_cache set_versions];
    rewrite (lookup_update_doc_eq _ _ _ d) by exact Hd;
    cbn [fmap option_fmap option_map currentVersion with_saved];
    rewrite or0_succ; reflexivity.
Qed.

(** Two stores in which no handler is under way and the numbering fails.
    The document of [findOrCreateDocument] says currentVersion 1 and has no
    version record. After the three saves, "d1" says currentVersion 2 and has
    the records 1, 2 and 3. *)
Lemma currentVersion_can_differ_from_record_count :
  ((currentVersion <$> docs orphan_state !! fresh_id empty_state) = Some 1 /\
   versions orphan_state = [] /\
   ~ numbered_from_one orphan_state (fresh_id empty_state)) /\
  (forallb finished overtake_end.2 = true /\
   (currentVersion <$> docs overtake_end.1 !! "d1") = Some 2 /\
   version_numbers "d1" (versions overtake_end.1) = [1; 2; 3] /\
   ~ numbered_from_one overtake_end.1 "d1").
Proof.
  split.
  - split; [reflexivity |]. split; [reflexivity |].
    intros H.
    destruct (docs orphan_state !! fresh_id empty_state) as [d |] eqn:Hd;
      [| vm_compute in Hd; discriminate].
    destruct (H d Hd) as [Hcount _].
    vm_compute in Hd. injection Hd as <-. vm_compute in Hcount. discriminate.
  - split; [reflexivity |]. split; [reflexivity |]. split; [reflexivity |].
    intros H.
    destruct (docs overtake_end.1 !! "d1") as [d |] eqn:Hd;
      [| vm_compute in Hd; discriminate].
    destruct (H d Hd) as [Hcount _].
    vm_compute in Hd. injection Hd as <-. vm_compute in Hcount. discriminate.
Qed.

(** Why a save of null is left out of [storable]: ann opens "d1" and saves
    null twice, one event at a time. The first save stores null as content
    and records the former content; the second has only null to record, the
    required validator turns the record down after currentVersion was raised,
    and "d1" is left at currentVersion 3 with the records 1 and 2. *)
Example null_saves_leave_a_gap :
  let st1 := (run (dispatch "s1" (GetDocument "d1")) lone_state).2 in
  let st2 := (run (dispatch "s1" (SaveDocument JNull)) st1).2 in
  let st3 := (run (dispatch "s1" (SaveDocument JNull)) st2).2 in
  (currentVersion <$> docs st3 !! "d1") = Some 3 /\
  version_numbers "d1" (versions st3) = [1; 2] /\
  out st3 = out st2 ++ [ToSocket "s1" "error" (PMessage "Failed to save document")].
Proof. vm_compute. auto. Qed.

(** C1, as the code has it. With events handled one at a time and no save
    of a null payload, the socket handlers (and [createDocumentVersion]) keep
    the store consistent from the empty store on: every document has as many
    version records as its currentVersion, numbered 1 to currentVersion
    without gap or repetition. Every snapshot ([saveDocumentVersion],
    [createDocumentVersion], the write of save-document) raises
    currentVersion by exactly 1, and in a consistent store
    [saveDocumentVersion] adds exactly the record of that number. (Documents
    made by [DocumentService.findOrCreateDocument] start at currentVersion 1
    with no record and are outside this.) *)
Theorem version_numbering_one_event_at_a_time :
  store_consistent empty_state /\
  (forall st sock ev,
     store_consistent st -> storable ev ->
     store_consistent (run (dispatch sock ev) st).2) /\
  (forall st D c userId,
     store_consistent st ->
     store_consistent (run (createDocumentVersion D c userId) st).2) /\
  (forall st D, store_consistent st -> numbered_from_one st D) /\
  (forall st D userId c sock user x d,
     docs st !! D = Some d ->
     (currentVersion <$> docs (run (saveDocumentVersion D userId) st).2 !! D)
       = Some (currentVersion d + 1) /\
     (currentVersion <$> docs (run (createDocumentVersion D c userId) st).2 !! D)
       = Some (currentVersion d + 1) /\
     (write_denied d user = false ->
      (currentVersion <$> docs (run (save_document_room sock user x D) st).2 !! D)
        = Some (currentVersion d + 1))) /\
  (forall st D userId d,
     store_consistent st -> docs st !! D = Some d ->
     versions (run (saveDocumentVersion D userId) st).2 =
     versions st ++ [mkVersion D (currentVersion d + 1)
                               (js_or (data d) (content d)) userId (clock st)]).
Proof.
  split; [exact consistent_empty |].
  split; [| split; [| split; [| split]]].
  - intros st sock ev Hc Hev. rewrite run_dispatch.
    destruct (session st !! sock) as [user |]; [| exact Hc].
    apply consistent_handler; assumption.
  - intros st D c userId Hc. apply consistent_createDocumentVersion. exact Hc.
  - intros st D Hc. apply consistent_numbered. exact Hc.
  - intros st D userId c sock user x d Hd. split; [| split].
    + destruct (saveDocumentVersion_increments D userId d st Hd) as (d' & -> & <-).
      reflexivity.
    + apply createDocumentVersion_increments. exact Hd.
    + apply save_document_room_increments. exact Hd.
  - intros st D userId d Hc Hd. rewrite run_saveDocumentVersion. cbn [snd].
    rewrite versions_snapshot_effect, Hd. unfold snapshot_record.
    rewrite (consistent_accepts st D d); [rewrite or0_succ; reflexivity | exact Hc | exact Hd |].
    apply js_or_not_null. specialize (Hc D). rewrite Hd in Hc. apply Hc.
Qed.

(** ann, connected, opens a document that does not exist yet. *)
Lemma version_numbering_one_event_at_a_time_witness :
  numbered_from_one (run (dispatch "s1" (GetDocument "d1")) lone_state).2 "d1".
Proof.
  destruct version_numbering_one_event_at_a_time as (H0 & Hstep & _ & Hnum & _).
  apply Hnum. apply Hstep.
  - apply (store_consistent_ext empty_state lone_state); [reflexivity .. | exact H0].
  - exact I.
Defined.

(** ** Writes by a reader *)

Lemma save_document_room_done sock user x r st :
  x ≠ JNull -> store_consistent st ->
  (run (save_document_room sock user x r) st).1 = Done tt.
Proof.
  intros Hx Hc. rewrite run_save_document_room.
  destruct (docs st !! r) as [d |] eqn:Hd; [| reflexivity].
  destruct (write_denied d user); [reflexivity |]. cbn zeta.
  assert (Hnn : js_or x (content d) ≠ JNull).
  { apply js_or_not_null. specialize (Hc r). rewrite Hd in Hc. apply Hc. }
  unfold save_record. rewrite (consistent_accepts st r d) by assumption.
  reflexivity.
Qed.

Lemma save_loop_done sock user x (rs : list string) st :
  x ≠ JNull -> store_consistent st ->
  (run (for_of rs (save_document_room sock user x)) st).1 = Done tt.
Proof.
  intros Hx. revert st. induction rs as [| r rs IH]; intros st Hc; [reflexivity |].
  rewrite run_for_of_cons.
  pose proof (save_document_room_done sock user x r st Hx Hc) as Hdone.
  pose proof (consistent_save_document_room sock user x r st Hx Hc) as Hc1.
  destruct (run (save_document_room sock user x r) st) as [[[] | e] st1];
    [apply IH; exact Hc1 | discriminate Hdone].
Qed.


Lemma bob_views_review_doc : view_only review_doc "u2".
Proof.
  split; [discriminate |]. split.
  - exists (mkCollaborator "u2" view). split; [left | reflexivity].
  - intros c Hc _. apply list_elem_of_singleton in Hc as ->. reflexivity.
Defined.



(** ** Saves in flight together *)

Lemma version_key_taken v vs :
  (v_document v, versionNumber v) ∈ version_keys vs <->
  versionNumber v ∈ version_numbers (v_document v) vs.
Proof.
  unfold version_keys, version_numbers, versions_of.
  rewrite !list_elem_of_fmap. split.
  - intros (w & Hk & Hw). injection Hk as Hd Hn. exists w.
    split; [exact Hn |]. apply list_elem_of_filter. split; [congruence | exact Hw].
  - intros (w & Hn & Hw). apply list_elem_of_filter in Hw as [Hd Hw].
    exists w. split; [congruence | exact Hw].
Qed.

Lemma exec_keeps_index {X : Type} (op : Op X) (st : State) :
  NoDup (version_keys (versions st)) ->
  NoDup (version_keys (versions (exec op st).2)).
Proof.
  intros Hnd. destruct op; cbn [exec]; try exact Hnd.
  - destruct (docs st !! d_id d); exact Hnd.
  - destruct (docs st !! id); exact Hnd.
  - destruct (content_valid v); cbn [negb]; [| exact Hnd].
    destruct (index_taken v (versions st)) eqn:Ht; [exact Hnd |].
    cbn [snd versions set_versions]. unfold version_keys. rewrite fmap_app.
    apply NoDup_app. split; [exact Hnd |]. split; [| apply NoDup_singleton].
    intros k Hk Hk'. apply list_elem_of_singleton in Hk'. subst k.
    apply version_key_taken in Hk.
    unfold index_taken in Ht. apply bool_decide_eq_false in Ht. contradiction.
Qed.

Lemma step_thread_keeps_index i c :
  NoDup (version_keys (versions c.1)) ->
  NoDup (version_keys (versions (step_thread i c).1)).
Proof.
  intros Hnd. unfold step_thread.
  destruct (c.2 !! i) as [p |]; [| exact Hnd].
  destruct p as [a | e | X op k]; cbn [advance fst]; try exact Hnd.
  pose proof (exec_keeps_index op c.1 Hnd) as H.
  destruct (exec op c.1) as [x st']. exact H.
Qed.

(** Both handlers have ended. Version 2 is ann's; bob's insert of a second
    version 2 was rejected by the unique index and he is told "Failed to save
    document", after his payload went into the document: no record holds
    it. *)
Lemma racing_saves_lose_a_version :
  forallb finished race_end.2 = true /\
  versions race_end.1 =
    [mkVersion "d1" 1 (JStr "") "u1" 0; mkVersion "d1" 2 (JStr "A") "u1" 5] /\
  (content <$> docs race_end.1 !! "d1") = Some (JStr "B") /\
  (currentVersion <$> docs race_end.1 !! "d1") = Some 2 /\
  out race_end.1 = [ToSocket "s2" "error" (PMessage "Failed to save document")] /\
  ~ both_saves_recorded shared_state race_end.1 "d1" "u1" "u2".
Proof.
  split; [reflexivity |]. split; [reflexivity |]. split; [reflexivity |].
  split; [reflexivity |]. split; [reflexivity |].
  intros (vA & vB & _ & HB & _ & _ & _ & Hb & _).
  vm_compute in HB.
  apply elem_of_cons in HB as [-> | HB]; [discriminate |].
  apply list_elem_of_singleton in HB as ->. discriminate.
Qed.

Lemma interleaves_schedule c c' :
  interleaves c c' <-> exists sched, c' = run_schedule sched c.
Proof.
  split.
  - induction 1 as [c | c i c' _ [sched ->]].
    + exists []. reflexivity.
    + exists (i :: sched). reflexivity.
  - intros [sched ->]. revert c.
    induction sched as [| i sched IH]; intros c.
    + apply interleaves_refl.
    + apply (interleaves_step c i). apply IH.
Qed.

Lemma run_on_save_document_rejected sock user x D d st :
  rooms st !! sock = Some [sock; D] ->
  D ≠ sock ->
  docs st !! D = Some d ->
  write_denied d user = false ->
  version_accepted (save_record D user x d (clock st)) st = false ->
  run (on_save_document sock user x) st =
  (Done tt,
   emits (ToSocket sock "error" (PMessage "Failed to save document"))
     (update_doc D (with_saved x (or0 (currentVersion d) + 1) (clock st)) st)).
Proof.
  intros Hr Hne Hd Hw Ha. unfold on_save_document.
  rewrite run_try_catch, run_bind, run_document_rooms, Hr.
  change (default [] (Some [sock; D])) with [sock; D].
  rewrite filter_cons_False by (intros H; apply H; reflexivity).
  rewrite filter_cons_True by exact Hne.
  rewrite filter_nil.
  rewrite run_for_of_cons, run_save_document_room, Hd, Hw. cbn zeta.
  rewrite Ha. reflexivity.
Qed.

(** C2, as the code has it. However the operations of any handlers in
    flight are interleaved, no two version records ever share document and
    versionNumber; what keeps them apart is the unique index, which rejects
    the later insert with a duplicate-key error (there is no version-conflict
    error and no retry). A save whose insert is rejected has already written
    its payload and the new currentVersion into the document, and its sender
    is told "Failed to save document". *)
Theorem interleaved_versions_never_collide :
  forall (sched : list nat) (c : State * Pool),
    NoDup (version_keys (versions c.1)) ->
    NoDup (version_keys (versions (run_schedule sched c).1)) /\
    (forall v st,
       content_valid v = true -> index_taken v (versions st) = true ->
       exec (VerInsert v) st = (inl DuplicateKey, st)) /\
    (forall sock user x D d st,
       rooms st !! sock = Some [sock; D] ->
       D ≠ sock ->
       docs st !! D = Some d ->
       write_denied d user = false ->
       version_accepted (save_record D user x d (clock st)) st = false ->
       run (on_save_document sock user x) st =
       (Done tt,
        emits (ToSocket sock "error" (PMessage "Failed to save document"))
          (update_doc D (with_saved x (or0 (currentVersion d) + 1) (clock st)) st))).
Proof.
  intros sched c Hnd. split; [| split].
  - revert c Hnd. induction sched as [| i sched IH]; intros c Hnd; [exact Hnd |].
    cbn [run_schedule foldl]. apply IH. apply step_thread_keeps_index. exact Hnd.
  - intros v st Hv Ht. cbn [exec]. rewrite Hv, Ht. reflexivity.
  - intros sock user x D d st. apply run_on_save_document_rejected.
Qed.

(** The two racing saves end with distinct keys. *)
Lemma interleaved_versions_never_collide_witness :
  NoDup (version_keys (versions race_end.1)).
Proof.
  apply (interleaved_versions_never_collide race_schedule (shared_state, race_pool)).
  apply (bool_decide_unpack _). vm_compute. exact I.
Defined.

(** * Further properties of the helpers and of the socket handlers *)

(** ** Presence (src/utils/helper.ts) *)

Lemma elem_of_addToSet u v l : v ∈ addToSet u l <-> v = u \/ v ∈ l.
Proof.
  unfold addToSet. destruct (bool_decide_reflect (u ∈ l)) as [Hin | Hin].
  - split; [auto | intros [-> |]; assumption].
  - rewrite elem_of_app, list_elem_of_singleton. tauto.
Qed.

Lemma addToSet_idem u l : addToSet u (addToSet u l) = addToSet u l.
Proof.
  unfold addToSet at 1. rewrite bool_decide_true; [reflexivity |].
  apply elem_of_addToSet. left. reflexivity.
Qed.

Lemma NoDup_addToSet u l : NoDup l -> NoDup (addToSet u l).
Proof.
  intros Hl. unfold addToSet. destruct (bool_decide_reflect (u ∈ l)) as [Hin | Hin].
  - exact Hl.
  - apply NoDup_app. split; [exact Hl | split].
    + intros x Hx Hx'. apply list_elem_of_singleton in Hx'. subst x. contradiction.
    + apply NoDup_singleton.
Qed.

Lemma pull_all_others u (l : list string) : u ∉ l -> pull u l = l.
Proof.
  unfold pull. induction l as [| a l IH]; intros Hu; [reflexivity |].
  apply not_elem_of_cons in Hu as [Hne Hu].
  rewrite filter_cons_True by congruence. rewrite IH by exact Hu. reflexivity.
Qed.

Lemma pull_addToSet u (l : list string) : u ∉ l -> pull u (addToSet u l) = l.
Proof.
  intros Hu. unfold addToSet. rewrite bool_decide_false by exact Hu.
  unfold pull. rewrite filter_app.
  rewrite filter_cons_False by (intros H; apply H; reflexivity).
  rewrite filter_nil, app_nil_r. apply pull_all_others. exact Hu.
Qed.

Lemma elem_of_pull u v (l : list string) : v ∈ pull u l <-> v ≠ u /\ v ∈ l.
Proof. unfold pull. exact (list_elem_of_filter (fun x => x ≠ u) l v). Qed.

Lemma update_doc_twice D f g st :
  update_doc D g (update_doc D f st) = update_doc D (fun d => g (f d)) st.
Proof.
  unfold update_doc. destruct (docs st !! D) as [d |] eqn:Hd.
  - cbn. rewrite lookup_insert_eq. unfold set_docs. cbn.
    rewrite insert_insert_eq. reflexivity.
  - rewrite Hd. reflexivity.
Qed.

Lemma update_doc_ext D f g st :
  (forall d, docs st !! D = Some d -> f d = g d) ->
  update_doc D f st = update_doc D g st.
Proof.
  intros H. unfold update_doc. destruct (docs st !! D) as [d |] eqn:Hd.
  - rewrite (H d eq_refl). reflexivity.
  - reflexivity.
Qed.

Lemma update_doc_id D f st :
  (forall d, docs st !! D = Some d -> f d = d) -> update_doc D f st = st.
Proof.
  intros H. unfold update_doc. destruct (docs st !! D) as [d |] eqn:Hd.
  - rewrite (H d eq_refl). destruct st. unfold set_docs. cbn in *.
    rewrite insert_id by exact Hd. reflexivity.
  - reflexivity.
Qed.

Lemma with_onlineUsers_same d : with_onlineUsers (onlineUsers d) d = d.
Proof. destruct d. reflexivity. Qed.

Lemma presence_update_doc D f st :
  presence D (update_doc D f st) =
  match docs st !! D with Some d => onlineUsers (f d) | None => [] end.
Proof.
  unfold presence. destruct (docs st !! D) as [d |] eqn:Hd.
  - rewrite (lookup_update_doc_eq _ _ _ _ Hd). reflexivity.
  - unfold update_doc. rewrite Hd. rewrite Hd. reflexivity.
Qed.

(** X1. [addUserToDocument] on a stored document: afterwards the user is
    online; the other members of the list are exactly those that were;
    a list without repetition stays so; and adding the user once more
    changes nothing ($addToSet). *)
Theorem addUserToDocument_adds_once :
  forall (st : State) (D : string) (user : User) (d : Document),
    docs st !! D = Some d ->
    let st' := (run (addUserToDocument D user) st).2 in
    u_id user ∈ presence D st' /\
    (forall u, u ≠ u_id user -> (u ∈ presence D st' <-> u ∈ onlineUsers d)) /\
    (NoDup (onlineUsers d) -> NoDup (presence D st')) /\
    run (addUserToDocument D user) st' = (Done true, st').
Proof.
  intros st D user d Hd st'. subst st'.
  rewrite !run_addUserToDocument. cbn [snd].
  rewrite presence_update_doc, Hd. cbn [onlineUsers with_onlineUsers].
  split; [apply elem_of_addToSet; left; reflexivity |].
  split; [intros u Hu; rewrite elem_of_addToSet; tauto |].
  split; [apply NoDup_addToSet |].
  f_equal. rewrite update_doc_twice. apply update_doc_ext.
  intros d0 _. cbn. rewrite addToSet_idem. reflexivity.
Qed.

Lemma addUserToDocument_adds_once_witness :
  let st' := (run (addUserToDocument "d1" bob) open_state).2 in
  presence "d1" st' = ["u1"; "u2"] /\
  run (addUserToDocument "d1" bob) st' = (Done true, st').
Proof.
  destruct (addUserToDocument_adds_once open_state "d1" bob open_doc eq_refl)
    as (_ & _ & _ & H).
  split; [reflexivity | exact H].
Defined.

(** X2. Joining and leaving cancel: for a user who is not online in a
    document, [addUserToDocument] followed by [removeUserFromDocument]
    gives back the stores exactly as they were. *)
Theorem presence_add_then_remove_restores :
  forall (st : State) (D : string) (user : User),
    u_id user ∉ presence D st ->
    (run (removeUserFromDocument D (u_id user))
         (run (addUserToDocument D user) st).2).2 = st.
Proof.
  intros st D user Hu.
  rewrite run_addUserToDocument, run_removeUserFromDocument. cbn [snd].
  rewrite update_doc_twice. apply update_doc_id.
  intros d Hd. unfold presence in Hu. rewrite Hd in Hu.
  destruct d. unfold with_onlineUsers.
  cbn [onlineUsers d_id title content data owner collaborators currentVersion
       updatedAt] in *.
  rewrite pull_addToSet by exact Hu. reflexivity.
Qed.

Lemma presence_add_then_remove_restores_witness :
  (run (removeUserFromDocument "d1" "u2")
       (run (addUserToDocument "d1" bob) open_state).2).2 = open_state.
Proof.
  apply (presence_add_then_remove_restores open_state "d1" bob).
  replace (presence "d1" open_state) with ["u1"] by reflexivity.
  intros H. apply list_elem_of_singleton in H. discriminate H.
Defined.

(** X3. On a document that does not exist the helpers change nothing:
    [addUserToDocument] and [removeUserFromDocument] still report success,
    [getOnlineUsers] gives the empty list, both permission helpers say no,
    and [saveDocumentVersion] returns without a trace. *)
Theorem helpers_on_a_missing_document :
  forall (st : State) (D userId : string) (user : User),
    docs st !! D = None ->
    run (addUserToDocument D user) st = (Done true, st) /\
    run (removeUserFromDocument D userId) st = (Done true, st) /\
    run (getOnlineUsers D) st = (Done [], st) /\
    run (hasDocumentAccess D userId) st = (Done false, st) /\
    run (hasEditPermission D userId) st = (Done false, st) /\
    run (saveDocumentVersion D userId) st = (Done tt, st).
Proof.
  intros st D userId user Hd.
  rewrite run_addUserToDocument, run_removeUserFromDocument, run_getOnlineUsers,
    run_hasDocumentAccess, run_hasEditPermission, run_saveDocumentVersion.
  unfold update_doc, presence, snapshot_effect. rewrite Hd. auto 10.
Qed.

Lemma helpers_on_a_missing_document_witness :
  run (addUserToDocument "ghost" ann) lone_state = (Done true, lone_state) /\
  run (saveDocumentVersion "ghost" "u1") lone_state = (Done tt, lone_state).
Proof.
  destruct (helpers_on_a_missing_document lone_state "ghost" "u1" ann eq_refl)
    as (H1 & _ & _ & _ & _ & H2).
  split; [exact H1 | exact H2].
Defined.

(** ** The handlers as wholes (src/services/socketService.ts) *)

Lemma decide_access_none d userId :
  owner d ≠ userId ->
  (forall c, c ∈ collaborators d -> c_user c ≠ userId) ->
  decide_access d userId = acc_none.
Proof.
  intros Ho Hc. unfold decide_access.
  rewrite bool_decide_false by exact Ho.
  apply find_collaborator_None in Hc. rewrite Hc. reflexivity.
Qed.

(** X4. [get-document] on a stored document by a user who is neither its
    owner nor among its collaborators: the only effect is the error
    "Access denied" to the sender. No room is joined, nobody is added to
    the online list and no version is made. *)
Theorem get_document_denied_changes_nothing :
  forall (st : State) (sock : string) (user : User) (D : string) (d : Document),
    docs st !! D = Some d ->
    owner d ≠ u_id user ->
    (forall c, c ∈ collaborators d -> c_user c ≠ u_id user) ->
    run (on_get_document sock user D) st =
    (Done tt, emits (ToSocket sock "error" (PMessage "Access denied")) st).
Proof.
  intros st sock user D d Hd Ho Hc.
  rewrite (run_on_get_document_existing _ _ _ _ _ Hd).
  rewrite bool_decide_true by (apply decide_access_none; assumption).
  reflexivity.
Qed.

Lemma get_document_denied_changes_nothing_witness :
  run (on_get_document "s3" carol "d1") open_state =
  (Done tt, emits (ToSocket "s3" "error" (PMessage "Access denied")) open_state).
Proof.
  apply (get_document_denied_changes_nothing open_state "s3" carol "d1" open_doc).
  - reflexivity.
  - discriminate.
  - intros c Hc. apply list_elem_of_singleton in Hc. subst c. discriminate.
Defined.

Lemma snapshot_effect_frame D userId st :
  rooms (snapshot_effect D userId st) = rooms st /\
  session (snapshot_effect D userId st) = session st /\
  users (snapshot_effect D userId st) = users st /\
  clock (snapshot_effect D userId st) = clock st.
Proof.
  unfold snapshot_effect. destruct (docs st !! D) as [d |] eqn:Hd; [| auto].
  pose proof (update_doc_fields D
                (with_version (or0 (currentVersion d) + 1) (clock st)) st)
    as (_ & _ & Hc & _ & Hr & Hs & Hu).
  destruct (version_accepted _ st); cbn; auto.
Qed.

Lemma docs_snapshot_effect D userId st :
  docs (snapshot_effect D userId st) =
  match docs st !! D with
  | Some d => <[D := with_version (or0 (currentVersion d) + 1) (clock st) d]> (docs st)
  | None => docs st
  end.
Proof.
  unfold snapshot_effect. destruct (docs st !! D) as [d |] eqn:Hd; [| reflexivity].
  destruct (version_accepted _ st); cbn; rewrite docs_update_doc, Hd; reflexivity.
Qed.

Lemma present_frame sock user D st :
  rooms (present sock user D st) =
    <[sock := addToSet D (default [] (rooms st !! sock))]> (rooms st) /\
  out (present sock user D st) = out st /\
  (forall D', D' ≠ D -> docs (present sock user D st) !! D' = docs st !! D').
Proof.
  unfold present, add_presence.
  pose proof (update_doc_fields D
                (fun d => with_onlineUsers (addToSet (u_id user) (onlineUsers d)) d)
                (joined_room sock D st)) as (_ & _ & _ & Ho & Hr & _ & _).
  rewrite Ho, Hr. split; [reflexivity |]. split; [reflexivity |].
  intros D' HD'. rewrite lookup_update_doc_ne by congruence. reflexivity.
Qed.

Lemma join_snapshot_document sock user D d st :
  docs st !! D = Some d ->
  rooms (join_snapshot sock user D st) =
    <[sock := addToSet D (default [] (rooms st !! sock))]> (rooms st) /\
  out (join_snapshot sock user D st) = out st /\
  (forall D', D' ≠ D -> docs (join_snapshot sock user D st) !! D' = docs st !! D') /\
  exists d', docs (join_snapshot sock user D st) !! D = Some d' /\
             same_text d d' /\
             onlineUsers d' = addToSet (u_id user) (onlineUsers d).
Proof.
  intros Hd.
  destruct (present_frame sock user D st) as (Hr & Ho & Hother).
  pose proof (docs_present sock user D d st Hd) as Hp.
  unfold join_snapshot.
  destruct (bool_decide (1 < length (presence D (present sock user D st)))%nat).
  - destruct (snapshot_effect_frame D (u_id user) (present sock user D st))
      as (Hr' & _).
    rewrite Hr', Hr, out_snapshot_effect, Ho, docs_snapshot_effect, Hp.
    split; [reflexivity |]. split; [reflexivity |]. split.
    + intros D' HD'. rewrite lookup_insert_ne by congruence. apply Hother, HD'.
    + rewrite lookup_insert_eq. eexists. split; [reflexivity |].
      repeat split.
  - rewrite Hr, Ho. split; [reflexivity |]. split; [reflexivity |].
    split; [exact Hother |].
    eexists. split; [exact Hp |]. repeat split.
Qed.

(** X5. [get-document] on a stored document by a user with access: the
    socket enters the room, the user is added to the online list, title,
    content, data, owner and collaborators of the document stay as they
    were, other documents and the rooms of other sockets are untouched,
    and exactly two events are sent: [load-document] to the sender,
    carrying the [data] field (or [{}] when it is falsy) and not
    [content], and [user-joined] to the room with the online list that
    includes the joiner. *)
Theorem get_document_joins_an_existing_document :
  forall (st : State) (sock : string) (user : User) (D : string) (d : Document),
    docs st !! D = Some d ->
    decide_access d (u_id user) ≠ acc_none ->
    let r := run (on_get_document sock user D) st in
    r.1 = Done tt /\
    D ∈ default [] (rooms r.2 !! sock) /\
    (forall s, s ≠ sock -> rooms r.2 !! s = rooms st !! s) /\
    presence D r.2 = addToSet (u_id user) (onlineUsers d) /\
    (exists d', docs r.2 !! D = Some d' /\ same_text d d') /\
    (forall D', D' ≠ D -> docs r.2 !! D' = docs st !! D') /\
    out r.2 =
      out st ++
      [ToSocket sock "load-document" (PValue (js_or (data d) defaultValue));
       ToRoom D "user-joined"
         (PUserJoined (u_id user) (username user) (email user)
                      (addToSet (u_id user) (onlineUsers d)))].
Proof.
  intros st sock user D d Hd Hacc r. subst r.
  rewrite (run_on_get_document_existing _ _ _ _ _ Hd).
  rewrite bool_decide_false by exact Hacc.
  rewrite run_join_document. cbn [fst snd].
  destruct (join_snapshot_document sock user D d st Hd)
    as (Hr & Ho & Hother & d' & Hd' & Htext & Honline).
  assert (presence D (present sock user D st)
          = addToSet (u_id user) (onlineUsers d)) as Hpres.
  { unfold presence. rewrite (docs_present _ _ _ _ _ Hd). reflexivity. }
  rewrite Hpres.
  split; [reflexivity |].
  unfold emits. cbn [rooms docs out set_out presence].
  rewrite Hr, Ho.
  split.
  { rewrite lookup_insert_eq. cbn. apply elem_of_addToSet. left. reflexivity. }
  split.
  { intros s Hs. apply lookup_insert_ne. congruence. }
  split.
  { unfold presence, set_out. cbn [docs]. rewrite Hd'. exact Honline. }
  split.
  { exists d'. split; [exact Hd' | exact Htext]. }
  split; [exact Hother |].
  rewrite <- app_assoc. reflexivity.
Qed.

Lemma get_document_joins_an_existing_document_witness :
  let r := run (on_get_document "s2" bob "d1") open_state in
  presence "d1" r.2 = ["u1"; "u2"] /\
  out r.2 =
    [ToSocket "s2" "load-document" (PValue (JObj "{}"));
     ToRoom "d1" "user-joined"
       (PUserJoined "u2" "bob" "bob@example.org" ["u1"; "u2"])].
Proof.
  destruct (get_document_joins_an_existing_document open_state "s2" bob "d1"
              open_doc eq_refl)
    as (_ & _ & _ & Hp & _ & _ & Ho).
  - vm_compute. discriminate.
  - split; [exact Hp | exact Ho].
Defined.

Lemma set_out_set_out st o o' : set_out (set_out st o) o' = set_out st o'.
Proof. reflexivity. Qed.

Lemma set_out_same st : set_out st (out st) = st.
Proof. destruct st. reflexivity. Qed.

Lemma run_send_changes_loop sock user delta (rs : list string) st0 st :
  docs st = docs st0 ->
  run (for_of rs (send_changes_room sock user delta)) st =
  (Done tt, set_out st (out st ++ send_changes_events sock user delta st0 rs)).
Proof.
  revert st. induction rs as [| D rs IH]; intros st Hdocs.
  - cbn. rewrite app_nil_r, set_out_same. reflexivity.
  - rewrite run_for_of_cons, run_send_changes_room.
    change (send_changes_events sock user delta st0 (D :: rs))
      with (match docs st0 !! D with
            | None => []
            | Some d =>
                if write_denied d user
                then [ToSocket sock "error"
                        (PMessage "You do not have permission to edit this document")]
                else [ToRoomExcept D sock "receive-changes" (PValue delta)]
            end ++ send_changes_events sock user delta st0 rs).
    rewrite <- Hdocs.
    destruct (docs st !! D) as [d |].
    + destruct (write_denied d user); rewrite IH by exact Hdocs;
        unfold emits; cbn [out set_out]; rewrite set_out_set_out, <- app_assoc;
        reflexivity.
    + rewrite IH by exact Hdocs. reflexivity.
Qed.

(** X6. [send-changes] only relays: the handler ends normally, leaves the
    documents, version records, cache, rooms and sessions untouched, and
    emits, for each room of the connection (its own room aside) that has a
    stored document, in order, either the permission error to the sender
    or the delta, unchanged, to the other sockets of the room. *)
Theorem send_changes_only_relays :
  forall (st : State) (sock : string) (user : User) (delta : JsVal),
    run (on_send_changes sock user delta) st =
      (Done tt,
       set_out st (out st ++ send_changes_events sock user delta st
                               (rooms_of sock st))) /\
    Forall (fun e =>
              e = ToSocket sock "error"
                    (PMessage "You do not have permission to edit this document")
              \/ exists D, D ∈ default [] (rooms st !! sock) /\ D ≠ sock /\
                           e = ToRoomExcept D sock "receive-changes" (PValue delta))
           (send_changes_events sock user delta st (rooms_of sock st)).
Proof.
  intros st sock user delta. split.
  - unfold on_send_changes. rewrite run_try_catch, run_bind, run_document_rooms.
    rewrite (run_send_changes_loop _ _ _ _ st) by reflexivity. reflexivity.
  - unfold send_changes_events. apply Forall_forall. intros e He.
    apply list_elem_of_In, in_flat_map in He. destruct He as (D & HD & He).
    apply list_elem_of_In in HD. unfold rooms_of in HD.
    apply list_elem_of_filter in HD as [Hne HD].
    destruct (docs st !! D) as [d |]; [| destruct He].
    destruct (write_denied d user); destruct He as [<- | []].
    + left. reflexivity.
    + right. exists D. auto.
Qed.

(** X7. [save-document] with a falsy payload (null, false, 0, the empty
    string) by a permitted user: the document takes the payload as its
    content and data, but the version record made for it holds the content
    the document had before ([data || document.content]). *)
Theorem save_document_falsy_payload_records_old_content :
  forall (st : State) (sock : string) (user : User) (x : JsVal) (D : string)
         (d : Document),
    docs st !! D = Some d ->
    write_denied d user = false ->
    truthy x = false ->
    content d ≠ JNull ->
    currentVersion d + 1 ∉ version_numbers D (versions st) ->
    let r := run (save_document_room sock user x D) st in
    r.1 = Done tt /\
    (content <$> docs r.2 !! D) = Some x /\
    (data <$> docs r.2 !! D) = Some x /\
    versions r.2 =
      versions st ++
      [mkVersion D (currentVersion d + 1) (content d) (u_id user) (clock st)].
Proof.
  intros st sock user x D d Hd Hw Hx Hc Hfree r. subst r.
  rewrite run_save_document_room, Hd, Hw.
  assert (save_record D user x d (clock st)
          = mkVersion D (currentVersion d + 1) (content d) (u_id user) (clock st))
    as Hrec.
  { unfold save_record, js_or. rewrite Hx, or0_succ. reflexivity. }
  cbv zeta. rewrite Hrec.
  rewrite version_accepted_fresh by assumption.
  cbn [fst snd docs versions set_cache set_versions].
  rewrite (lookup_update_doc_eq _ _ _ _ Hd). cbn. auto.
Qed.

Lemma save_document_falsy_payload_records_old_content_witness :
  let r := run (save_document_room "s1" ann (JStr "") "d1") review_state in
  (content <$> docs r.2 !! "d1") = Some (JStr "") /\
  versions r.2 =
    versions review_state ++ [mkVersion "d1" 3 (JStr "hello") "u1" 9].
Proof.
  destruct (save_document_falsy_payload_records_old_content review_state "s1" ann
              (JStr "") "d1" review_doc eq_refl eq_refl eq_refl)
    as (_ & Hc & _ & Hv).
  - discriminate.
  - apply (bool_decide_unpack _). vm_compute. exact I.
  - split; [exact Hc | exact Hv].
Defined.

Lemma run_try_catch_done (p : Prog unit) (h : Err -> Prog unit) st :
  (forall e st', (run (h e) st').1 = Done tt) ->
  (run (try_catch p h) st).1 = Done tt.
Proof.
  intros Hh. rewrite run_try_catch.
  destruct (run p st) as [[[] | e] st']; [reflexivity | apply Hh].
Qed.

(** X8. Errors and the listeners of a connection. [get-document],
    [send-changes], [save-document] and [disconnect] do all their work
    inside try/catch: whatever the stores, the socket and the payload they
    end normally (a failed store call becomes an error event or is
    dropped), and so does [cursor-position] when it has a payload.
    [cursor-position] sent without payload throws out of its listener,
    before anything is read or emitted: of the events of an authenticated
    connection it is the one whose error escapes. *)
Theorem only_cursor_position_lets_an_error_escape :
  forall (st : State) (sock : string) (ev : ClientEvent),
    (ev ≠ CursorPositionEmpty -> (run (dispatch sock ev) st).1 = Done tt) /\
    (forall user, session st !! sock = Some user ->
       exists message,
         run (dispatch sock CursorPositionEmpty) st =
         (Threw (OtherError message), st)).
Proof.
  intros st sock ev. split.
  - intros Hev. rewrite run_dispatch.
    destruct (session st !! sock) as [user |]; [| reflexivity].
    destruct ev as [D | delta | D position | | x |]; cbn [handler].
    + apply run_try_catch_done. reflexivity.
    + apply run_try_catch_done. reflexivity.
    + reflexivity.
    + contradiction.
    + apply run_try_catch_done. reflexivity.
    + rewrite run_on_disconnect. reflexivity.
  - intros user Hs. rewrite run_dispatch, Hs. cbn [handler on_cursor_position].
    eexists. reflexivity.
Qed.

(** ann's connection sends cursor-position with nothing in it. *)
Example cursor_position_without_payload_throws :
  exists message,
    run (dispatch "s1" CursorPositionEmpty) lone_state =
    (Threw (OtherError message), lone_state).
Proof. eexists. reflexivity. Qed.

(** ** The second copy of the socket service: joins and departures *)

Lemma run_variant_join_document sock user D document st :
  run (Variant.join_document sock user D document) st =
  (Done tt,
   emits (ToRoom D "user-joined"
            (PUserJoined (u_id user) (username user) (email user)
                         (presence D (present sock user D st))))
     (emits (ToSocket sock "load-document"
               (PValue (js_or (data document) defaultValue)))
        (present sock user D st))).
Proof.
  unfold Variant.join_document, present, add_presence.
  rewrite run_bind, run_call. cbn [exec fst snd]. fold (joined_room sock D st).
  rewrite run_bind, run_addUserToDocument.
  rewrite run_bind, run_call. cbn [exec fst snd].
  rewrite run_bind, run_getOnlineUsers.
  reflexivity.
Qed.

Lemma run_variant_on_get_document_existing sock user D d st :
  docs st !! D = Some d ->
  run (Variant.on_get_document sock user D) st =
  if bool_decide (decide_access d (u_id user) = acc_none)
  then (Done tt, emits (ToSocket sock "error" (PMessage "Access denied")) st)
  else run (Variant.join_document sock user D d) st.
Proof.
  intros Hd. unfold Variant.on_get_document.
  rewrite run_try_catch, run_bind, run_call. cbn [exec fst snd]. rewrite Hd.
  rewrite run_bind, run_hasDocumentAccess, Hd.
  case_bool_decide; cbn [negb].
  - reflexivity.
  - rewrite run_variant_join_document. reflexivity.
Qed.

(** X9. In the second copy of the socket service a join of a stored
    document never makes a version: the version records are untouched,
    and the document is stored exactly as it was but for the joiner in its
    online list (currentVersion and updatedAt included), however many
    users are online. The two events are the same as in the live copy. *)
Theorem variant_get_document_takes_no_snapshot :
  forall (st : State) (sock : string) (user : User) (D : string) (d : Document),
    docs st !! D = Some d ->
    decide_access d (u_id user) ≠ acc_none ->
    let r := run (Variant.on_get_document sock user D) st in
    r.1 = Done tt /\
    versions r.2 = versions st /\
    docs r.2 !! D =
      Some (with_onlineUsers (addToSet (u_id user) (onlineUsers d)) d) /\
    out r.2 =
      out st ++
      [ToSocket sock "load-document" (PValue (js_or (data d) defaultValue));
       ToRoom D "user-joined"
         (PUserJoined (u_id user) (username user) (email user)
                      (addToSet (u_id user) (onlineUsers d)))].
Proof.
  intros st sock user D d Hd Hacc r. subst r.
  rewrite (run_variant_on_get_document_existing _ _ _ _ _ Hd).
  rewrite bool_decide_false by exact Hacc.
  rewrite run_variant_join_document. cbn [fst snd].
  destruct (present_frame sock user D st) as (_ & Ho & _).
  assert (presence D (present sock user D st)
          = addToSet (u_id user) (onlineUsers d)) as Hpres.
  { unfold presence. rewrite (docs_present _ _ _ _ _ Hd). reflexivity. }
  rewrite Hpres. unfold emits. cbn [versions docs out set_out].
  rewrite versions_present, (docs_present _ _ _ _ _ Hd), Ho, <- app_assoc.
  auto.
Qed.

Lemma variant_get_document_takes_no_snapshot_witness :
  let r := run (Variant.on_get_document "s2" bob "d1") open_state in
  versions r.2 = versions open_state /\
  (currentVersion <$> docs r.2 !! "d1") = Some 1 /\
  (currentVersion <$> docs (run (on_get_document "s2" bob "d1") open_state).2
                        !! "d1") = Some 2.
Proof.
  destruct (variant_get_document_takes_no_snapshot open_state "s2" bob "d1"
              open_doc eq_refl)
    as (_ & Hv & Hd & _).
  - vm_compute. discriminate.
  - split; [exact Hv |]. split; [rewrite Hd; reflexivity | reflexivity].
Defined.

Lemma pull_idem u (l : list string) : pull u (pull u l) = pull u l.
Proof. apply pull_all_others. rewrite elem_of_pull. tauto. Qed.

Lemma lookup_update_doc D D' f st :
  docs (update_doc D f st) !! D' =
  if bool_decide (D' = D) then f <$> docs st !! D' else docs st !! D'.
Proof.
  case_bool_decide as HD.
  - subst D'. destruct (docs st !! D) as [d |] eqn:Hd.
    + rewrite (lookup_update_doc_eq _ _ _ _ Hd). reflexivity.
    + unfold update_doc. rewrite Hd. rewrite Hd. reflexivity.
  - apply lookup_update_doc_ne. congruence.
Qed.

Lemma run_variant_disconnect_room user D st :
  run (Variant.disconnect_room user D) st =
  (Done tt,
   emits (ToRoom D "user-left"
            (PUserLeft (u_id user) (pull (u_id user) (presence D st))))
         (without_presence D (u_id user) st)).
Proof.
  unfold Variant.disconnect_room.
  rewrite run_bind, run_removeUserFromDocument.
  rewrite run_bind, run_getOnlineUsers.
  fold (without_presence D (u_id user) st). rewrite presence_without.
  reflexivity.
Qed.

Lemma presence_without_at D D' userId st :
  pull userId (presence D' (without_presence D userId st)) =
  pull userId (presence D' st).
Proof.
  unfold presence, without_presence. rewrite lookup_update_doc.
  case_bool_decide; [| reflexivity].
  destruct (docs st !! D') as [d |]; [| reflexivity].
  cbn. apply pull_idem.
Qed.

Lemma variant_disconnect_loop user (rs : list string) st :
  let u := u_id user in
  let r := run (for_of rs (Variant.disconnect_room user)) st in
  r.1 = Done tt /\
  versions r.2 = versions st /\
  cache r.2 = cache st /\
  (forall D,
     docs r.2 !! D =
     (fun d => if bool_decide (D ∈ rs)
               then with_onlineUsers (pull u (onlineUsers d)) d else d)
       <$> docs st !! D) /\
  out r.2 =
    out st ++
    ((fun D => ToRoom D "user-left" (PUserLeft u (pull u (presence D st)))) <$> rs).
Proof.
  cbv zeta. revert st. induction rs as [| r rs IH]; intros st.
  - cbn. rewrite app_nil_r. repeat split.
    intros D. destruct (docs st !! D); reflexivity.
  - rewrite run_for_of_cons, run_variant_disconnect_room.
    destruct (IH (emits (ToRoom r "user-left"
                           (PUserLeft (u_id user) (pull (u_id user) (presence r st))))
                        (without_presence r (u_id user) st)))
      as (H1 & Hv & Hc & Hd & Ho).
    split; [exact H1 |].
    split; [rewrite Hv; apply versions_update_doc |].
    split; [rewrite Hc; apply update_doc_fields |].
    split.
    + intros D. rewrite Hd. unfold emits, without_presence. cbn [docs set_out].
      rewrite lookup_update_doc.
      destruct (docs st !! D) as [d |];
        [| destruct (bool_decide (D = r)); reflexivity].
      destruct (decide (D = r)) as [-> | Hne].
      * rewrite (bool_decide_true (r = r)) by reflexivity.
        rewrite (bool_decide_true (r ∈ r :: rs))
          by (apply elem_of_cons; left; reflexivity).
        cbn. destruct (bool_decide (r ∈ rs)); [| reflexivity].
        destruct d. unfold with_onlineUsers.
        cbn [onlineUsers d_id title content data owner collaborators
             currentVersion updatedAt].
        change (filter (fun x => x ≠ u_id user) (pull (u_id user) onlineUsers0))
          with (pull (u_id user) (pull (u_id user) onlineUsers0)).
        rewrite pull_idem. reflexivity.
      * rewrite (bool_decide_false (D = r)) by exact Hne. cbn.
        rewrite (bool_decide_ext (D ∈ r :: rs) (D ∈ rs)); [reflexivity |].
        rewrite elem_of_cons. tauto.
    + rewrite Ho. unfold emits. cbn [out set_out].
      assert (out (without_presence r (u_id user) st) = out st) as ->
        by apply out_update_doc.
      rewrite <- app_assoc. rewrite fmap_cons. cbn [app]. do 2 f_equal.
      apply list_fmap_ext. intros i D _.
      change (presence D (set_out (without_presence r (u_id user) st) _))
        with (presence D (without_presence r (u_id user) st)).
      rewrite presence_without_at. reflexivity.
Qed.

Lemma run_variant_on_disconnect sock user st :
  run (Variant.on_disconnect sock user) st =
  (Done tt, set_rooms st (delete sock (rooms st))).
Proof.
  unfold Variant.on_disconnect. rewrite run_bind, run_call. cbn [exec fst snd].
  rewrite run_try_catch, run_bind, run_document_rooms.
  cbn [rooms set_rooms]. rewrite lookup_delete_eq. reflexivity.
Qed.

(** X10. In the second copy as well the disconnect listener finds no room
    to visit (socket.io has emptied [socket.rooms] before it runs): it ends
    normally and changes nothing but the rooms of the socket. So presence
    outlives the connection: a user with access who joins a stored
    document and then disconnects is still in the online list of the
    document; no version record was made on the way and nothing is sent
    at the disconnect. *)
Theorem variant_disconnect_leaves_presence_behind :
  forall (st : State) (sock : string) (user : User),
    run (Variant.on_disconnect sock user) st =
      (Done tt, set_rooms st (delete sock (rooms st))) /\
    (forall D d,
       docs st !! D = Some d ->
       decide_access d (u_id user) ≠ acc_none ->
       let st1 := (run (Variant.on_get_document sock user D) st).2 in
       let st2 := (run (Variant.on_disconnect sock user) st1).2 in
       u_id user ∈ presence D st2 /\
       rooms st2 !! sock = None /\
       versions st2 = versions st /\
       out st2 = out st1).
Proof.
  intros st sock user. split; [apply run_variant_on_disconnect |].
  intros D d Hd Hacc st1 st2. subst st2 st1.
  rewrite (run_variant_on_get_document_existing _ _ _ _ _ Hd).
  rewrite bool_decide_false by exact Hacc.
  rewrite run_variant_join_document. cbn [snd].
  rewrite run_variant_on_disconnect. cbn [snd].
  unfold presence, emits. cbn [docs versions rooms out set_rooms set_out].
  rewrite (docs_present _ _ _ _ _ Hd), versions_present.
  cbn [onlineUsers with_onlineUsers].
  split; [apply elem_of_addToSet; left; reflexivity |].
  split; [apply lookup_delete_eq |].
  split; reflexivity.
Qed.

(** bob joins ann's document and disconnects: he stays online in it. *)
Lemma variant_disconnect_leaves_presence_behind_witness :
  let st1 := (run (Variant.on_get_document "s2" bob "d1") open_state).2 in
  let st2 := (run (Variant.on_disconnect "s2" bob) st1).2 in
  "u2" ∈ presence "d1" st2 /\ rooms st2 !! "s2" = None /\
  presence "d1" st2 = ["u1"; "u2"].
Proof.
  destruct (variant_disconnect_leaves_presence_behind open_state "s2" bob)
    as (_ & H).
  destruct (H "d1" open_doc eq_refl) as (H1 & H2 & _).
  - vm_compute. discriminate.
  - split; [exact H1 |]. split; [exact H2 | reflexivity].
Defined.

Lemma run_variant_save_document_room sock user x D st :
  run (Variant.save_document_room sock user x D) st =
  match docs st !! D with
  | None => (Done tt, st)
  | Some d =>
      if write_denied d user
      then (Done tt,
            emits (ToSocket sock "error"
                     (PMessage "You do not have permission to save this document")) st)
      else
        let st1 := update_doc D (with_saved x (or0 (currentVersion d) + 1) (clock st))
                     st in
        let v := save_record D user x d (clock st) in
        if version_accepted v st
        then (Done tt,
              set_cache (set_versions st1 (versions st ++ [v]))
                (variant_invalidated D user d (cache st)))
        else (Threw (save_error v), st1)
  end.
Proof.
  unfold Variant.save_document_room.
  rewrite run_bind, run_call. cbn [exec fst snd].
  destruct (docs st !! D) as [d |] eqn:Hd; [| reflexivity].
  destruct (write_denied d user); [reflexivity |].
  rewrite run_bind, run_call. cbn [exec fst snd].
  rewrite run_bind, run_call, exec_DocUpdate. cbn [fst snd].
  rewrite run_bind, run_DocumentVersion_create. cbn zeta.
  rewrite version_accepted_update_doc, clock_update_doc, versions_update_doc.
  unfold save_record, save_error.
  destruct (version_accepted _ st); [| reflexivity].
  rewrite run_bind, run_invalidateDocumentCache.
  rewrite run_bind, run_invalidate_collaborators_guarded.
  cbn [cache set_cache set_versions].
  unfold variant_invalidated, invalidated_all. cbv zeta.
  assert (cache (update_doc D (with_saved x (or0 (currentVersion d) + 1) (clock st))
                   st) = cache st) as -> by apply update_doc_fields.
  case_bool_decide.
  - rewrite run_invalidateDocumentCache. reflexivity.
  - rewrite run_ret. reflexivity.
Qed.

(** X11. The second copy of [save-document] differs from the live one in
    the cache only: on every store, for every sender, payload and room,
    one turn of its loop ends the same way and leaves the same documents,
    version records, rooms and emitted events as the live copy. After a
    save that went through it has deleted, for the sender, the owner and
    every collaborator, the key of the detail entry
    (document:<D>:user:<u>) and the key user:<u>:documents, and nothing
    else. No document list is cached under either: with ids that hold no
    colon, every cached page of a list
    (user:<u>:documents:page<p>:limit<l>) is still there after the save. *)
Theorem variant_save_differs_in_the_cache_only :
  forall (st : State) (sock : string) (user : User) (x : JsVal) (D : string),
    let a := run (save_document_room sock user x D) st in
    let b := run (Variant.save_document_room sock user x D) st in
    b.1 = a.1 /\
    docs b.2 = docs a.2 /\ versions b.2 = versions a.2 /\
    rooms b.2 = rooms a.2 /\ out b.2 = out a.2 /\
    (b.1 = Done tt ->
     forall d,
       docs st !! D = Some d ->
       write_denied d user = false ->
       cache b.2 = variant_invalidated D user d (cache st) /\
       (forall userId,
          userId = u_id user \/ userId = owner d \/
          (exists col, col ∈ collaborators d /\ c_user col = userId) ->
          (detail_key D userId ∉ cache b.2) /\
          ("user:" +:+ userId +:+ ":documents" ∉ cache b.2)) /\
       (no_colon (u_id user) -> no_colon (owner d) ->
        (forall col, col ∈ collaborators d -> no_colon (c_user col)) ->
        keeps_list_pages (cache st) (cache b.2))).
Proof.
  intros st sock user x D a b. subst a b.
  rewrite run_save_document_room, run_variant_save_document_room.
  destruct (docs st !! D) as [d |] eqn:Hd.
  - destruct (write_denied d user) eqn:Hw.
    + repeat (split; [reflexivity |]).
      intros _ d0 [= <-] Hw0. congruence.
    + cbv zeta. destruct (version_accepted _ st) eqn:Hacc.
      * repeat (split; [reflexivity |]).
        intros _ d0 [= <-] _. cbn [snd cache set_cache].
        destruct (variant_invalidated_spec D user d (cache st))
          as (_ & Hgone & Hkept).
        split; [reflexivity |]. split; [| exact Hkept].
        intros userId Hu. split; apply (Hgone userId Hu); [left | right; left].
      * repeat (split; [reflexivity |]). intros H. discriminate H.
  - repeat (split; [reflexivity |]). intros _ d0 H. discriminate H.
Qed.

(** bob saves "d1" while a page of ann's document list is cached. *)
Example variant_save_leaves_the_cached_list :
  let st := set_cache shared_state
              {["document:d1:user:u1"; "user:u1:documents:page1:limit10"]} in
  cache (run (Variant.save_document_room "s2" bob (JStr "hello") "d1") st).2 =
    {["user:u1:documents:page1:limit10"]}.
Proof. vm_compute. reflexivity. Qed.

(** ** Creating documents and versions *)

Lemma blank_title ttl :
  trim ttl = "" -> String.eqb ttl "" || String.eqb (trim ttl) "" = true.
Proof. intros ->. apply orb_true_r. Qed.

Lemma not_blank_title ttl :
  trim ttl ≠ "" -> String.eqb ttl "" || String.eqb (trim ttl) "" = false.
Proof.
  intros H. rewrite (eqb_false_of_ne _ _ H).
  rewrite (eqb_false_of_ne _ _ (trim_nonempty _ H)). reflexivity.
Qed.

Lemma documentContent_spec c :
  DocumentService.documentContent c ≠ "" /\
  (forall s, c = Some s -> trim s ≠ "" -> DocumentService.documentContent c = s) /\
  (forall s, c = Some s -> trim s = "" -> DocumentService.documentContent c = " ") /\
  (c = None -> DocumentService.documentContent c = " ").
Proof.
  unfold DocumentService.documentContent. destruct c as [s |].
  - destruct (String.eqb_spec s "") as [-> | Hs]; cbn [negb andb].
    + split; [discriminate |]. split; [| split; [reflexivity | discriminate]].
      intros s [= <-] H. exfalso. apply H. reflexivity.
    + destruct (String.eqb_spec (trim s) "") as [Ht | Ht]; cbn [negb].
      * split; [discriminate |]. split; [| split; [reflexivity | discriminate]].
        intros s' [= <-] H. contradiction.
      * split; [exact Hs |]. split; [intros s' [= <-] _; reflexivity |].
        split; [| discriminate]. intros s' [= <-] H. contradiction.
  - split; [discriminate |]. split; [discriminate |]. split; [discriminate |].
    reflexivity.
Qed.

(** X12. [DocumentService.createDocument] with a title that is not blank
    (blank: empty once trimmed as [String.prototype.trim] does, Unicode
    white space included): the document is stored under an id no document
    had, with the title trimmed, the given owner, no collaborators and
    currentVersion 1; its content is never the empty string: it is the
    given content when that is not blank and one space otherwise; no
    other document changes; and unless [generateVersion] is [false] one
    version record numbered 1 is added, holding the same content. *)
Theorem service_createDocument_stores_nonempty_content :
  forall (st : State) (ttl : string) (c : option string) (own : string)
         (gv : option bool),
    trim ttl ≠ "" ->
    let r := run (DocumentService.createDocument ttl c own gv) st in
    exists d s,
      r.1 = Done d /\
      docs st !! d_id d = None /\
      docs r.2 !! d_id d = Some d /\
      (forall D, D ≠ d_id d -> docs r.2 !! D = docs st !! D) /\
      title d = trim ttl /\ owner d = own /\ collaborators d = [] /\
      currentVersion d = 1 /\
      content d = JStr s /\ s ≠ "" /\
      (forall s0, c = Some s0 -> trim s0 ≠ "" -> s = s0) /\
      (forall s0, c = Some s0 -> trim s0 = "" -> s = " ") /\
      versions r.2 =
        versions st ++
        (if bool_decide (gv = Some false) then []
         else [mkVersion (d_id d) 1 (JStr s) own (clock st)]).
Proof.
  intros st ttl c own gv Ht r. subst r.
  rewrite (run_service_createDocument _ _ _ _ _ Ht). cbv zeta. cbn [fst snd].
  destruct (documentContent_spec c) as (Hne & Hkeep & Hblank & _).
  eexists. exists (DocumentService.documentContent c).
  split; [reflexivity |]. cbn [d_id title owner collaborators currentVersion content
                               docs versions set_cache set_versions set_docs].
  split; [apply fresh_id_unused |].
  split; [apply lookup_insert_eq |].
  split; [intros D HD; apply lookup_insert_ne; congruence |].
  do 5 (split; [reflexivity |]).
  split; [exact Hne |]. split; [exact Hkeep |]. split; [exact Hblank |].
  destruct (bool_decide (gv = Some false)); [rewrite app_nil_r |]; reflexivity.
Qed.

Lemma service_createDocument_stores_nonempty_content_witness :
  exists d,
    (run (DocumentService.createDocument " Notes " (Some "  ") "u1" None)
         empty_state).1 = Done d /\
    title d = "Notes" /\ content d = JStr " ".
Proof.
  destruct (service_createDocument_stores_nonempty_content empty_state " Notes "
              (Some "  ") "u1" None)
    as (d & s & Hr & _ & _ & _ & Ht & _ & _ & _ & Hc & _ & _ & Hb & _).
  - discriminate.
  - exists d. split; [exact Hr |]. split; [exact Ht |].
    rewrite Hc, (Hb "  " eq_refl eq_refl). reflexivity.
Defined.

(** X13. Creating a document stores nothing when the request is turned
    down: the create route answers 401 without a user, 400 when the title
    is not a string or is empty once trimmed, and 500 when the title is
    fine but the content is a truthy value that is not a string (the call
    of [content.trim] fails); [DocumentService.createDocument] throws
    "Title cannot be empty" for a title that is empty once trimmed. In
    each case the stores are untouched. *)
Theorem createDocument_rejections_store_nothing :
  forall (st : State) (uid : string) (ttl c : JsVal),
    run (createDocument None ttl c) st = (Done 401, st) /\
    ((forall t, ttl = JStr t -> trim t = "") ->
     run (createDocument (Some uid) ttl c) st = (Done 400, st)) /\
    (forall t, ttl = JStr t -> trim t ≠ "" ->
     truthy c = true -> (forall s, c ≠ JStr s) ->
     run (createDocument (Some uid) ttl c) st = (Done 500, st)) /\
    (forall t c0 own gv, trim t = "" ->
     run (DocumentService.createDocument t c0 own gv) st =
       (Threw (OtherError "Title cannot be empty"), st)).
Proof.
  intros st uid ttl c. split; [reflexivity |]. split; [| split].
  - intros Hblank. unfold createDocument.
    destruct ttl as [| b | n | t | j]; try reflexivity.
    rewrite (blank_title t (Hblank t eq_refl)). reflexivity.
  - intros t -> Ht Hc Hs. unfold createDocument.
    rewrite (not_blank_title t Ht).
    destruct c as [| b | n | s | j]; try (rewrite Hc; reflexivity).
    exfalso. apply (Hs s). reflexivity.
  - intros t c0 own gv Hblank. unfold DocumentService.createDocument.
    rewrite (blank_title _ Hblank). reflexivity.
Qed.

Lemma createDocument_rejections_store_nothing_witness :
  run (createDocument (Some "u1") (JStr "   ") (JStr "x")) empty_state =
    (Done 400, empty_state) /\
  run (createDocument (Some "u1") (JStr "Notes") (JObj "{ops: []}")) empty_state =
    (Done 500, empty_state) /\
  run (DocumentService.createDocument "   " (Some "text") "u1" None) empty_state =
    (Threw (OtherError "Title cannot be empty"), empty_state).
Proof.
  destruct (createDocument_rejections_store_nothing empty_state "u1" (JStr "   ")
              (JStr "x")) as (_ & H1 & _ & H3).
  destruct (createDocument_rejections_store_nothing empty_state "u1" (JStr "Notes")
              (JObj "{ops: []}")) as (_ & _ & H2 & _).
  split; [| split].
  - apply H1. intros t Ht. injection Ht as <-. reflexivity.
  - apply (H2 "Notes"); [reflexivity | discriminate | reflexivity |].
    intros s Hs. discriminate Hs.
  - apply H3. reflexivity.
Defined.

(** White space is what [trim] of JavaScript takes it to be. A title that
    is one no-break space (U+00A0) is blank for the route and for the
    service; a line separator (U+2028) before a title and a byte-order
    mark (U+FEFF) after it are trimmed away. *)
Example unicode_white_space_is_trimmed :
  let nbsp := String "194" (String "160" "") in
  let ls := String "226" (String "128" (String "168" "")) in
  let bom := String "239" (String "187" (String "191" "")) in
  trim nbsp = "" /\
  trim (ls +:+ "Plan" +:+ bom) = "Plan" /\
  run (createDocument (Some "u1") (JStr nbsp) (JStr "x")) empty_state =
    (Done 400, empty_state) /\
  run (DocumentService.createDocument nbsp (Some "x") "u1" None) empty_state =
    (Threw (OtherError "Title cannot be empty"), empty_state) /\
  (title <$> docs (run (createDocument (Some "u1") (JStr (ls +:+ "Plan" +:+ bom))
                         (JStr "x")) empty_state).2 !! fresh_id empty_state)
    = Some "Plan".
Proof. vm_compute. auto 6. Qed.

(** X14. [createDocumentVersion] throws "Document not found" for an id
    without document and changes nothing. For a stored document (with a
    title, as [save] requires) it writes the document first: content and currentVersion + 1 are stored whether
    or not the version record is taken. When the number is free the record
    returned holds that number and that content; when the number is taken
    the call throws the duplicate-key error with the document already
    overwritten. *)
Theorem createDocumentVersion_writes_the_document_first :
  forall (st : State) (D c userId : string),
    (docs st !! D = None ->
     run (createDocumentVersion D c userId) st =
       (Threw (OtherError "Document not found"), st)) /\
    (forall d, docs st !! D = Some d -> title d ≠ "" ->
       let r := run (createDocumentVersion D c userId) st in
       let v := mkVersion D (currentVersion d + 1) (JStr c) userId (clock st) in
       (content <$> docs r.2 !! D) = Some (JStr c) /\
       (currentVersion <$> docs r.2 !! D) = Some (currentVersion d + 1) /\
       (forall D', D' ≠ D -> docs r.2 !! D' = docs st !! D') /\
       (currentVersion d + 1 ∉ version_numbers D (versions st) ->
        r.1 = Done v /\ versions r.2 = versions st ++ [v]) /\
       (currentVersion d + 1 ∈ version_numbers D (versions st) ->
        r.1 = Threw DuplicateKey /\ versions r.2 = versions st)).
Proof.
  intros st D c userId. split.
  - intros Hd. rewrite run_createDocumentVersion, Hd. reflexivity.
  - intros d Hd _. cbv zeta. rewrite run_createDocumentVersion, Hd. cbv zeta.
    set (f := fun d' : Document => mkDocument _ _ _ _ _ _ _ _ _).
    assert (forall o : Outcome DocumentVersion * State,
              docs o.2 = docs (update_doc D f st) ->
              (content <$> docs o.2 !! D) = Some (JStr c) /\
              (currentVersion <$> docs o.2 !! D) = Some (currentVersion d + 1) /\
              (forall D', D' ≠ D -> docs o.2 !! D' = docs st !! D')) as Hdoc.
    { intros o ->. rewrite (lookup_update_doc_eq _ _ _ _ Hd).
      split; [reflexivity |]. split; [reflexivity |].
      intros D' HD'. apply lookup_update_doc_ne. congruence. }
    unfold version_accepted, index_taken. cbn [content_valid v_content v_document
                                              versionNumber andb].
    destruct (bool_decide_reflect
                (currentVersion d + 1 ∈ version_numbers D (versions st)))
      as [Hin | Hout]; cbn [negb].
    + destruct (Hdoc (Threw DuplicateKey, update_doc D f st) eq_refl)
        as (H1 & H2 & H3).
      split; [exact H1 |]. split; [exact H2 |]. split; [exact H3 |].
      split; [intros Hn; contradiction |].
      intros _. split; [reflexivity | apply versions_update_doc].
    + destruct (Hdoc (Done (mkVersion D (currentVersion d + 1) (JStr c) userId
                              (clock st)),
                      set_versions (update_doc D f st)
                        (versions st ++ [mkVersion D (currentVersion d + 1) (JStr c)
                                           userId (clock st)])) eq_refl)
        as (H1 & H2 & H3).
      split; [exact H1 |]. split; [exact H2 |]. split; [exact H3 |].
      split; [intros _; split; reflexivity |].
      intros Hin. contradiction.
Qed.

Lemma createDocumentVersion_writes_the_document_first_witness :
  run (createDocumentVersion "ghost" "text" "u1") open_state =
    (Threw (OtherError "Document not found"), open_state) /\
  (content <$> docs (run (createDocumentVersion "d1" "text" "u1") open_state).2
                 !! "d1") = Some (JStr "text").
Proof.
  destruct (createDocumentVersion_writes_the_document_first open_state "ghost"
              "text" "u1") as (H1 & _).
  destruct (createDocumentVersion_writes_the_document_first open_state "d1"
              "text" "u1") as (_ & H2).
  split; [apply H1; reflexivity |].
  destruct (H2 open_doc eq_refl) as (H & _); [discriminate | exact H].
Defined.

(** ** The token of the handshake *)

Lemma split_space_no_space s : no_space s = true -> split_space s = [s].
Proof.
  induction s as [| a s IH]; intros H; [reflexivity |].
  cbn [no_space] in H. apply andb_true_iff in H as [Ha Hs].
  cbn [split_space]. apply negb_true_iff in Ha. rewrite Ha, (IH Hs). reflexivity.
Qed.

Lemma split_space_app s t :
  no_space s = true -> split_space (s +:+ " " +:+ t) = s :: split_space t.
Proof.
  induction s as [| a s IH]; intros H; [reflexivity |].
  cbn [no_space] in H. apply andb_true_iff in H as [Ha Hs].
  change (String a s +:+ " " +:+ t) with (String a (s +:+ " " +:+ t)).
  cbn [split_space]. apply negb_true_iff in Ha.
  rewrite Ha, (IH Hs). reflexivity.
Qed.

(** X15. Where the middleware takes the token from: a non-empty
    [auth.token] wins over everything; otherwise a non-empty [query.token];
    otherwise the second word of the Authorization header, whatever the
    first word is (the scheme is not checked). A header of one word gives
    no token. *)
Theorem handshake_token_sources :
  forall (hs : Handshake),
    (str_truthy (auth_token hs) = true -> extract_token hs = auth_token hs) /\
    (str_truthy (auth_token hs) = false -> str_truthy (query_token hs) = true ->
     extract_token hs = query_token hs) /\
    (forall scheme tok,
       str_truthy (auth_token hs) = false -> str_truthy (query_token hs) = false ->
       authorization hs = Some (scheme +:+ " " +:+ tok) ->
       no_space scheme = true -> no_space tok = true ->
       extract_token hs = Some tok) /\
    (forall word,
       str_truthy (auth_token hs) = false -> str_truthy (query_token hs) = false ->
       authorization hs = Some word -> no_space word = true ->
       extract_token hs = None).
Proof.
  intros hs. unfold extract_token, str_or. repeat split.
  - intros ->. reflexivity.
  - intros -> ->. reflexivity.
  - intros scheme tok -> -> -> Hs Ht.
    change (default "" (Some (scheme +:+ " " +:+ tok)))
      with (scheme +:+ " " +:+ tok).
    rewrite (split_space_app _ _ Hs), (split_space_no_space _ Ht).
    destruct scheme; reflexivity.
  - intros word -> -> -> Hw.
    change (default "" (Some word)) with word.
    rewrite (split_space_no_space _ Hw).
    destruct (str_truthy _); reflexivity.
Qed.

Lemma handshake_token_sources_witness :
  extract_token (mkHandshake (Some "a") (Some "q") (Some "Bearer h")) = Some "a" /\
  extract_token (mkHandshake None (Some "q") (Some "Bearer h")) = Some "q" /\
  extract_token (mkHandshake None None (Some "Basic h")) = Some "h" /\
  extract_token (mkHandshake None None (Some "h")) = None.
Proof.
  destruct (handshake_token_sources
              (mkHandshake (Some "a") (Some "q") (Some "Bearer h"))) as (H1 & _).
  destruct (handshake_token_sources
              (mkHandshake None (Some "q") (Some "Bearer h"))) as (_ & H2 & _).
  destruct (handshake_token_sources (mkHandshake None None (Some "Basic h")))
    as (_ & _ & H3 & _).
  destruct (handshake_token_sources (mkHandshake None None (Some "h")))
    as (_ & _ & _ & H4).
  split; [apply H1; reflexivity |].
  split; [apply H2; reflexivity |].
  split; [apply (H3 "Basic" "h"); reflexivity |].
  apply (H4 "h"); reflexivity.
Defined.

(** * Properties of the routes (src/controllers/documentController.ts) *)

Lemma run_invalidate D userId st :
  run (invalidateDocumentCache D userId) st =
  (Done tt, set_cache st (invalidated D userId (cache st))).
Proof. reflexivity. Qed.

Lemma run_route_invalidate_collaborators D (cs : list Collaborator) st :
  run (invalidate_collaborators D cs) st =
  (Done tt, set_cache st (invalidated_all D cs (cache st))).
Proof. exact (run_invalidate_collaborators_guarded D cs st). Qed.

Lemma run_Document_save D document paths st :
  run (Document_save D document paths) st =
  if String.eqb (title (paths document)) "" then (Threw ValidationError, st)
  else (Done tt, update_doc D (fun d => with_updatedAt (clock st) (paths d)) st).
Proof.
  unfold Document_save. destruct (String.eqb _ ""); [reflexivity |].
  rewrite run_bind, run_call. cbn [exec fst snd].
  rewrite run_call, exec_DocUpdate. reflexivity.
Qed.

Lemma edit_denied_decide d userId :
  edit_denied d userId = negb (grants_write (decide_access d userId)).
Proof.
  unfold edit_denied, decide_access.
  destruct (bool_decide (owner d = userId)); [reflexivity |].
  destruct (find_collaborator userId (collaborators d)) as [c |]; [| reflexivity].
  destruct (c_permission c); reflexivity.
Qed.

Lemma run_updateDocument_permitted id userId ttl c d st :
  docs st !! id = Some d ->
  edit_denied d userId = false ->
  run (updateDocument (Some userId) id ttl c) st =
  if forallb (fun v => version_accepted v st) (update_record id userId c d (clock st))
  then if String.eqb (updated_title ttl d) ""
       then (Done 500, update_unsaved id userId c d st)
       else (Done 200, updated_state id userId ttl c d st)
  else (Done 500,
        set_cache st
          (invalidated_all id (collaborators d) (invalidated id userId (cache st)))).
Proof.
  intros Hd Hperm. unfold updateDocument.
  rewrite run_try_catch, run_bind, run_invalidate.
  rewrite run_bind, run_call. cbn [exec fst snd docs set_cache]. rewrite Hd, Hperm.
  rewrite run_bind, run_route_invalidate_collaborators. cbn [cache set_cache].
  set (st2 := set_cache _ (invalidated_all _ _ _)).
  assert (docs st2 !! id = Some d) as Hd2 by exact Hd.
  rewrite run_bind.
  destruct c as [x |]; cbn [update_record forallb].
  - rewrite run_bind, run_DocumentVersion_create. cbv zeta.
    rewrite (version_accepted_versions _ st st2) by reflexivity.
    change (clock st2) with (clock st). rewrite andb_true_r.
    destruct (version_accepted _ st); [| reflexivity].
    rewrite run_ret, run_bind, run_Document_save.
    assert (title (with_content x (currentVersion d + 1)
                     (if str_truthy ttl then with_title (trim (default "" ttl)) d
                      else d)) = updated_title ttl d) as ->.
    { unfold updated_title. destruct (str_truthy ttl); reflexivity. }
    destruct (String.eqb (updated_title ttl d) ""); [reflexivity |].
    cbn [run mret prog_ret]. f_equal.
    unfold update_doc. cbn [docs set_versions]. rewrite Hd2.
    unfold updated_state, set_docs, updated_document, updated_title.
    cbn. destruct (str_truthy ttl); reflexivity.
  - rewrite run_ret, run_bind, run_Document_save.
    assert (title (if str_truthy ttl then with_title (trim (default "" ttl)) d
                   else d) = updated_title ttl d) as ->.
    { unfold updated_title. destruct (str_truthy ttl); reflexivity. }
    destruct (String.eqb (updated_title ttl d) "").
    + cbn. unfold update_unsaved. cbn. rewrite app_nil_r. reflexivity.
    + cbn [run mret prog_ret]. f_equal.
      unfold update_doc. rewrite Hd2.
      unfold updated_state, set_docs, updated_document, updated_title.
      cbn. rewrite app_nil_r. destruct (str_truthy ttl); reflexivity.
Qed.

(** X16. [updateDocument] changes no document and no version record when
    it turns the request down: 401 without a user; 404 when the document
    does not exist and 403 when the requester is neither the owner nor a
    collaborator with edit permission, in both cases after the
    requester's own cache entries for that id were invalidated (the
    invalidation precedes the lookup). *)
Theorem updateDocument_rejections :
  forall (st : State) (id userId : string) (ttl : option string)
         (c : option JsVal),
    run (updateDocument None id ttl c) st = (Done 401, st) /\
    (docs st !! id = None ->
     run (updateDocument (Some userId) id ttl c) st =
       (Done 404, set_cache st (invalidated id userId (cache st)))) /\
    (forall d, docs st !! id = Some d ->
       owner d ≠ userId ->
       (forall col, col ∈ collaborators d -> c_user col = userId ->
                    c_permission col = view) ->
       run (updateDocument (Some userId) id ttl c) st =
         (Done 403, set_cache st (invalidated id userId (cache st)))).
Proof.
  intros st id userId ttl c. split; [reflexivity |]. split.
  - intros Hd. unfold updateDocument.
    rewrite run_try_catch, run_bind, run_invalidate.
    rewrite run_bind, run_call. cbn [exec fst snd docs set_cache]. rewrite Hd.
    reflexivity.
  - intros d Hd Ho Hview. unfold updateDocument.
    rewrite run_try_catch, run_bind, run_invalidate.
    rewrite run_bind, run_call. cbn [exec fst snd docs set_cache]. rewrite Hd.
    assert (edit_denied d userId = true) as ->; [| reflexivity].
    unfold edit_denied. rewrite bool_decide_false by exact Ho. cbn [negb andb].
    destruct (find_collaborator userId (collaborators d)) as [col |] eqn:Hf;
      [| reflexivity].
    apply find_collaborator_Some in Hf as (l1 & l2 & Hl & Hu & _).
    rewrite (Hview col); [reflexivity | | exact Hu].
    rewrite Hl. apply elem_of_app. right. apply elem_of_cons. left. reflexivity.
Qed.

Lemma updateDocument_rejections_witness :
  run (updateDocument (Some "u1") "ghost" (Some "T") (Some (JStr "x"))) review_state =
    (Done 404, review_state) /\
  run (updateDocument (Some "u2") "d1" (Some "T") (Some (JStr "x"))) review_state =
    (Done 403, review_state).
Proof.
  destruct (updateDocument_rejections review_state "ghost" "u1" (Some "T")
              (Some (JStr "x"))) as (_ & H1 & _).
  destruct (updateDocument_rejections review_state "d1" "u2" (Some "T")
              (Some (JStr "x"))) as (_ & _ & H2).
  split.
  - rewrite H1 by reflexivity. reflexivity.
  - rewrite (H2 review_doc eq_refl).
    + reflexivity.
    + discriminate.
    + intros col Hcol _. apply list_elem_of_singleton in Hcol. subst col.
      reflexivity.
Defined.

(** X17. [updateDocument] by the owner or a collaborator with edit
    permission, when the version record is taken and the title left in
    the document is not empty, answers 200 and leaves: the title replaced
    by the trimmed new one when one is given; when a content is given,
    that content, currentVersion raised by one and one new version record
    created with that number, that content and the requester; without
    content no version record and the same currentVersion; [data], owner,
    collaborators and online users as they were; nothing emitted. Of the
    cache it deletes, for the requester and for every collaborator, the
    key of the detail entry and the key user:<u>:documents; the cached
    pages of the document lists (ids without colon) all stay. *)
Theorem updateDocument_stores_title_content_and_version :
  forall (st : State) (id userId : string) (ttl : option string)
         (c : option JsVal) (d : Document),
    docs st !! id = Some d ->
    grants_write (decide_access d userId) = true ->
    updated_title ttl d ≠ "" ->
    Forall (fun v => version_accepted v st = true)
           (update_record id userId c d (clock st)) ->
    let st' := updated_state id userId ttl c d st in
    run (updateDocument (Some userId) id ttl c) st = (Done 200, st') /\
    (forall u,
       u = userId \/ (exists col, col ∈ collaborators d /\ c_user col = u) ->
       (detail_key id u ∉ cache st') /\
       ("user:" +:+ u +:+ ":documents" ∉ cache st')) /\
    (no_colon userId ->
     (forall col, col ∈ collaborators d -> no_colon (c_user col)) ->
     keeps_list_pages (cache st) (cache st')).
Proof.
  intros st id userId ttl c d Hd Hperm Htitle Hacc st'. subst st'.
  assert (edit_denied d userId = false) as Hden.
  { rewrite edit_denied_decide, Hperm. reflexivity. }
  split; [| split].
  - rewrite (run_updateDocument_permitted _ _ _ _ _ _ Hd Hden).
    rewrite (eqb_false_of_ne _ _ Htitle).
    assert (forallb (fun v => version_accepted v st)
                    (update_record id userId c d (clock st)) = true) as ->;
      [| reflexivity].
    apply forallb_forall. intros v Hv. apply list_elem_of_In in Hv.
    rewrite Forall_forall in Hacc. apply Hacc, Hv.
  - assert (forall u,
              u = userId \/ (exists col, col ∈ collaborators d /\ c_user col = u) ->
              forall key, key ∈ cache_entries id u ->
                          key ∉ cache (updated_state id userId ttl c d st)) as Hgone.
    { intros u [-> | (col & Hcol & <-)] key Hkey; cbn [cache updated_state].
      - intros Hin. apply (invalidated_all_subseteq id (collaborators d)) in Hin.
        exact (invalidated_entries id userId (cache st) key Hkey Hin).
      - apply (invalidated_all_entries id (collaborators d) _ col key Hcol Hkey). }
    intros u Hu. split; apply (Hgone u Hu); [left | right; left].
  - intros Hu Hcs. cbn [cache updated_state].
    apply (keeps_list_pages_trans _ (invalidated id userId (cache st))).
    + apply invalidated_keeps_list_pages, Hu.
    + apply invalidated_all_keeps_list_pages, Hcs.
Qed.

Lemma updateDocument_stores_title_content_and_version_witness :
  let r := run (updateDocument (Some "u2") "d1" (Some " Plan ") (Some (JStr "new")))
               shared_state in
  r.1 = Done 200 /\
  docs r.2 !! "d1" =
    Some (mkDocument "d1" "Plan" (JStr "new") defaultValue "u1"
                     [mkCollaborator "u2" edit] ["u1"; "u2"] 2 5) /\
  versions r.2 = [mkVersion "d1" 1 (JStr "") "u1" 0;
                  mkVersion "d1" 2 (JStr "new") "u2" 5] /\
  cache r.2 = {["document:d1:user:u1"; "user:u1:documents"]}.
Proof.
  destruct (updateDocument_stores_title_content_and_version shared_state "d1" "u2"
              (Some " Plan ") (Some (JStr "new")) shared_doc eq_refl eq_refl)
    as (H & _).
  - discriminate.
  - repeat constructor.
  - rewrite H. vm_compute. auto.
Defined.

Lemma run_updateDocument_missing id userId ttl c st :
  docs st !! id = None ->
  run (updateDocument (Some userId) id ttl c) st =
  (Done 404, set_cache st (invalidated id userId (cache st))).
Proof.
  intros Hd. unfold updateDocument.
  rewrite run_try_catch, run_bind, run_invalidate.
  rewrite run_bind, run_call. cbn [exec fst snd docs set_cache]. rewrite Hd.
  reflexivity.
Qed.

Lemma run_updateDocument_denied id userId ttl c d st :
  docs st !! id = Some d ->
  edit_denied d userId = true ->
  run (updateDocument (Some userId) id ttl c) st =
  (Done 403, set_cache st (invalidated id userId (cache st))).
Proof.
  intros Hd Hden. unfold updateDocument.
  rewrite run_try_catch, run_bind, run_invalidate.
  rewrite run_bind, run_call. cbn [exec fst snd docs set_cache]. rewrite Hd, Hden.
  reflexivity.
Qed.

Lemma update_record_accepted id userId c d st :
  forallb (fun v => version_accepted v st) (update_record id userId c d (clock st))
  = true ->
  match c with
  | Some x =>
      x ≠ JNull /\
      version_accepted (mkVersion id (currentVersion d + 1) x userId (clock st)) st
      = true
  | None => True
  end.
Proof.
  destruct c as [x |]; [| auto]. cbn [update_record forallb].
  rewrite andb_true_r. intros H. split; [| exact H].
  unfold version_accepted in H. apply andb_true_iff in H as [H _].
  intros ->. discriminate H.
Qed.

Lemma consistent_updated_state id userId ttl c d st :
  store_consistent st ->
  docs st !! id = Some d ->
  forallb (fun v => version_accepted v st) (update_record id userId c d (clock st))
  = true ->
  store_consistent (updated_state id userId ttl c d st).
Proof.
  intros Hst Hd Hacc. apply update_record_accepted in Hacc.
  destruct c as [x |].
  - destruct Hacc as [Hx _].
    apply (consistent_add_version id d
             (updated_document ttl (Some x) (clock st))
             (mkVersion id (currentVersion d + 1) x userId (clock st)) st);
      try reflexivity; try assumption.
  - apply (store_consistent_ext
             (update_doc id (updated_document ttl None (clock st)) st)).
    + cbn [docs updated_state]. rewrite docs_update_doc, Hd. reflexivity.
    + cbn [versions updated_state update_record].
      rewrite versions_update_doc, app_nil_r. reflexivity.
    + apply consistent_update_doc; [| exact Hst]. intros d0. split; reflexivity.
Qed.

(** X18. [updateDocument] keeps the numbering of versions: from a store
    where every document has exactly the version records 1 to
    currentVersion, any request, by anyone, with or without content (null
    included), leaves such a store, provided the title the request leaves
    in the document is not empty. The version record is created before the
    document is saved, so a refused record (null content) changes
    nothing. *)
Theorem updateDocument_keeps_version_numbering :
  forall (st : State) (req_user : option string) (id : string)
         (ttl : option string) (c : option JsVal),
    store_consistent st ->
    (forall d, docs st !! id = Some d -> updated_title ttl d ≠ "") ->
    store_consistent (run (updateDocument req_user id ttl c) st).2.
Proof.
  intros st req_user id ttl c Hst Htitle.
  destruct req_user as [userId |]; [| exact Hst].
  destruct (docs st !! id) as [d |] eqn:Hd.
  - destruct (edit_denied d userId) eqn:Hden.
    + rewrite (run_updateDocument_denied _ _ _ _ _ _ Hd Hden).
      apply (store_consistent_ext st); [reflexivity | reflexivity | exact Hst].
    + rewrite (run_updateDocument_permitted _ _ _ _ _ _ Hd Hden).
      rewrite (eqb_false_of_ne _ _ (Htitle d eq_refl)).
      destruct (forallb _ _) eqn:Hacc.
      * apply consistent_updated_state; assumption.
      * apply (store_consistent_ext st); [reflexivity | reflexivity | exact Hst].
  - rewrite (run_updateDocument_missing _ _ _ _ _ Hd).
    apply (store_consistent_ext st); [reflexivity | reflexivity | exact Hst].
Qed.

Lemma consistent_shared_state : store_consistent shared_state.
Proof.
  intros D. destruct (decide (D = "d1")) as [-> | Hne].
  - replace (docs shared_state !! "d1") with (Some shared_doc) by reflexivity.
    unfold doc_consistent.
    replace (version_numbers "d1" (versions shared_state)) with [1] by reflexivity.
    cbn [content currentVersion shared_doc].
    split; [discriminate |]. split; [lia |]. split; [apply NoDup_singleton |].
    intros n. rewrite list_elem_of_singleton. lia.
  - replace (docs shared_state !! D) with (@None Document).
    + cbn. unfold version_numbers, versions_of. cbn.
      destruct (decide ("d1" = D)) as [<- |]; [contradiction | reflexivity].
    + symmetry. unfold shared_state. cbn [docs].
      apply lookup_singleton_ne. congruence.
Qed.

Lemma updateDocument_keeps_version_numbering_witness :
  store_consistent
    (run (updateDocument (Some "u2") "d1" None (Some JNull)) shared_state).2.
Proof.
  apply (updateDocument_keeps_version_numbering shared_state (Some "u2") "d1" None
           (Some JNull) consistent_shared_state).
  intros d Hd. injection Hd as <-. discriminate.
Defined.

(** X19. A title of white space only: [updateDocument] with such a title
    and a content, by a permitted user, makes the version record, then
    fails to save the document (the trimmed title is empty and [title] is
    required) and answers 500. The record numbered currentVersion + 1
    stays while the document is unchanged. In every later store in which
    that number is still taken and the document still has the same
    currentVersion (the store right after the failure is one; a write
    that raises currentVersion, as a save-document of the sockets does,
    ends this), an [updateDocument] of that document that carries a
    content does not answer 200, whoever sends it and whatever it holds,
    and changes neither documents nor version records. *)
Theorem updateDocument_blank_title_leaves_a_stray_record :
  forall (st : State) (id userId t : string) (x : JsVal) (d : Document),
    docs st !! id = Some d ->
    grants_write (decide_access d userId) = true ->
    t ≠ "" -> trim t = "" ->
    x ≠ JNull ->
    currentVersion d + 1 ∉ version_numbers id (versions st) ->
    let r := run (updateDocument (Some userId) id (Some t) (Some x)) st in
    r.1 = Done 500 /\
    docs r.2 = docs st /\
    versions r.2 =
      versions st ++ [mkVersion id (currentVersion d + 1) x userId (clock st)] /\
    currentVersion d + 1 ∈ version_numbers id (versions r.2) /\
    forall (st1 : State) (d1 : Document) (userId' : string)
           (ttl' : option string) (x' : JsVal),
      docs st1 !! id = Some d1 ->
      currentVersion d1 = currentVersion d ->
      currentVersion d + 1 ∈ version_numbers id (versions st1) ->
      let r' := run (updateDocument (Some userId') id ttl' (Some x')) st1 in
      r'.1 ≠ Done 200 /\ docs r'.2 = docs st1 /\ versions r'.2 = versions st1.
Proof.
  intros st id userId t x d Hd Hperm Ht Hblank Hx Hfree r. subst r.
  assert (edit_denied d userId = false) as Hden.
  { rewrite edit_denied_decide, Hperm. reflexivity. }
  rewrite (run_updateDocument_permitted _ _ _ _ _ _ Hd Hden).
  cbn [update_record forallb]. rewrite andb_true_r.
  rewrite (version_accepted_fresh _ _ _ _ _ _ Hx Hfree).
  assert (updated_title (Some t) d = "") as ->.
  { unfold updated_title, str_truthy. rewrite (eqb_false_of_ne _ _ Ht). exact Hblank. }
  cbn [String.eqb fst snd docs versions update_unsaved update_record].
  split; [reflexivity |]. split; [reflexivity |]. split; [reflexivity |].
  split.
  { rewrite version_numbers_app, version_numbers_same by reflexivity.
    apply elem_of_app. right. apply list_elem_of_singleton. reflexivity. }
  intros st1 d1 userId' ttl' x' Hd1 Hcv Htaken.
  destruct (edit_denied d1 userId') eqn:Hden'.
  - rewrite (run_updateDocument_denied _ _ _ _ _ _ Hd1 Hden').
    split; [discriminate |]. split; reflexivity.
  - rewrite (run_updateDocument_permitted _ _ _ _ _ _ Hd1 Hden').
    cbn [update_record forallb]. rewrite andb_true_r.
    assert (version_accepted
              (mkVersion id (currentVersion d1 + 1) x' userId' (clock st1)) st1
            = false) as ->.
    { unfold version_accepted, index_taken. cbn [v_document versionNumber].
      rewrite Hcv, (bool_decide_true _ Htaken). apply andb_false_r. }
    cbn [fst snd docs versions set_cache].
    split; [discriminate |]. split; reflexivity.
Qed.

Lemma updateDocument_blank_title_leaves_a_stray_record_witness :
  let r := run (updateDocument (Some "u1") "d1" (Some "  ") (Some (JStr "new")))
               shared_state in
  r.1 = Done 500 /\
  docs r.2 = docs shared_state /\
  version_numbers "d1" (versions r.2) = [1; 2] /\
  (run (updateDocument (Some "u1") "d1" None (Some (JStr "again"))) r.2).1
    ≠ Done 200.
Proof.
  destruct (updateDocument_blank_title_leaves_a_stray_record shared_state "d1" "u1"
              "  " (JStr "new") shared_doc eq_refl eq_refl)
    as (H1 & H2 & H3 & H4 & H5).
  - discriminate.
  - reflexivity.
  - discriminate.
  - apply (bool_decide_unpack _). vm_compute. exact I.
  - split; [exact H1 |]. split; [exact H2 |]. split; [rewrite H3; reflexivity |].
    apply (H5 _ shared_doc "u1" None (JStr "again")).
    + rewrite H2. reflexivity.
    + reflexivity.
    + exact H4.
Defined.

(** What ends it: after the failed update ann saves "hello" over her
    socket. The save raises currentVersion to 2, its own record is refused
    (the number is taken) and she is told "Failed to save document"; the
    next update, numbered 3, goes through. *)
Example socket_save_after_a_stray_record :
  let st1 := (run (updateDocument (Some "u1") "d1" (Some "  ") (Some (JStr "new")))
                  shared_state).2 in
  let st2 := (run (dispatch "s1" (SaveDocument (JStr "hello"))) st1).2 in
  let r := run (updateDocument (Some "u1") "d1" None (Some (JStr "again"))) st2 in
  out st2 = [ToSocket "s1" "error" (PMessage "Failed to save document")] /\
  (currentVersion <$> docs st2 !! "d1") = Some 2 /\
  r.1 = Done 200 /\
  version_numbers "d1" (versions r.2) = [1; 2; 3].
Proof. vm_compute. auto. Qed.

Lemma out_on_get_document_existing sock user D d st :
  docs st !! D = Some d ->
  decide_access d (u_id user) ≠ acc_none ->
  out (run (on_get_document sock user D) st).2 =
  out st ++
  [ToSocket sock "load-document" (PValue (js_or (data d) defaultValue));
   ToRoom D "user-joined"
     (PUserJoined (u_id user) (username user) (email user)
                  (addToSet (u_id user) (onlineUsers d)))].
Proof.
  intros Hd Hacc.
  rewrite (run_on_get_document_existing _ _ _ _ _ Hd).
  rewrite bool_decide_false by exact Hacc.
  rewrite run_join_document. cbn [fst snd].
  destruct (join_snapshot_document sock user D d st Hd) as (_ & Ho & _).
  assert (presence D (present sock user D st)
          = addToSet (u_id user) (onlineUsers d)) as ->.
  { unfold presence. rewrite (docs_present _ _ _ _ _ Hd). reflexivity. }
  unfold emits. cbn [out set_out]. rewrite Ho, <- app_assoc. reflexivity.
Qed.

(** X20. What a REST update stores is not what a joiner is sent:
    [updateDocument] writes [content] and leaves [data] alone, while
    [get-document] sends [data]. After an update with content [x] went
    through, a user with access who joins the document is sent the [data]
    the document had before the update (or [{}]), not [x]. *)
Theorem rest_update_does_not_reach_joiners :
  forall (st : State) (id userId : string) (ttl : option string) (x : JsVal)
         (d : Document) (sock : string) (user : User),
    docs st !! id = Some d ->
    grants_write (decide_access d userId) = true ->
    updated_title ttl d ≠ "" ->
    version_accepted (mkVersion id (currentVersion d + 1) x userId (clock st)) st
      = true ->
    decide_access d (u_id user) ≠ acc_none ->
    let st' := (run (updateDocument (Some userId) id ttl (Some x)) st).2 in
    (content <$> docs st' !! id) = Some x /\
    out (run (on_get_document sock user id) st').2 =
      out st ++
      [ToSocket sock "load-document" (PValue (js_or (data d) defaultValue));
       ToRoom id "user-joined"
         (PUserJoined (u_id user) (username user) (email user)
                      (addToSet (u_id user) (onlineUsers d)))].
Proof.
  intros st id userId ttl x d sock user Hd Hperm Htitle Hacc Huser st'. subst st'.
  assert (edit_denied d userId = false) as Hden.
  { rewrite edit_denied_decide, Hperm. reflexivity. }
  rewrite (run_updateDocument_permitted _ _ _ _ _ _ Hd Hden).
  cbn [update_record forallb]. rewrite Hacc. cbn [andb].
  rewrite (eqb_false_of_ne _ _ Htitle). cbn [snd].
  assert (docs (updated_state id userId ttl (Some x) d st) !! id
          = Some (updated_document ttl (Some x) (clock st) d)) as Hd'
    by apply lookup_insert_eq.
  split; [rewrite Hd'; reflexivity |].
  rewrite (out_on_get_document_existing _ _ _ _ _ Hd'); [reflexivity |].
  exact Huser.
Qed.

Lemma rest_update_does_not_reach_joiners_witness :
  let st' := (run (updateDocument (Some "u1") "d1" None (Some (JStr "new")))
                  open_state).2 in
  (content <$> docs st' !! "d1") = Some (JStr "new") /\
  out (run (on_get_document "s2" bob "d1") st').2 =
    [ToSocket "s2" "load-document" (PValue (JObj "{}"));
     ToRoom "d1" "user-joined"
       (PUserJoined "u2" "bob" "bob@example.org" ["u1"; "u2"])].
Proof.
  apply (rest_update_does_not_reach_joiners open_state "d1" "u1" None (JStr "new")
           open_doc "s2" bob).
  - reflexivity.
  - reflexivity.
  - discriminate.
  - reflexivity.
  - vm_compute. discriminate.
Defined.

(** ** Collaborators *)

Lemma find_collaborator_cons u c l :
  find_collaborator u (c :: l) =
  if bool_decide (c_user c = u) then Some c else find_collaborator u l.
Proof. reflexivity. Qed.

Lemma find_collaborator_app u l1 l2 :
  find_collaborator u (l1 ++ l2) =
  match find_collaborator u l1 with
  | Some c => Some c
  | None => find_collaborator u l2
  end.
Proof.
  induction l1 as [| c l1 IH]; [reflexivity |].
  cbn [app]. rewrite !find_collaborator_cons.
  destruct (bool_decide (c_user c = u)); [reflexivity | exact IH].
Qed.

Lemma find_set_permission_same u p l :
  is_Some (find_collaborator u l) ->
  find_collaborator u (set_permission u p l) = Some (mkCollaborator u p).
Proof.
  induction l as [| c l IH]; intros [c0 H]; [discriminate H |].
  rewrite find_collaborator_cons in H. cbn [set_permission].
  destruct (bool_decide_reflect (c_user c = u)) as [Hc | Hc].
  - rewrite find_collaborator_cons. cbn [c_user].
    rewrite bool_decide_true by exact Hc. rewrite Hc. reflexivity.
  - rewrite find_collaborator_cons, bool_decide_false by exact Hc.
    apply IH. exists c0. exact H.
Qed.

Lemma find_set_permission_other u v p l :
  v ≠ u -> find_collaborator v (set_permission u p l) = find_collaborator v l.
Proof.
  intros Hv. induction l as [| c l IH]; [reflexivity |].
  cbn [set_permission].
  destruct (bool_decide_reflect (c_user c = u)) as [Hc | Hc].
  - rewrite !find_collaborator_cons. cbn [c_user].
    rewrite !bool_decide_false by congruence. reflexivity.
  - rewrite !find_collaborator_cons, IH. reflexivity.
Qed.

Lemma users_set_permission u p l :
  c_user <$> set_permission u p l = c_user <$> l.
Proof.
  induction l as [| c l IH]; [reflexivity |].
  cbn [set_permission]. destruct (bool_decide (c_user c = u)).
  - reflexivity.
  - rewrite !fmap_cons, IH. reflexivity.
Qed.

Lemma find_collaborator_users u l :
  find_collaborator u l = None <-> u ∉ c_user <$> l.
Proof.
  rewrite find_collaborator_None, list_elem_of_fmap. split.
  - intros H (c & -> & Hc). exact (H c Hc eq_refl).
  - intros H c Hc Hu. apply H. exists c. auto.
Qed.

Lemma upsert_collaborator_spec u p l :
  find_collaborator u (upsert_collaborator u p l) = Some (mkCollaborator u p) /\
  (forall v, v ≠ u ->
     find_collaborator v (upsert_collaborator u p l) = find_collaborator v l) /\
  (listed_once l -> listed_once (upsert_collaborator u p l)).
Proof.
  unfold upsert_collaborator, listed_once.
  destruct (find_collaborator u l) as [c |] eqn:Hf.
  - split; [apply find_set_permission_same; rewrite Hf; eauto |].
    split; [intros v Hv; apply find_set_permission_other, Hv |].
    rewrite users_set_permission. auto.
  - split.
    { rewrite find_collaborator_app, Hf, find_collaborator_cons.
      cbn [c_user]. rewrite bool_decide_true by reflexivity. reflexivity. }
    split.
    { intros v Hv. rewrite find_collaborator_app, find_collaborator_cons.
      cbn [c_user]. rewrite bool_decide_false by congruence.
      destruct (find_collaborator v l); reflexivity. }
    intros Hl. rewrite fmap_app. apply NoDup_app. split; [exact Hl |]. split.
    + intros x Hx Hx'. apply list_elem_of_singleton in Hx'. subst x.
      apply find_collaborator_users in Hf. contradiction.
    + apply NoDup_singleton.
Qed.

Lemma elem_of_remove_first c u l : c ∈ remove_first u l -> c ∈ l.
Proof.
  induction l as [| c0 l IH]; [intros H; exact H |].
  cbn [remove_first]. destruct (bool_decide (c_user c0 = u)).
  - intros H. apply elem_of_cons. right. exact H.
  - rewrite !elem_of_cons. intros [-> | H]; [left; reflexivity | right; apply IH, H].
Qed.

Lemma remove_first_spec u l :
  (forall v, v ≠ u ->
     find_collaborator v (remove_first u l) = find_collaborator v l) /\
  (listed_once l -> find_collaborator u (remove_first u l) = None) /\
  (listed_once l -> listed_once (remove_first u l)).
Proof.
  unfold listed_once. induction l as [| c l (IH1 & IH2 & IH3)].
  - repeat split. constructor.
  - cbn [remove_first].
    destruct (bool_decide_reflect (c_user c = u)) as [Hc | Hc].
    + split.
      { intros v Hv. rewrite find_collaborator_cons, bool_decide_false by congruence.
        reflexivity. }
      rewrite fmap_cons, NoDup_cons. split.
      * intros [Hnot _]. apply find_collaborator_users. congruence.
      * intros [_ Hl]. exact Hl.
    + split.
      { intros v Hv. rewrite !find_collaborator_cons, (IH1 v Hv). reflexivity. }
      rewrite !fmap_cons, !NoDup_cons. split.
      * intros [_ Hl]. rewrite find_collaborator_cons, bool_decide_false by exact Hc.
        apply IH2, Hl.
      * intros [Hnot Hl]. split; [| apply IH3, Hl].
        intros Hin. apply Hnot.
        apply list_elem_of_fmap in Hin as (c' & Heq & Hc').
        apply list_elem_of_fmap. exists c'. split; [exact Heq |].
        apply (elem_of_remove_first _ u), Hc'.
Qed.

Lemma remove_first_appended u p l :
  find_collaborator u l = None -> remove_first u (l ++ [mkCollaborator u p]) = l.
Proof.
  induction l as [| c l IH]; intros H.
  - cbn. rewrite bool_decide_true by reflexivity. reflexivity.
  - rewrite find_collaborator_cons in H. cbn [app remove_first].
    destruct (bool_decide (c_user c = u)); [discriminate H |].
    rewrite (IH H). reflexivity.
Qed.

Lemma run_addCollaborator req_user id userId permission st :
  run (addCollaborator req_user id userId permission) st =
  match parse_permission permission with
  | None => (Done 400, st)
  | Some p =>
      if String.eqb userId "" then (Done 400, st)
      else
        match docs st !! id with
        | None => (Done 404, st)
        | Some d =>
            match req_user with
            | None => (Done 403, st)
            | Some requester =>
                if negb (bool_decide (owner d = requester)) then (Done 403, st)
                else
                  match users st !! userId with
                  | None => (Done 404, st)
                  | Some _ =>
                      if String.eqb (title d) "" then (Done 500, st)
                      else (Done 200,
                            collaborators_saved id requester userId
                              (upsert_collaborator userId p (collaborators d)) st)
                  end
            end
        end
  end.
Proof.
  unfold addCollaborator. rewrite run_try_catch.
  destruct (parse_permission permission) as [p |]; [| reflexivity].
  destruct (String.eqb userId ""); [reflexivity |].
  rewrite run_bind, run_call. cbn [exec fst snd].
  destruct (docs st !! id) as [d |] eqn:Hd; [| reflexivity].
  destruct req_user as [requester |]; [| reflexivity].
  destruct (negb (bool_decide (owner d = requester))); [reflexivity |].
  rewrite run_bind, run_call. cbn [exec fst snd].
  destruct (users st !! userId) as [usr |]; [| reflexivity].
  rewrite run_bind, run_Document_save. cbn [title with_collaborators].
  destruct (String.eqb (title d) ""); [reflexivity |].
  rewrite run_bind, run_invalidate, run_bind, run_invalidate.
  cbn [run mret prog_ret cache set_cache]. f_equal.
  unfold collaborators_saved, upsert_collaborator.
  assert (cache (update_doc id
                   (fun d0 => with_updatedAt (clock st)
                      (with_collaborators
                         match find_collaborator userId (collaborators d) with
                         | Some _ => set_permission userId p (collaborators d)
                         | None => collaborators d ++ [mkCollaborator userId p]
                         end d0)) st) = cache st) as Hc by apply update_doc_fields.
  unfold set_cache at 1 2. cbn [docs versions users cache rooms session clock out].
  rewrite Hc. reflexivity.
Qed.

Lemma run_removeCollaborator req_user id userId st :
  run (removeCollaborator req_user id userId) st =
  if String.eqb userId "" then (Done 400, st)
  else
    match docs st !! id with
    | None => (Done 404, st)
    | Some d =>
        match req_user with
        | None => (Done 403, st)
        | Some requester =>
            if negb (bool_decide (owner d = requester)) then (Done 403, st)
            else
              match find_collaborator userId (collaborators d) with
              | None => (Done 404, st)
              | Some _ =>
                  if String.eqb (title d) "" then (Done 500, st)
                  else (Done 200,
                        collaborators_saved id requester userId
                          (remove_first userId (collaborators d)) st)
              end
        end
    end.
Proof.
  unfold removeCollaborator. rewrite run_try_catch.
  destruct (String.eqb userId ""); [reflexivity |].
  rewrite run_bind, run_call. cbn [exec fst snd].
  destruct (docs st !! id) as [d |] eqn:Hd; [| reflexivity].
  destruct req_user as [requester |]; [| reflexivity].
  destruct (negb (bool_decide (owner d = requester))); [reflexivity |].
  destruct (find_collaborator userId (collaborators d)) as [col |]; [| reflexivity].
  rewrite run_bind, run_Document_save. cbn [title with_collaborators].
  destruct (String.eqb (title d) ""); [reflexivity |].
  rewrite run_bind, run_invalidate, run_bind, run_invalidate.
  cbn [run mret prog_ret cache set_cache]. f_equal.
  unfold collaborators_saved.
  assert (cache (update_doc id
                   (fun d0 => with_updatedAt (clock st)
                      (with_collaborators (remove_first userId (collaborators d)) d0))
                   st) = cache st) as Hc by apply update_doc_fields.
  unfold set_cache at 1 2. cbn [docs versions users cache rooms session clock out].
  rewrite Hc. reflexivity.
Qed.

Lemma collaborators_saved_document id requester userId cs d st :
  docs st !! id = Some d ->
  docs (collaborators_saved id requester userId cs st) !! id =
    Some (with_updatedAt (clock st) (with_collaborators cs d)) /\
  (forall D, D ≠ id ->
     docs (collaborators_saved id requester userId cs st) !! D = docs st !! D) /\
  versions (collaborators_saved id requester userId cs st) = versions st /\
  out (collaborators_saved id requester userId cs st) = out st /\
  (forall key, key ∈ cache_entries id userId ++ cache_entries id requester ->
               key ∉ cache (collaborators_saved id requester userId cs st)).
Proof.
  intros Hd. unfold collaborators_saved. cbn [docs versions out cache set_cache].
  split.
  { exact (lookup_update_doc_eq id
             (fun d0 => with_updatedAt (clock st) (with_collaborators cs d0))
             st d Hd). }
  split; [intros D HD; apply lookup_update_doc_ne; congruence |].
  split; [apply versions_update_doc |].
  split; [apply out_update_doc |].
  intros key Hkey. apply elem_of_app in Hkey as [Hkey | Hkey].
  - apply invalidated_entries, Hkey.
  - intros Hin. apply invalidated_subseteq in Hin.
    exact (invalidated_entries id requester (cache st) key Hkey Hin).
Qed.

(** X21. The two collaborator routes are all or nothing, and for the owner
    only: whenever [addCollaborator] or [removeCollaborator] answers
    anything but 200 the stores are exactly as before; neither answers 200
    for a document that does not exist or on a request that does not come
    from the owner of the document; [addCollaborator] does not answer 200
    for a user that does not exist, and answers 400 for a permission other
    than "view" and "edit". *)
Theorem collaborator_routes_are_owner_only_and_atomic :
  forall (st : State) (req_user : option string) (id userId permission : string),
    let a := run (addCollaborator req_user id userId permission) st in
    let r := run (removeCollaborator req_user id userId) st in
    (a.1 = Done 200 \/ a.2 = st) /\
    (r.1 = Done 200 \/ r.2 = st) /\
    (forall d, docs st !! id = Some d -> req_user ≠ Some (owner d) ->
       a.1 ≠ Done 200 /\ r.1 ≠ Done 200) /\
    (docs st !! id = None -> a.1 ≠ Done 200 /\ r.1 ≠ Done 200) /\
    (users st !! userId = None -> a.1 ≠ Done 200) /\
    (parse_permission permission = None -> a = (Done 400, st)).
Proof.
  intros st req_user id userId permission a r. subst a r.
  rewrite run_addCollaborator, run_removeCollaborator.
  assert (forall d requester, req_user = Some requester ->
            req_user ≠ Some (owner d) ->
            negb (bool_decide (owner d = requester)) = true) as Hother.
  { intros d requester -> Hne. rewrite bool_decide_false; [reflexivity |].
    intros <-. apply Hne. reflexivity. }
  split; [| split; [| split; [| split; [| split]]]].
  - destruct (parse_permission permission); [| auto].
    destruct (String.eqb userId ""); [auto |].
    destruct (docs st !! id) as [d |]; [| auto].
    destruct req_user as [requester |]; [| auto].
    destruct (negb _); [auto |].
    destruct (users st !! userId); [| auto].
    destruct (String.eqb (title d) ""); auto.
  - destruct (String.eqb userId ""); [auto |].
    destruct (docs st !! id) as [d |]; [| auto].
    destruct req_user as [requester |]; [| auto].
    destruct (negb _); [auto |].
    destruct (find_collaborator userId (collaborators d)); [| auto].
    destruct (String.eqb (title d) ""); auto.
  - intros d Hd Hne. rewrite Hd. split.
    + destruct (parse_permission permission); [| discriminate].
      destruct (String.eqb userId ""); [discriminate |].
      destruct req_user as [requester |]; [| discriminate].
      rewrite (Hother d requester eq_refl Hne). discriminate.
    + destruct (String.eqb userId ""); [discriminate |].
      destruct req_user as [requester |]; [| discriminate].
      rewrite (Hother d requester eq_refl Hne). discriminate.
  - intros Hd. rewrite Hd. split.
    + destruct (parse_permission permission); [| discriminate].
      destruct (String.eqb userId ""); discriminate.
    + destruct (String.eqb userId ""); discriminate.
  - intros Hu. rewrite Hu.
    destruct (parse_permission permission); [| discriminate].
    destruct (String.eqb userId ""); [discriminate |].
    destruct (docs st !! id) as [d |]; [| discriminate].
    destruct req_user as [requester |]; [| discriminate].
    destruct (negb _); discriminate.
  - intros Hp. rewrite Hp. reflexivity.
Qed.

Lemma collaborator_routes_are_owner_only_and_atomic_witness :
  run (addCollaborator (Some "u2") "d1" "u3" "edit") shared_state
    = (Done 403, shared_state) /\
  run (removeCollaborator (Some "u2") "d1" "u2") shared_state
    = (Done 403, shared_state) /\
  run (addCollaborator (Some "u1") "d1" "u2" "admin") shared_state
    = (Done 400, shared_state).
Proof.
  destruct (collaborator_routes_are_owner_only_and_atomic shared_state (Some "u2")
              "d1" "u3" "edit") as (_ & _ & H1 & _).
  destruct (collaborator_routes_are_owner_only_and_atomic shared_state (Some "u2")
              "d1" "u2" "edit") as (_ & _ & H2 & _).
  destruct (collaborator_routes_are_owner_only_and_atomic shared_state (Some "u1")
              "d1" "u2" "admin") as (_ & _ & _ & _ & _ & H3).
  split; [| split].
  - destruct (H1 shared_doc eq_refl) as [_ _]; [discriminate | reflexivity].
  - destruct (H2 shared_doc eq_refl) as [_ _]; [discriminate | reflexivity].
  - apply H3. reflexivity.
Defined.

(** X22. [addCollaborator] by the owner, for a user that exists, with a
    valid permission: 200; afterwards the list of collaborators has one
    entry for that user carrying the permission just given (an existing
    entry is updated, not doubled), the entries of all other users are as
    before, a list that named nobody twice still names nobody twice, and
    the permission gate decides for the user by the new permission.
    Title, content, data, owner, currentVersion and online users of the
    document, the other documents and all version records are untouched.
    Of the cache the route deletes, for the owner and for the user, the
    key of the detail entry and the key user:<u>:documents, and nothing
    else: the cached pages of the document lists (ids without colon) all
    stay. *)
Theorem addCollaborator_sets_the_permission :
  forall (st : State) (id userId permission : string) (p : Permission)
         (d : Document) (usr : User),
    parse_permission permission = Some p ->
    userId ≠ "" ->
    docs st !! id = Some d ->
    users st !! userId = Some usr ->
    title d ≠ "" ->
    let r := run (addCollaborator (Some (owner d)) id userId permission) st in
    r.1 = Done 200 /\
    (exists d',
       docs r.2 !! id = Some d' /\
       find_collaborator userId (collaborators d') = Some (mkCollaborator userId p) /\
       (forall u, u ≠ userId ->
          find_collaborator u (collaborators d') = find_collaborator u (collaborators d)) /\
       (listed_once (collaborators d) -> listed_once (collaborators d')) /\
       (userId ≠ owner d -> decide_access d' userId = of_permission p) /\
       same_text (with_collaborators (collaborators d') d) d' /\
       currentVersion d' = currentVersion d /\ onlineUsers d' = onlineUsers d) /\
    (forall D, D ≠ id -> docs r.2 !! D = docs st !! D) /\
    versions r.2 = versions st /\
    cache r.2 = invalidated id userId (invalidated id (owner d) (cache st)) /\
    (forall u, u = userId \/ u = owner d ->
       (detail_key id u ∉ cache r.2) /\
       ("user:" +:+ u +:+ ":documents" ∉ cache r.2)) /\
    (no_colon userId -> no_colon (owner d) ->
     keeps_list_pages (cache st) (cache r.2)).
Proof.
  intros st id userId permission p d usr Hp Hu Hd Husr Ht r. subst r.
  rewrite run_addCollaborator, Hp, (eqb_false_of_ne _ _ Hu), Hd.
  rewrite bool_decide_true by reflexivity. cbn [negb].
  rewrite Husr, (eqb_false_of_ne _ _ Ht). cbn [fst snd].
  destruct (collaborators_saved_document id (owner d) userId
              (upsert_collaborator userId p (collaborators d)) d st Hd)
    as (Hd' & Hother & Hv & _ & Hcache).
  destruct (upsert_collaborator_spec userId p (collaborators d))
    as (Hfind & Hrest & Honce).
  split; [reflexivity |]. split.
  - eexists. split; [exact Hd' |]. cbn [collaborators with_updatedAt
                                          with_collaborators].
    split; [exact Hfind |]. split; [exact Hrest |]. split; [exact Honce |].
    split.
    + intros Hne. unfold decide_access.
      cbn [owner collaborators with_updatedAt with_collaborators].
      rewrite bool_decide_false by congruence. rewrite Hfind. reflexivity.
    + repeat split.
  - split; [exact Hother |]. split; [exact Hv |].
    split; [reflexivity |]. split.
    + intros u Hu'.
      assert (forall key, key ∈ cache_entries id u ->
                key ∉ cache (collaborators_saved id (owner d) userId
                               (upsert_collaborator userId p (collaborators d)) st))
        as Hgone.
      { intros key Hkey. apply Hcache. apply elem_of_app.
        destruct Hu' as [-> | ->]; [left | right]; exact Hkey. }
      split; apply Hgone; [left | right; left].
    + intros Huser Hown. cbn [cache collaborators_saved set_cache].
      apply (keeps_list_pages_trans _ (invalidated id (owner d) (cache st)));
        apply invalidated_keeps_list_pages; assumption.
Qed.

Lemma addCollaborator_sets_the_permission_witness :
  let r := run (addCollaborator (Some "u1") "d1" "u2" "edit") review_state in
  r.1 = Done 200 /\
  (collaborators <$> docs r.2 !! "d1") = Some [mkCollaborator "u2" edit].
Proof.
  destruct (addCollaborator_sets_the_permission review_state "d1" "u2" "edit" edit
              review_doc bob eq_refl)
    as (H1 & _).
  - discriminate.
  - reflexivity.
  - reflexivity.
  - discriminate.
  - split; [exact H1 | reflexivity].
Defined.

(** X23. [removeCollaborator] by the owner, for a user that is listed:
    200; the first entry of the user is taken out and the entries of all
    other users are as before; when the list named nobody twice the user
    has no entry left, and from then on [get-document] by that user (who
    is not the owner) is answered "Access denied" and changes nothing. *)
Theorem removeCollaborator_revokes_access :
  forall (st : State) (id userId : string) (d : Document) (col : Collaborator)
         (sock : string) (user : User),
    userId ≠ "" ->
    docs st !! id = Some d ->
    find_collaborator userId (collaborators d) = Some col ->
    listed_once (collaborators d) ->
    title d ≠ "" ->
    u_id user = userId ->
    userId ≠ owner d ->
    let r := run (removeCollaborator (Some (owner d)) id userId) st in
    r.1 = Done 200 /\
    (exists d',
       docs r.2 !! id = Some d' /\
       collaborators d' = remove_first userId (collaborators d) /\
       find_collaborator userId (collaborators d') = None /\
       (forall u, u ≠ userId ->
          find_collaborator u (collaborators d') = find_collaborator u (collaborators d)) /\
       decide_access d' userId = acc_none) /\
    versions r.2 = versions st /\
    run (on_get_document sock user id) r.2 =
      (Done tt, emits (ToSocket sock "error" (PMessage "Access denied")) r.2).
Proof.
  intros st id userId d col sock user Hu Hd Hcol Honce Ht Huser Hne r. subst r.
  rewrite run_removeCollaborator, (eqb_false_of_ne _ _ Hu), Hd.
  rewrite bool_decide_true by reflexivity. cbn [negb].
  rewrite Hcol, (eqb_false_of_ne _ _ Ht). cbn [fst snd].
  destruct (collaborators_saved_document id (owner d) userId
              (remove_first userId (collaborators d)) d st Hd)
    as (Hd' & _ & Hv & _ & _).
  destruct (remove_first_spec userId (collaborators d)) as (Hrest & Hgone & _).
  assert (decide_access
            (with_updatedAt (clock st)
               (with_collaborators (remove_first userId (collaborators d)) d))
            userId = acc_none) as Hnone.
  { unfold decide_access. cbn [owner collaborators with_updatedAt
                                 with_collaborators].
    rewrite bool_decide_false by congruence. rewrite (Hgone Honce). reflexivity. }
  split; [reflexivity |]. split.
  - eexists. split; [exact Hd' |].
    cbn [collaborators with_updatedAt with_collaborators].
    split; [reflexivity |]. split; [exact (Hgone Honce) |].
    split; [exact Hrest | exact Hnone].
  - split; [exact Hv |].
    rewrite (run_on_get_document_existing _ _ _ _ _ Hd'), Huser.
    rewrite bool_decide_true by exact Hnone. reflexivity.
Qed.

Lemma removeCollaborator_revokes_access_witness :
  let r := run (removeCollaborator (Some "u1") "d1" "u2") review_state in
  r.1 = Done 200 /\
  run (on_get_document "s9" bob "d1") r.2 =
    (Done tt, emits (ToSocket "s9" "error" (PMessage "Access denied")) r.2).
Proof.
  destruct (removeCollaborator_revokes_access review_state "d1" "u2" review_doc
              (mkCollaborator "u2" view) "s9" bob)
    as (H1 & _ & _ & H2).
  - discriminate.
  - reflexivity.
  - reflexivity.
  - apply NoDup_singleton.
  - discriminate.
  - reflexivity.
  - discriminate.
  - split; [exact H1 | exact H2].
Defined.

(** X24. Adding and then removing a collaborator who was not listed gives
    back the list of collaborators as it was; the two calls leave the
    document otherwise as stored, but for [updatedAt]. *)
Theorem add_then_remove_restores_the_collaborators :
  forall (st : State) (id userId permission : string) (p : Permission)
         (d : Document) (usr : User),
    parse_permission permission = Some p ->
    userId ≠ "" ->
    docs st !! id = Some d ->
    users st !! userId = Some usr ->
    title d ≠ "" ->
    find_collaborator userId (collaborators d) = None ->
    let a := run (addCollaborator (Some (owner d)) id userId permission) st in
    let r := run (removeCollaborator (Some (owner d)) id userId) a.2 in
    a.1 = Done 200 /\ r.1 = Done 200 /\
    docs r.2 !! id = Some (with_updatedAt (clock st) d).
Proof.
  intros st id userId permission p d usr Hp Hu Hd Husr Ht Hnew a r. subst a r.
  rewrite run_addCollaborator, Hp, (eqb_false_of_ne _ _ Hu), Hd.
  rewrite bool_decide_true by reflexivity. cbn [negb].
  rewrite Husr, (eqb_false_of_ne _ _ Ht). cbn [fst snd].
  assert (upsert_collaborator userId p (collaborators d)
          = collaborators d ++ [mkCollaborator userId p]) as ->.
  { unfold upsert_collaborator. rewrite Hnew. reflexivity. }
  destruct (collaborators_saved_document id (owner d) userId
              (collaborators d ++ [mkCollaborator userId p]) d st Hd)
    as (Hd' & _).
  split; [reflexivity |].
  rewrite run_removeCollaborator, (eqb_false_of_ne _ _ Hu), Hd'.
  cbn [owner collaborators title with_updatedAt with_collaborators].
  rewrite bool_decide_true by reflexivity. cbn [negb].
  rewrite find_collaborator_app, Hnew, find_collaborator_cons. cbn [c_user].
  rewrite bool_decide_true by reflexivity.
  rewrite (eqb_false_of_ne _ _ Ht). cbn [fst snd].
  split; [reflexivity |].
  rewrite (remove_first_appended _ _ _ Hnew).
  match goal with
  | |- docs (collaborators_saved _ _ _ _ ?s) !! _ = _ =>
      destruct (collaborators_saved_document id (owner d) userId (collaborators d)
                  _ s Hd') as (H & _)
  end.
  rewrite H.
  assert (clock (collaborators_saved id (owner d) userId
                   (collaborators d ++ [mkCollaborator userId p]) st) = clock st)
    as -> by (unfold collaborators_saved; cbn [clock set_cache];
              apply clock_update_doc).
  destruct d. reflexivity.
Qed.

Lemma add_then_remove_restores_the_collaborators_witness :
  let a := run (addCollaborator (Some "u1") "d1" "u3" "view") team_state in
  let r := run (removeCollaborator (Some "u1") "d1" "u3") a.2 in
  (collaborators <$> docs a.2 !! "d1")
    = Some [mkCollaborator "u2" view; mkCollaborator "u3" view] /\
  (collaborators <$> docs r.2 !! "d1") = Some [mkCollaborator "u2" view].
Proof.
  destruct (add_then_remove_restores_the_collaborators team_state
              "d1" "u3" "view" view review_doc carol eq_refl)
    as (_ & _ & H).
  - discriminate.
  - reflexivity.
  - reflexivity.
  - discriminate.
  - reflexivity.
  - split; [reflexivity |]. exact (f_equal (fmap collaborators) H).
Defined.

(** X25. A permission given by [addCollaborator] is what the socket
    handlers go by from the next event on: for a user other than the
    owner, after the owner set the permission, [hasDocumentAccess] says
    yes, [hasEditPermission] says yes exactly for "edit", and a
    [send-changes] of that user in the room of the document is relayed
    for "edit" and answered with the permission error for "view". *)
Theorem added_collaborator_is_gated_by_the_permission :
  forall (st : State) (id userId permission : string) (p : Permission)
         (d : Document) (usr : User) (sock : string) (user : User) (delta : JsVal),
    parse_permission permission = Some p ->
    userId ≠ "" ->
    docs st !! id = Some d ->
    users st !! userId = Some usr ->
    title d ≠ "" ->
    u_id user = userId ->
    userId ≠ owner d ->
    let st' := (run (addCollaborator (Some (owner d)) id userId permission) st).2 in
    run (hasDocumentAccess id userId) st' = (Done true, st') /\
    run (hasEditPermission id userId) st' = (Done (is_edit p), st') /\
    run (send_changes_room sock user delta id) st' =
      (Done tt,
       emits (if is_edit p
              then ToRoomExcept id sock "receive-changes" (PValue delta)
              else ToSocket sock "error"
                     (PMessage "You do not have permission to edit this document"))
             st').
Proof.
  intros st id userId permission p d usr sock user delta Hp Hu Hd Husr Ht Huser Hne
    st'. subst st'.
  rewrite run_addCollaborator, Hp, (eqb_false_of_ne _ _ Hu), Hd.
  rewrite bool_decide_true by reflexivity. cbn [negb].
  rewrite Husr, (eqb_false_of_ne _ _ Ht). cbn [snd].
  destruct (collaborators_saved_document id (owner d) userId
              (upsert_collaborator userId p (collaborators d)) d st Hd)
    as (Hd' & _).
  destruct (upsert_collaborator_spec userId p (collaborators d)) as (Hfind & _).
  assert (decide_access
            (with_updatedAt (clock st)
               (with_collaborators
                  (upsert_collaborator userId p (collaborators d)) d))
            userId = of_permission p) as Hacc.
  { unfold decide_access. cbn [owner collaborators with_updatedAt
                                 with_collaborators].
    rewrite bool_decide_false by congruence. rewrite Hfind. reflexivity. }
  rewrite run_hasDocumentAccess, run_hasEditPermission, run_send_changes_room, Hd'.
  rewrite write_denied_decide, Huser, Hacc.
  rewrite bool_decide_false by apply of_permission_not_none.
  destruct p; repeat split.
Qed.

Lemma added_collaborator_is_gated_by_the_permission_witness :
  let st' := (run (addCollaborator (Some "u1") "d1" "u2" "view") shared_state).2 in
  run (send_changes_room "s2" bob (JStr "delta") "d1") st' =
    (Done tt,
     emits (ToSocket "s2" "error"
              (PMessage "You do not have permission to edit this document")) st').
Proof.
  destruct (added_collaborator_is_gated_by_the_permission shared_state "d1" "u2"
              "view" view shared_doc bob "s2" bob (JStr "delta") eq_refl)
    as (_ & _ & H).
  - discriminate.
  - reflexivity.
  - reflexivity.
  - discriminate.
  - reflexivity.
  - discriminate.
  - exact H.
Defined.

(** ** Deleting a document and rolling it back *)

Lemma route_run_bind {A B : Type} (p : Route A) (f : A -> Route B) (st : State) :
  route_run (p ≫= f) st =
  match route_run p st with
  | (Done a, st') => route_run (f a) st'
  | (Threw e, st') => (Threw e, st')
  end.
Proof.
  unfold mbind, route_mbind. revert st.
  induction p as [a | e | X op k IH]; intros st; simpl; try reflexivity.
  destruct (rest_exec op st) as [x st']. apply IH.
Qed.

Lemma route_run_try {A : Type} (p : Route A) (h : Err -> Route A) (st : State) :
  route_run (route_try p h) st =
  match route_run p st with
  | (Done a, st') => (Done a, st')
  | (Threw e, st') => route_run (h e) st'
  end.
Proof.
  revert st. induction p as [a | e | X op k IH]; intros st; simpl; try reflexivity.
  destruct (rest_exec op st) as [x st']. apply IH.
Qed.

Lemma route_run_ask {X : Type} (op : RestOp X) (st : State) :
  route_run (ask op) st = (Done (rest_exec op st).1, (rest_exec op st).2).
Proof. unfold ask. simpl. destruct (rest_exec op st); reflexivity. Qed.

Lemma route_run_lift {A : Type} (p : Prog A) (st : State) :
  route_run (lift p) st = run p st.
Proof.
  revert st. induction p as [a | e | X op k IH]; intros st; simpl; try reflexivity.
  destruct (exec op st) as [x st']. apply IH.
Qed.

Lemma route_run_ret {A : Type} (a : A) (st : State) :
  route_run (mret a) st = (Done a, st).
Proof. reflexivity. Qed.

Lemma run_deleteDocument req_user id st :
  route_run (deleteDocument req_user id) st =
  match req_user with
  | None => (Done 401, st)
  | Some userId =>
      match docs st !! id with
      | None => (Done 404, st)
      | Some d =>
          if bool_decide (owner d ≠ userId) then (Done 403, st)
          else (Done 200, deleted_state id userId d st)
      end
  end.
Proof.
  unfold deleteDocument. rewrite route_run_try.
  destruct req_user as [userId |]; [| reflexivity].
  rewrite route_run_bind, route_run_ask. cbn [rest_exec exec fst snd].
  destruct (docs st !! id) as [d |]; [| reflexivity].
  destruct (bool_decide (owner d ≠ userId)); [reflexivity |].
  rewrite route_run_bind, route_run_ask. cbn [rest_exec fst snd].
  rewrite route_run_bind, route_run_ask. cbn [rest_exec fst snd].
  rewrite route_run_bind, route_run_lift, run_invalidate.
  rewrite route_run_bind, route_run_lift, run_route_invalidate_collaborators.
  reflexivity.
Qed.

Lemma versions_of_deleted id D (vs : list DocumentVersion) :
  versions_of D (filter (fun v => v_document v ≠ id) vs) =
  if bool_decide (D = id) then [] else versions_of D vs.
Proof.
  unfold versions_of. induction vs as [| v vs IH].
  - destruct (bool_decide (D = id)); reflexivity.
  - destruct (decide (v_document v = id)) as [He | Hne].
    + rewrite (filter_cons_False (fun v => v_document v ≠ id))
        by (intros H; apply H, He).
      rewrite IH. case_bool_decide as HD; [reflexivity |].
      rewrite (filter_cons_False (fun v => v_document v = D)) by congruence.
      reflexivity.
    + rewrite (filter_cons_True (fun v => v_document v ≠ id)) by exact Hne.
      destruct (decide (v_document v = D)) as [HD | HD].
      * rewrite !(filter_cons_True (fun v => v_document v = D)) by exact HD.
        rewrite IH. rewrite bool_decide_false by congruence. reflexivity.
      * rewrite !(filter_cons_False (fun v => v_document v = D)) by exact HD.
        exact IH.
Qed.

Lemma consistent_deleted_state id userId d st :
  store_consistent st -> store_consistent (deleted_state id userId d st).
Proof.
  intros Hst D. cbn [docs versions deleted_state].
  destruct (decide (D = id)) as [-> | HD].
  - rewrite lookup_delete_eq. cbn [doc_consistent]. unfold version_numbers.
    rewrite versions_of_deleted, bool_decide_true by reflexivity. reflexivity.
  - rewrite lookup_delete_ne by congruence. specialize (Hst D).
    unfold doc_consistent, version_numbers in *.
    rewrite versions_of_deleted, bool_decide_false by exact HD. exact Hst.
Qed.

(** X26. [deleteDocument] is for the owner only and all or nothing: it
    answers 401 without a user, 404 for a document that does not exist
    and 403 to anyone but the owner, each time with the stores untouched.
    For the owner it answers 200 and takes the document and every version
    record of it away, leaving all other documents and their records as
    they were, so that a store with well-numbered versions stays one. Of
    the cache it deletes, for the owner and for every collaborator, the
    key of the detail entry and the key user:<u>:documents; the cached
    pages of the document lists (ids without colon), which may still
    list the document, all stay. *)
Theorem deleteDocument_cascades_for_the_owner_only :
  forall (st : State) (req_user : option string) (id : string),
    let r := route_run (deleteDocument req_user id) st in
    (r.1 = Done 200 \/ r.2 = st) /\
    (req_user = None -> r.1 = Done 401) /\
    (forall userId, req_user = Some userId -> docs st !! id = None ->
       r.1 = Done 404) /\
    (forall userId d, req_user = Some userId -> docs st !! id = Some d ->
       owner d ≠ userId -> r.1 = Done 403) /\
    (forall d, req_user = Some (owner d) -> docs st !! id = Some d ->
       r = (Done 200, deleted_state id (owner d) d st) /\
       docs r.2 !! id = None /\
       versions_of id (versions r.2) = [] /\
       (forall D, D ≠ id ->
          docs r.2 !! D = docs st !! D /\
          versions_of D (versions r.2) = versions_of D (versions st)) /\
       (store_consistent st -> store_consistent r.2) /\
       (forall u,
          u = owner d \/ (exists col, col ∈ collaborators d /\ c_user col = u) ->
          (detail_key id u ∉ cache r.2) /\
          ("user:" +:+ u +:+ ":documents" ∉ cache r.2)) /\
       (no_colon (owner d) ->
        (forall col, col ∈ collaborators d -> no_colon (c_user col)) ->
        keeps_list_pages (cache st) (cache r.2))).
Proof.
  intros st req_user id r. subst r. rewrite run_deleteDocument.
  split; [| split; [| split; [| split]]].
  - destruct req_user as [userId |]; [| auto].
    destruct (docs st !! id) as [d |]; [| auto].
    destruct (bool_decide (owner d ≠ userId)); auto.
  - intros ->. reflexivity.
  - intros userId -> ->. reflexivity.
  - intros userId d -> -> Hne. rewrite bool_decide_true by exact Hne. reflexivity.
  - intros d -> ->. rewrite bool_decide_false by (intros H; apply H; reflexivity).
    cbn [fst snd docs versions cache deleted_state].
    split; [reflexivity |].
    split; [apply lookup_delete_eq |].
    split; [rewrite versions_of_deleted, bool_decide_true by reflexivity;
            reflexivity |].
    split.
    { intros D HD. split; [apply lookup_delete_ne; congruence |].
      rewrite versions_of_deleted, bool_decide_false by exact HD. reflexivity. }
    split; [apply consistent_deleted_state |].
    split.
    { assert (forall u,
                u = owner d \/
                (exists col, col ∈ collaborators d /\ c_user col = u) ->
                forall key, key ∈ cache_entries id u ->
                  key ∉ invalidated_all id (collaborators d)
                          (invalidated id (owner d) (cache st))) as Hgone.
      { intros u [-> | (col & Hcol & <-)] key Hkey.
        - intros Hin. apply (invalidated_all_subseteq id (collaborators d)) in Hin.
          exact (invalidated_entries id (owner d) (cache st) key Hkey Hin).
        - apply (invalidated_all_entries id (collaborators d) _ col key Hcol Hkey). }
      intros u Hu. split; apply (Hgone u Hu); [left | right; left]. }
    intros Hown Hcs.
    apply (keeps_list_pages_trans _ (invalidated id (owner d) (cache st))).
    + apply invalidated_keeps_list_pages, Hown.
    + apply invalidated_all_keeps_list_pages, Hcs.
Qed.

Lemma deleteDocument_cascades_for_the_owner_only_witness :
  route_run (deleteDocument (Some "u2") "d1") shared_state
    = (Done 403, shared_state) /\
  let r := route_run (deleteDocument (Some "u1") "d1") shared_state in
  r.1 = Done 200 /\ docs r.2 !! "d1" = None /\ versions r.2 = [] /\ cache r.2 = ∅.
Proof.
  destruct (deleteDocument_cascades_for_the_owner_only shared_state (Some "u2") "d1")
    as (Hall & _ & _ & H403 & _).
  destruct (deleteDocument_cascades_for_the_owner_only shared_state (Some "u1") "d1")
    as (_ & _ & _ & _ & Hown).
  split.
  - specialize (H403 "u2" shared_doc eq_refl eq_refl).
    destruct Hall as [H200 | Hst].
    + rewrite H403 in H200; [discriminate H200 | discriminate].
    + apply injective_projections; [apply H403; discriminate | exact Hst].
  - destruct (Hown shared_doc eq_refl eq_refl) as (Hr & Hd & _).
    cbv zeta. rewrite Hr. split; [reflexivity |]. split; [apply lookup_delete_eq |].
    split; [reflexivity |]. vm_compute. reflexivity.
Defined.

(** ann deletes "d1" while a page of her document list is cached: the
    page stays. *)
Example deleteDocument_leaves_the_cached_list :
  let st := set_cache shared_state
              {["document:d1:user:u1"; "user:u1:documents:page1:limit10"]} in
  cache (route_run (deleteDocument (Some "u1") "d1") st).2 =
    {["user:u1:documents:page1:limit10"]}.
Proof. vm_compute. reflexivity. Qed.

Lemma get_document_creates sock user D st :
  docs st !! D = None ->
  1 ∉ version_numbers D (versions st) ->
  let st' := (run (on_get_document sock user D) st).2 in
  docs st' !! D =
    Some (mkDocument D "Untitled Document" (JStr "") defaultValue (u_id user)
                     [] [u_id user] 1 (clock st)) /\
  versions st' = versions st ++ [mkVersion D 1 (JStr "") (u_id user) (clock st)].
Proof.
  intros Hd Hv. cbn zeta. rewrite run_on_get_document_new by assumption.
  rewrite run_join_document. cbn [snd].
  unfold join_snapshot, presence. rewrite presence_created.
  cbn [onlineUsers with_onlineUsers length].
  rewrite bool_decide_eq_false_2 by lia.
  split.
  - cbn [emits set_out docs]. rewrite presence_created. reflexivity.
  - cbn [emits set_out versions]. rewrite versions_present. reflexivity.
Qed.

(** X27. After the owner deleted a document its id is free again. The
    sockets still in its room get no answer at all to [send-changes] and
    [save-document] (the loop skips a room without document), and the
    next [get-document] for that id, by whoever sends it, makes a new
    empty document of which the sender is the owner, with its version 1. *)
Theorem deleted_document_id_is_taken_over_by_the_next_join :
  forall (st : State) (id : string) (d : Document),
    docs st !! id = Some d ->
    let st1 := (route_run (deleteDocument (Some (owner d)) id) st).2 in
    (forall sock user x,
       run (send_changes_room sock user x id) st1 = (Done tt, st1) /\
       run (save_document_room sock user x id) st1 = (Done tt, st1)) /\
    (forall sock user,
       let st2 := (run (on_get_document sock user id) st1).2 in
       docs st2 !! id =
         Some (mkDocument id "Untitled Document" (JStr "") defaultValue (u_id user)
                          [] [u_id user] 1 (clock st)) /\
       versions_of id (versions st2) =
         [mkVersion id 1 (JStr "") (u_id user) (clock st)]).
Proof.
  intros st id d Hd st1. subst st1.
  rewrite run_deleteDocument, Hd.
  rewrite bool_decide_false by (intros H; apply H; reflexivity). cbn [snd].
  set (st1 := deleted_state id (owner d) d st).
  assert (docs st1 !! id = None) as Hd1 by apply lookup_delete_eq.
  assert (versions_of id (versions st1) = []) as Hv1.
  { unfold st1. cbn [versions deleted_state].
    rewrite versions_of_deleted, bool_decide_true by reflexivity. reflexivity. }
  split.
  - intros sock user x.
    rewrite run_send_changes_room, run_save_document_room, Hd1. split; reflexivity.
  - intros sock user.
    destruct (get_document_creates sock user id st1 Hd1) as (H1 & H2).
    { unfold version_numbers. rewrite Hv1. apply not_elem_of_nil. }
    cbv zeta. split; [exact H1 |].
    rewrite H2, versions_of_app, Hv1, versions_of_same by reflexivity.
    reflexivity.
Qed.

Lemma deleted_document_id_is_taken_over_by_the_next_join_witness :
  let st1 := (route_run (deleteDocument (Some "u1") "d1") shared_state).2 in
  (owner <$> docs (run (on_get_document "s2" bob "d1") st1).2 !! "d1") = Some "u2".
Proof.
  destruct (deleted_document_id_is_taken_over_by_the_next_join shared_state "d1"
              shared_doc eq_refl) as (_ & H).
  destruct (H "s2" bob) as (H1 & _).
  exact (f_equal (fmap owner) H1).
Defined.

Lemma find_version_spec id n (vs : list DocumentVersion) :
  match find_version id n vs with
  | Some v => v ∈ vs /\ v_document v = id /\ versionNumber v = n
  | None => n ∉ version_numbers id vs
  end.
Proof.
  unfold find_version, version_numbers, versions_of.
  induction vs as [| v vs IH]; [apply not_elem_of_nil |].
  cbn [List.find].
  destruct (bool_decide_reflect (v_document v = id)) as [Hd | Hd]; cbn [andb].
  - destruct (Z.eqb_spec (versionNumber v) n) as [Hn | Hn].
    + split; [apply elem_of_cons; left; reflexivity | auto].
    + rewrite filter_cons_True by exact Hd. rewrite fmap_cons.
      destruct (List.find _ vs) as [w |].
      * destruct IH as (Hin & H). split; [apply elem_of_cons; right; exact Hin | exact H].
      * rewrite not_elem_of_cons. split; [congruence | exact IH].
  - rewrite filter_cons_False by exact Hd.
    destruct (List.find _ vs) as [w |]; [| exact IH].
    destruct IH as (Hin & H). split; [apply elem_of_cons; right; exact Hin | exact H].
Qed.

Lemma run_rollbackToVersion req_user id parsedVersion st :
  route_run (rollbackToVersion req_user id parsedVersion) st =
  match parsedVersion with
  | None => (Done 400, st)
  | Some n =>
      if Z.ltb n 1 then (Done 400, st)
      else
        match docs st !! id with
        | None => (Done 404, st)
        | Some d =>
            match req_user with
            | None => (Done 401, st)
            | Some userId =>
                if edit_denied d userId then (Done 403, st)
                else
                  match read_back <$> find_version id n (versions st) with
                  | None => (Done 404, st)
                  | Some v =>
                      if version_accepted
                           (rollback_record id userId v d (clock st)) st
                      then
                        if String.eqb (title d) ""
                        then (Done 500,
                              set_versions st
                                (versions st ++
                                 [rollback_record id userId v d (clock st)]))
                        else (Done 200, rolled_back id userId v d st)
                      else (Done 500, st)
                  end
            end
        end
  end.
Proof.
  unfold rollbackToVersion. rewrite route_run_try.
  destruct parsedVersion as [n |]; [| reflexivity].
  destruct (Z.ltb n 1); [reflexivity |].
  rewrite route_run_bind, route_run_ask. cbn [rest_exec exec fst snd].
  destruct (docs st !! id) as [d |] eqn:Hd; [| reflexivity].
  destruct req_user as [userId |]; [| reflexivity].
  destruct (edit_denied d userId); [reflexivity |].
  rewrite route_run_bind, route_run_ask. cbn [rest_exec fst snd].
  fold (find_version id n (versions st)).
  destruct (read_back <$> find_version id n (versions st)) as [v |];
    [| reflexivity].
  rewrite route_run_bind, route_run_lift, run_DocumentVersion_create. cbv zeta.
  fold (rollback_record id userId v d (clock st)).
  destruct (version_accepted _ st); [| reflexivity].
  rewrite route_run_bind, route_run_lift, run_Document_save.
  cbn [title with_content].
  destruct (String.eqb (title d) ""); [reflexivity |].
  rewrite route_run_bind, route_run_lift, run_invalidate.
  cbn [route_run mret route_ret]. f_equal.
  unfold update_doc. cbn [docs set_versions]. rewrite Hd. reflexivity.
Qed.

Lemma read_back_primitive v : primitive (v_content v) -> read_back v = v.
Proof.
  destruct v as [vd vn vc vb va]. unfold read_back. cbn [v_content].
  destruct vc; cbn [primitive]; intros H; try contradiction; reflexivity.
Qed.

Lemma read_back_without_content v :
  v_content v = defaultValue \/ v_content v = JNull ->
  v_content (read_back v) = JNull.
Proof. unfold read_back. cbn [v_content]. intros [-> | ->]; reflexivity. Qed.

(** X28. [rollbackToVersion] in a store with well-numbered versions, by
    the owner or a collaborator with edit permission of a document with a
    title, to a number between 1 and currentVersion: a record of that
    number exists. When it was made with a string, a number or a boolean,
    the route answers 200; the content of the document becomes that
    content, currentVersion goes up by one, and one record with the new
    number, that content and the requester is added after all the
    earlier ones, which stay; [data] is left as it was; the versions stay
    well numbered; of the cache only the two keys of the requester are
    deleted. When it was made with the empty object (as the snapshot of a
    document whose [data] was never saved is), the record read back has
    no content: the new record is refused and the route answers 500 with
    nothing changed. *)
Theorem rollbackToVersion_restores_a_recorded_content :
  forall (st : State) (id userId : string) (n : Z) (d : Document),
    store_consistent st ->
    docs st !! id = Some d ->
    title d ≠ "" ->
    grants_write (decide_access d userId) = true ->
    1 <= n <= currentVersion d ->
    let r := route_run (rollbackToVersion (Some userId) id (Some n)) st in
    exists v,
      v ∈ versions st /\ v_document v = id /\ versionNumber v = n /\
      (primitive (v_content v) ->
       r = (Done 200, rolled_back id userId v d st) /\
       (content <$> docs r.2 !! id) = Some (v_content v) /\
       (data <$> docs r.2 !! id) = Some (data d) /\
       (currentVersion <$> docs r.2 !! id) = Some (currentVersion d + 1) /\
       versions r.2 =
         versions st ++
         [mkVersion id (currentVersion d + 1) (v_content v) userId (clock st)] /\
       cache r.2 = invalidated id userId (cache st) /\
       store_consistent r.2) /\
      (v_content v = defaultValue \/ v_content v = JNull ->
       r = (Done 500, st)).
Proof.
  intros st id userId n d Hst Hd Ht Hperm Hn r. subst r.
  pose proof (Hst id) as Hid. rewrite Hd in Hid. cbn [doc_consistent] in Hid.
  destruct Hid as (_ & _ & _ & Hrange).
  pose proof (find_version_spec id n (versions st)) as Hfind.
  destruct (find_version id n (versions st)) as [v |] eqn:Hf;
    [| exfalso; apply Hfind, Hrange, Hn].
  destruct Hfind as (Hin & Hvd & Hvn).
  rewrite run_rollbackToVersion.
  assert (Z.ltb n 1 = false) as -> by (apply Z.ltb_ge; lia).
  rewrite Hd, edit_denied_decide, Hperm. cbn [negb].
  rewrite Hf. cbn [fmap option_fmap option_map].
  exists v.
  split; [exact Hin |]. split; [exact Hvd |]. split; [exact Hvn |]. split.
  - intros Hprim. rewrite (read_back_primitive v Hprim).
    assert (v_content v ≠ JNull) as Hc.
    { intros Hnull. rewrite Hnull in Hprim. exact Hprim. }
    assert (version_accepted (rollback_record id userId v d (clock st)) st = true)
      as Hacc.
    { apply version_accepted_fresh; [exact Hc |]. rewrite Hrange. lia. }
    rewrite Hacc, (eqb_false_of_ne _ _ Ht).
    cbn [fst snd docs versions cache rolled_back].
    rewrite lookup_insert_eq.
    do 6 (split; [reflexivity |]).
    apply (consistent_add_version id d
             (fun d0 => with_updatedAt (clock st)
                          (with_content (v_content v) (currentVersion d + 1) d0))
             (rollback_record id userId v d (clock st)) st);
      try reflexivity; assumption.
  - intros Hempty.
    assert (version_accepted
              (rollback_record id userId (read_back v) d (clock st)) st = false)
      as ->; [| reflexivity].
    unfold version_accepted, content_valid, rollback_record. cbn [v_content].
    rewrite (read_back_without_content v Hempty). reflexivity.
Qed.

Lemma consistent_review_state : store_consistent review_state.
Proof.
  intros D. destruct (decide (D = "d1")) as [-> | Hne].
  - replace (docs review_state !! "d1") with (Some review_doc) by reflexivity.
    unfold doc_consistent.
    replace (version_numbers "d1" (versions review_state)) with [1; 2]
      by reflexivity.
    cbn [content currentVersion review_doc].
    split; [discriminate |]. split; [lia |].
    split; [apply (bool_decide_unpack _); vm_compute; exact I |].
    intros n. rewrite !elem_of_cons, elem_of_nil. lia.
  - replace (docs review_state !! D) with (@None Document).
    + cbn. unfold version_numbers, versions_of. cbn.
      destruct (decide ("d1" = D)) as [<- |]; [contradiction | reflexivity].
    + symmetry. unfold review_state. cbn [docs].
      apply lookup_singleton_ne. congruence.
Qed.

Lemma rollbackToVersion_restores_a_recorded_content_witness :
  let r := route_run (rollbackToVersion (Some "u1") "d1" (Some 1)) review_state in
  r.1 = Done 200 /\
  (content <$> docs r.2 !! "d1") = Some (JStr "") /\
  version_numbers "d1" (versions r.2) = [1; 2; 3].
Proof.
  destruct (rollbackToVersion_restores_a_recorded_content review_state "d1" "u1" 1
              review_doc consistent_review_state)
    as (v & Hin & _ & Hn & Hr & _).
  - reflexivity.
  - discriminate.
  - reflexivity.
  - cbn. lia.
  - assert (v = mkVersion "d1" 1 (JStr "") "u1" 0) as ->.
    { apply elem_of_cons in Hin as [-> | Hin]; [reflexivity |].
      apply list_elem_of_singleton in Hin as ->. discriminate Hn. }
    destruct (Hr I) as (H & _). cbv zeta. rewrite H.
    split; [reflexivity |]. split; reflexivity.
Defined.

(** bob joins the document ann has open, whose [data] was never saved: the
    snapshot of the join is made with [{}], and a rollback to it fails. *)
Example rollback_to_the_snapshot_of_an_unsaved_document :
  let st1 := (run (on_get_document "s2" bob "d1") open_state).2 in
  versions st1 =
    [mkVersion "d1" 1 (JStr "") "u1" 0; mkVersion "d1" 2 defaultValue "u2" 3] /\
  (route_run (rollbackToVersion (Some "u1") "d1" (Some 2)) st1).1 = Done 500 /\
  versions (route_run (rollbackToVersion (Some "u1") "d1" (Some 2)) st1).2 =
    versions st1.
Proof. vm_compute. auto. Qed.

(** X29. [rollbackToVersion] answers 400, with nothing changed, when the
    version number does not parse or is below 1; it changes nothing and
    does not answer 200 when no record of the document has the number, or
    when the requester is neither the owner nor a collaborator with edit
    permission; and whatever it answers, it changes a document only when
    it answers 200. *)
Theorem rollbackToVersion_rejections :
  forall (st : State) (req_user : option string) (id : string)
         (parsedVersion : option Z),
    let r := route_run (rollbackToVersion req_user id parsedVersion) st in
    (r.1 = Done 200 \/ docs r.2 = docs st) /\
    (parsedVersion = None -> r = (Done 400, st)) /\
    (forall n, parsedVersion = Some n -> n < 1 -> r = (Done 400, st)) /\
    (forall n, parsedVersion = Some n ->
       n ∉ version_numbers id (versions st) -> r.1 ≠ Done 200 /\ r.2 = st) /\
    (forall d userId, docs st !! id = Some d -> req_user = Some userId ->
       grants_write (decide_access d userId) = false ->
       r.1 ≠ Done 200 /\ r.2 = st).
Proof.
  intros st req_user id parsedVersion r. subst r. rewrite run_rollbackToVersion.
  split; [| split; [| split; [| split]]].
  - destruct parsedVersion as [n |]; [| auto].
    destruct (Z.ltb n 1); [auto |].
    destruct (docs st !! id) as [d |]; [| auto].
    destruct req_user as [userId |]; [| auto].
    destruct (edit_denied d userId); [auto |].
    destruct (read_back <$> find_version id n (versions st)) as [v |]; [| auto].
    destruct (version_accepted _ st); [| auto].
    destruct (String.eqb (title d) ""); auto.
  - intros ->. reflexivity.
  - intros n -> Hn. assert (Z.ltb n 1 = true) as -> by (apply Z.ltb_lt; lia).
    reflexivity.
  - intros n -> Hn.
    pose proof (find_version_spec id n (versions st)) as Hfind.
    destruct (Z.ltb n 1); [split; [discriminate | reflexivity] |].
    destruct (docs st !! id) as [d |]; [| split; [discriminate | reflexivity]].
    destruct req_user as [userId |]; [| split; [discriminate | reflexivity]].
    destruct (edit_denied d userId); [split; [discriminate | reflexivity] |].
    destruct (find_version id n (versions st)) as [v |];
      [| split; [discriminate | reflexivity]].
    exfalso. destruct Hfind as (Hin & Hvd & Hvn). apply Hn.
    unfold version_numbers, versions_of. apply list_elem_of_fmap.
    exists v. split; [symmetry; exact Hvn |].
    apply list_elem_of_filter. split; [exact Hvd | exact Hin].
  - intros d userId Hd -> Hperm. rewrite Hd, edit_denied_decide, Hperm. cbn [negb].
    destruct parsedVersion as [n |]; [| split; [discriminate | reflexivity]].
    destruct (Z.ltb n 1); split; (discriminate || reflexivity).
Qed.

Lemma rollbackToVersion_rejections_witness :
  route_run (rollbackToVersion (Some "u1") "d1" (Some 0)) review_state
    = (Done 400, review_state) /\
  (route_run (rollbackToVersion (Some "u1") "d1" (Some 7)) review_state).2
    = review_state /\
  (route_run (rollbackToVersion (Some "u2") "d1" (Some 1)) review_state).2
    = review_state.
Proof.
  destruct (rollbackToVersion_rejections review_state (Some "u1") "d1" (Some 0))
    as (_ & _ & H1 & _).
  destruct (rollbackToVersion_rejections review_state (Some "u1") "d1" (Some 7))
    as (_ & _ & _ & H2 & _).
  destruct (rollbackToVersion_rejections review_state (Some "u2") "d1" (Some 1))
    as (_ & _ & _ & _ & H3).
  split; [apply (H1 0); [reflexivity | lia] |]. split.
  - apply (H2 7); [reflexivity |]. apply (bool_decide_unpack _). vm_compute. exact I.
  - apply (H3 review_doc "u2"); reflexivity.
Defined.

(** ** Cache entries that an update leaves *)

Lemma invalidated_keeps D u o key (c : gset string) :
  o ≠ u -> key ∈ cache_entries D o -> key ∈ c -> key ∈ invalidated D u c.
Proof.
  intros Hne Hkey Hin. unfold invalidated.
  apply elem_of_difference. split; [apply elem_of_difference; split |].
  - exact Hin.
  - rewrite elem_of_singleton. intros ->.
    unfold cache_entries in Hkey.
    rewrite !elem_of_cons, elem_of_nil in Hkey.
    destruct Hkey as [H | [H | []]].
    + apply append_inj_l, append_inj_l, append_inj_l in H. congruence.
    + discriminate H.
  - rewrite elem_of_singleton. intros ->.
    unfold cache_entries in Hkey.
    rewrite !elem_of_cons, elem_of_nil in Hkey.
    destruct Hkey as [H | [H | []]].
    + discriminate H.
    + apply append_inj_l, append_inj_r in H. congruence.
Qed.

Lemma invalidated_all_keeps D (cs : list Collaborator) o key (c : gset string) :
  (forall col, col ∈ cs -> c_user col ≠ o) ->
  key ∈ cache_entries D o -> key ∈ c -> key ∈ invalidated_all D cs c.
Proof.
  unfold invalidated_all. revert c.
  induction cs as [| col cs IH]; intros c Hcs Hkey Hin; [exact Hin |].
  cbn [foldl]. apply IH.
  - intros col' Hcol'. apply Hcs. apply elem_of_cons. right. exact Hcol'.
  - exact Hkey.
  - apply (invalidated_keeps D (c_user col) o); [| exact Hkey | exact Hin].
    intros Heq. apply (Hcs col); [apply elem_of_cons; left; reflexivity |].
    symmetry. exact Heq.
Qed.

(** X30. [updateDocument] invalidates the cache entries of the requester
    and of the collaborators, not those of the owner: when a collaborator
    updates a document whose owner is not listed among the collaborators,
    the owner's cached detail view and document list stay in the cache,
    whatever the route answers. *)
Theorem updateDocument_by_a_collaborator_keeps_the_owner_cache :
  forall (st : State) (id userId : string) (ttl : option string)
         (c : option JsVal) (d : Document) (key : string),
    docs st !! id = Some d ->
    owner d ≠ userId ->
    (forall col, col ∈ collaborators d -> c_user col ≠ owner d) ->
    key ∈ cache_entries id (owner d) ->
    key ∈ cache st ->
    key ∈ cache (run (updateDocument (Some userId) id ttl c) st).2.
Proof.
  intros st id userId ttl c d key Hd Hne Hcs Hkey Hin.
  pose proof (invalidated_keeps id userId (owner d) key (cache st) Hne Hkey Hin)
    as H1.
  pose proof (invalidated_all_keeps id (collaborators d) (owner d) key _ Hcs Hkey H1)
    as H2.
  destruct (edit_denied d userId) eqn:Hden.
  - rewrite (run_updateDocument_denied _ _ _ _ _ _ Hd Hden). exact H1.
  - rewrite (run_updateDocument_permitted _ _ _ _ _ _ Hd Hden).
    destruct (forallb _ _); [| exact H2].
    destruct (String.eqb _ ""); exact H2.
Qed.

Lemma updateDocument_by_a_collaborator_keeps_the_owner_cache_witness :
  "document:d1:user:u1" ∈
  cache (run (updateDocument (Some "u2") "d1" None (Some (JStr "new")))
             shared_state).2.
Proof.
  apply (updateDocument_by_a_collaborator_keeps_the_owner_cache shared_state "d1"
           "u2" None (Some (JStr "new")) shared_doc "document:d1:user:u1").
  - reflexivity.
  - discriminate.
  - intros col Hcol. apply list_elem_of_singleton in Hcol. subst col. discriminate.
  - apply elem_of_cons. left. reflexivity.
  - apply (bool_decide_unpack _). vm_compute. exact I.
Defined.
